(** * PiRotary: the rotary-dial pulse decoder and command dispatcher

    A shallow embedding of [smartphone/PiRotary.py].  The Python module keeps
    its whole state in module-level globals that the pigpio callbacks mutate;
    here the globals are the fields of one [State] record threaded through a
    state-and-exception monad.  The GPIO levels of the input pins, the
    standard output of the weather process and the return codes of the
    external commands are given by a [World], a function of a logical clock
    that every blocking call ([time.sleep], [subprocess.Popen]) advances. *)

From Stdlib Require Import ZArith List String Ascii Bool Lia.
From Stdlib.Strings Require Import Byte.
From stdpp Require Import base option list gmap.

Local Open Scope string_scope.
Local Open Scope Z_scope.

(** ** Python values used by the program *)

Module Py.

(** [str(n)] for an integer: decimal digits, most significant first. *)
Definition digit_char (d : Z) : ascii := ascii_of_N (Z.to_N (48 + d)).

Fixpoint digits_from (fuel : nat) (n : Z) (acc : string) : string :=
  let acc' := String (digit_char (n mod 10)) acc in
  match fuel with
  | O => acc'
  | S fuel' => if n <? 10 then acc' else digits_from fuel' (n / 10) acc'
  end.

Definition digits (n : Z) : string :=
  digits_from (Z.to_nat (Z.log2 n)) n EmptyString.

Definition str (n : Z) : string :=
  if n <? 0 then String "-"%char (digits (- n)) else digits n.

(** [int(s)] on a text of decimal digits; anything else is a
    [ValueError], here [None].  The dialled number only ever holds texts
    of digits (an invariant proved below), so the signs, blanks and
    underscores Python also accepts never reach it. *)
Definition digit_value (c : ascii) : option Z :=
  let n := Z.of_N (N_of_ascii c) in
  if (48 <=? n) && (n <=? 57) then Some (n - 48) else None.

Fixpoint int_from (s : string) (acc : Z) : option Z :=
  match s with
  | EmptyString => Some acc
  | String c s' =>
      match digit_value c with
      | Some d => int_from s' (10 * acc + d)
      | None => None
      end
  end.

Definition int (s : string) : option Z :=
  match s with
  | EmptyString => None
  | _ => int_from s 0
  end.

(** [l[i]]: a negative index counts from the end, anything outside
    [-len(l) .. len(l)-1] is an [IndexError], here [None]. *)
Definition index {A} (l : list A) (i : Z) : option A :=
  if 0 <=? i then l !! Z.to_nat i
  else if - Z.of_nat (length l) <=? i then l !! Z.to_nat (Z.of_nat (length l) + i)
  else None.

(** [bytes.splitlines()]: lines end at LF, CR or CRLF; the terminators are
    dropped and a final unterminated piece is a line only when it is not
    empty. *)
Fixpoint splitlines_from (bs : list byte) (cur : list byte) : list (list byte) :=
  match bs with
  | [] => match cur with [] => [] | _ => [rev cur] end
  | b :: rest =>
      if Byte.eqb b x0a then rev cur :: splitlines_from rest []
      else if Byte.eqb b x0d then
        match rest with
        | b' :: rest' =>
            if Byte.eqb b' x0a then rev cur :: splitlines_from rest' []
            else rev cur :: splitlines_from rest []
        | [] => [rev cur]
        end
      else splitlines_from rest (b :: cur)
  end.

Definition splitlines (bs : list byte) : list (list byte) := splitlines_from bs [].

(** [b.decode('ascii')]: a byte above 127 is a [UnicodeDecodeError]. *)
Fixpoint decode_ascii (bs : list byte) : option string :=
  match bs with
  | [] => Some EmptyString
  | b :: rest =>
      if (Byte.to_N b <? 128)%N
      then String (ascii_of_byte b) <$> decode_ascii rest
      else None
  end.

End Py.

(** ** Constants of the module *)

Definition PI_HIGH : Z := 1.
Definition PI_LOW : Z := 0.

Definition pin_hangout_led : Z := 4.
Definition pin_ampli_mode : Z := 15.
Definition pin_dial_counter : Z := 18.
Definition pin_dial_detect : Z := 27.
Definition pin_ampli_power : Z := 22.
Definition pin_phone_hangout : Z := 23.
Definition pin_dialer_led : Z := 24.
Definition pin_dial_counter_led : Z := 25.

Definition max_numbers : Z := 3.
Definition DEBUG : bool := false.

Definition TTS : list string := ["/home/pi/smartphone/trans"; "-sp"].
Definition PLAYER : list string := ["mplayer"].
Definition REBOOT : list string := ["sudo"; "reboot"; "now"].
Definition WEATHER : list string := ["weather"].

(** The pins [initGPIO] configures as inputs; every other pin is an output
    and reads back the level last written to it. *)
Definition is_input (pin : Z) : bool :=
  (pin =? pin_dial_counter) || (pin =? pin_dial_detect) || (pin =? pin_phone_hangout).

(** ** Data model *)

(** The values [initGPIO] loads from the two JSON files; nothing assigns
    them afterwards. *)
Record Config := {
  text_messages : list string;
  track_list : list string;
  track_titles : list string;
  help_messages : list string;
  help_strings : Z;
  tracks : Z;
  music_path : string;
  weather_airport : string;
  weather_ICAO : string
}.

(** What the program observes of its surroundings.  An instant is the
    number of blocking calls and idle periods elapsed so far. *)
Record World := {
  input : nat → Z → Z;               (* level of an input pin at an instant *)
  returncode : nat → Z;              (* exit status of the process started at an instant *)
  weather_stdout : nat → list byte   (* what the weather process started then prints *)
}.

(** A global holding a pigpio callback object.  [pi.callback] creates a new
    object and stores it in the global; [cancel] stops the object the global
    holds and is harmless on one already cancelled.  [cb_live] counts the
    objects still delivering for the pin, [cb_held] tells whether the one in
    the global is among them. *)
Record Callback := { cb_live : nat; cb_held : bool }.

Definition pi_callback (h : Callback) : Callback :=
  {| cb_live := S (cb_live h); cb_held := true |}.

Definition cancel (h : Callback) : Callback :=
  if cb_held h then {| cb_live := Nat.pred (cb_live h); cb_held := false |} else h.

Definition delivers (h : Callback) : bool := negb (Nat.eqb (cb_live h) 0).

(** The effects visible outside the process, in the order they happen.
    Durations are in milliseconds. *)
Inductive Effect :=
| GpioWrite (pin level : Z)
| Sleep (ms : Z)
| Popen (cmd : list string)
| Print (msg : string).

Record State := {
  gpio : gmap Z Z;
  cb_hangout_handler : Callback;
  cb_dialer_handler : Callback;
  cb_counter_handler : Callback;
  ampli_status : bool;
  dialer_status : Z;
  pulses : Z;
  dialed_number : string;
  track_position : Z;
  is_playing : bool;
  clock : nat;
  log : list Effect
}.

Definition set_gpio (f : gmap Z Z → gmap Z Z) (s : State) : State :=
  {| gpio := f (gpio s); cb_hangout_handler := cb_hangout_handler s;
     cb_dialer_handler := cb_dialer_handler s; cb_counter_handler := cb_counter_handler s;
     ampli_status := ampli_status s; dialer_status := dialer_status s; pulses := pulses s;
     dialed_number := dialed_number s; track_position := track_position s;
     is_playing := is_playing s; clock := clock s; log := log s |}.

Definition set_cb_hangout_handler (f : Callback → Callback) (s : State) : State :=
  {| gpio := gpio s; cb_hangout_handler := f (cb_hangout_handler s);
     cb_dialer_handler := cb_dialer_handler s; cb_counter_handler := cb_counter_handler s;
     ampli_status := ampli_status s; dialer_status := dialer_status s; pulses := pulses s;
     dialed_number := dialed_number s; track_position := track_position s;
     is_playing := is_playing s; clock := clock s; log := log s |}.

Definition set_cb_dialer_handler (f : Callback → Callback) (s : State) : State :=
  {| gpio := gpio s; cb_hangout_handler := cb_hangout_handler s;
     cb_dialer_handler := f (cb_dialer_handler s); cb_counter_handler := cb_counter_handler s;
     ampli_status := ampli_status s; dialer_status := dialer_status s; pulses := pulses s;
     dialed_number := dialed_number s; track_position := track_position s;
     is_playing := is_playing s; clock := clock s; log := log s |}.

Definition set_cb_counter_handler (f : Callback → Callback) (s : State) : State :=
  {| gpio := gpio s; cb_hangout_handler := cb_hangout_handler s;
     cb_dialer_handler := cb_dialer_handler s; cb_counter_handler := f (cb_counter_handler s);
     ampli_status := ampli_status s; dialer_status := dialer_status s; pulses := pulses s;
     dialed_number := dialed_number s; track_position := track_position s;
     is_playing := is_playing s; clock := clock s; log := log s |}.

Definition set_ampli_status (b : bool) (s : State) : State :=
  {| gpio := gpio s; cb_hangout_handler := cb_hangout_handler s;
     cb_dialer_handler := cb_dialer_handler s; cb_counter_handler := cb_counter_handler s;
     ampli_status := b; dialer_status := dialer_status s; pulses := pulses s;
     dialed_number := dialed_number s; track_position := track_position s;
     is_playing := is_playing s; clock := clock s; log := log s |}.

Definition set_dialer_status (v : Z) (s : State) : State :=
  {| gpio := gpio s; cb_hangout_handler := cb_hangout_handler s;
     cb_dialer_handler := cb_dialer_handler s; cb_counter_handler := cb_counter_handler s;
     ampli_status := ampli_status s; dialer_status := v; pulses := pulses s;
     dialed_number := dialed_number s; track_position := track_position s;
     is_playing := is_playing s; clock := clock s; log := log s |}.

Definition set_pulses (v : Z) (s : State) : State :=
  {| gpio := gpio s; cb_hangout_handler := cb_hangout_handler s;
     cb_dialer_handler := cb_dialer_handler s; cb_counter_handler := cb_counter_handler s;
     ampli_status := ampli_status s; dialer_status := dialer_status s; pulses := v;
     dialed_number := dialed_number s; track_position := track_position s;
     is_playing := is_playing s; clock := clock s; log := log s |}.

Definition set_dialed_number (v : string) (s : State) : State :=
  {| gpio := gpio s; cb_hangout_handler := cb_hangout_handler s;
     cb_dialer_handler := cb_dialer_handler s; cb_counter_handler := cb_counter_handler s;
     ampli_status := ampli_status s; dialer_status := dialer_status s; pulses := pulses s;
     dialed_number := v; track_position := track_position s;
     is_playing := is_playing s; clock := clock s; log := log s |}.

Definition set_track_position (v : Z) (s : State) : State :=
  {| gpio := gpio s; cb_hangout_handler := cb_hangout_handler s;
     cb_dialer_handler := cb_dialer_handler s; cb_counter_handler := cb_counter_handler s;
     ampli_status := ampli_status s; dialer_status := dialer_status s; pulses := pulses s;
     dialed_number := dialed_number s; track_position := v;
     is_playing := is_playing s; clock := clock s; log := log s |}.

Definition set_is_playing (b : bool) (s : State) : State :=
  {| gpio := gpio s; cb_hangout_handler := cb_hangout_handler s;
     cb_dialer_handler := cb_dialer_handler s; cb_counter_handler := cb_counter_handler s;
     ampli_status := ampli_status s; dialer_status := dialer_status s; pulses := pulses s;
     dialed_number := dialed_number s; track_position := track_position s;
     is_playing := b; clock := clock s; log := log s |}.

(** An effect is appended to the log. *)
Definition emit (e : Effect) (s : State) : State :=
  {| gpio := gpio s; cb_hangout_handler := cb_hangout_handler s;
     cb_dialer_handler := cb_dialer_handler s; cb_counter_handler := cb_counter_handler s;
     ampli_status := ampli_status s; dialer_status := dialer_status s; pulses := pulses s;
     dialed_number := dialed_number s; track_position := track_position s;
     is_playing := is_playing s; clock := clock s; log := log s ++ [e] |}.

(** An instant passes. *)
Definition tick (s : State) : State :=
  {| gpio := gpio s; cb_hangout_handler := cb_hangout_handler s;
     cb_dialer_handler := cb_dialer_handler s; cb_counter_handler := cb_counter_handler s;
     ampli_status := ampli_status s; dialer_status := dialer_status s; pulses := pulses s;
     dialed_number := dialed_number s; track_position := track_position s;
     is_playing := is_playing s; clock := S (clock s); log := log s |}.

(** ** The monad of the callbacks: state and Python exceptions *)

Inductive Exn :=
| IndexError
| ValueError
| UnicodeDecodeError
| FuelExhausted.  (* not a Python exception: a loop of the model cut short *)

Inductive Res (A : Type) :=
| Ret (a : A) (s : State)
| Raise (e : Exn) (s : State).
Arguments Ret {A} a s.
Arguments Raise {A} e s.

Definition M (A : Type) : Type := State → Res A.

Definition final {A} (r : Res A) : State :=
  match r with Ret _ s => s | Raise _ s => s end.

#[global] Instance M_ret : MRet M := λ A a s, Ret a s.
#[global] Instance M_bind : MBind M := λ A B k m s,
  match m s with
  | Ret a s' => k a s'
  | Raise e s' => Raise e s'
  end.
#[global] Instance M_throw : MThrow Exn M := λ A e s, Raise e s.

Definition gets {A} (f : State → A) : M A := λ s, Ret (f s) s.
Definition modify (f : State → State) : M unit := λ s, Ret tt (f s).

(** A Python expression that raises [e] when it has no value. *)
Definition value {A} (e : Exn) (o : option A) : M A :=
  match o with Some a => mret a | None => mthrow e end.

(** ** The program *)

Section Program.

Variable cfg : Config.
Variable W : World.

(** *** pigpio and subprocess *)

Definition pi_write (pin level : Z) : M unit :=
  modify (λ s, emit (GpioWrite pin level) (set_gpio <[pin := level]> s)).

Definition pi_read (pin : Z) : M Z :=
  gets (λ s, if is_input pin then input W (clock s) pin
             else default 0 (gpio s !! pin)).

Definition time_sleep (ms : Z) : M unit := modify (λ s, tick (emit (Sleep ms) s)).

(** [Popen(cmd)] followed by [communicate()]: the process runs to its end
    while the callback waits. *)
Definition popen_communicate (cmd : list string) : M (list byte * Z) :=
  λ s, Ret (weather_stdout W (clock s), returncode W (clock s))
           (tick (emit (Popen cmd) s)).

Definition runCmd (cmd : list string) : M Z :=
  out ← popen_communicate cmd;
  mret (snd out).

(** *** Enabling and disabling the callbacks *)

Definition set_callbacks : M unit :=
  modify (set_cb_hangout_handler pi_callback);;
  modify (set_cb_dialer_handler pi_callback);;
  modify (set_cb_counter_handler pi_callback);;
  pi_write pin_dial_counter_led PI_HIGH.

Definition release_callbacks : M unit :=
  modify (set_cb_hangout_handler cancel);;
  modify (set_cb_dialer_handler cancel);;
  modify (set_cb_counter_handler cancel);;
  pi_write pin_dial_counter_led PI_LOW.

Definition cb_release_rotary : M unit :=
  modify (set_cb_counter_handler cancel);;
  modify (set_cb_dialer_handler cancel);;
  pi_write pin_dial_counter_led PI_LOW.

Definition cb_set_rotary : M unit :=
  modify (set_cb_dialer_handler pi_callback);;
  modify (set_cb_counter_handler pi_callback);;
  pi_write pin_dial_counter_led PI_HIGH.

Definition cb_set_hangout : M unit :=
  modify (set_cb_hangout_handler pi_callback).

Definition debug_message (message : string) : M unit :=
  if DEBUG then modify (emit (Print message)) else mret tt.

(** *** The amplifier and the spoken actions *)

Definition ampli_on_off : M unit :=
  pi_write pin_ampli_power PI_HIGH;;
  time_sleep 5000;;
  pi_write pin_ampli_power PI_LOW;;
  time_sleep 2000;;
  pi_write pin_ampli_mode PI_HIGH;;
  time_sleep 500;;
  pi_write pin_ampli_mode PI_LOW;;
  modify (set_ampli_status false).

(** The closing lines of every action: "Disable the amplifier, if it has
    not yet disabled by the user". *)
Definition disable_amplifier : M unit :=
  playing ← gets is_playing;
  if (playing : bool) then ampli_on_off;; modify (set_is_playing false) else mret tt.

Definition tts (txt : string) : M Z := runCmd (TTS ++ [txt]).

(** The [while track_position < tracks] loop of [play_all_tracks]. *)
Fixpoint play_all_loop (fuel : nat) : M unit :=
  match fuel with
  | O => mthrow FuelExhausted
  | S fuel' =>
      pos ← gets track_position;
      if pos <? tracks cfg then
        debug_message ("pos " ++ Py.str pos ++ " tracks " ++ Py.str (tracks cfg));;
        m4 ← value IndexError (Py.index (text_messages cfg) 4);
        title ← value IndexError (Py.index (track_titles cfg) pos);
        tts (m4 ++ " " ++ title);;
        file ← value IndexError (Py.index (track_list cfg) pos);
        runCmd (PLAYER ++ [music_path cfg ++ file ++ ".mp3"]);;
        modify (set_track_position (pos + 1));;
        line ← pi_read pin_phone_hangout;
        if line =? PI_LOW then mret tt else play_all_loop fuel'
      else mret tt
  end.

Definition play_all_tracks : M unit :=
  modify (set_is_playing true);;
  ampli_on_off;;
  modify (set_track_position 0);;
  m3 ← value IndexError (Py.index (text_messages cfg) 3);
  m2 ← value IndexError (Py.index (text_messages cfg) 2);
  tts (m3 ++ " " ++ m2);;
  play_all_loop (S (Z.to_nat (tracks cfg)));;
  disable_amplifier.

(** The [while counter < tracks] loop of [list_all_tracks]. *)
Fixpoint list_all_loop (fuel : nat) (counter : Z) : M unit :=
  match fuel with
  | O => mthrow FuelExhausted
  | S fuel' =>
      if counter <? tracks cfg then
        title ← value IndexError (Py.index (track_titles cfg) counter);
        tts (" " ++ Py.str (counter + 1) ++ ": " ++ title ++ ", ");;
        list_all_loop fuel' (counter + 1)
      else mret tt
  end.

Definition list_all_tracks : M unit :=
  modify (set_is_playing true);;
  ampli_on_off;;
  m6 ← value IndexError (Py.index (text_messages cfg) 6);
  m7 ← value IndexError (Py.index (text_messages cfg) 7);
  tts (m6 ++ " " ++ Py.str (tracks cfg) ++ " " ++ m7);;
  list_all_loop (S (Z.to_nat (tracks cfg))) 0;;
  disable_amplifier.

(** The [while counter < help_strings] loop of [say_help]. *)
Fixpoint say_help_loop (fuel : nat) (counter : Z) : M unit :=
  match fuel with
  | O => mthrow FuelExhausted
  | S fuel' =>
      if counter <? help_strings cfg then
        txt ← value IndexError (Py.index (help_messages cfg) counter);
        tts txt;;
        say_help_loop fuel' (counter + 1)
      else mret tt
  end.

Definition say_help : M unit :=
  modify (set_is_playing true);;
  ampli_on_off;;
  say_help_loop (S (Z.to_nat (help_strings cfg))) 0;;
  disable_amplifier.

Definition play_track : M unit :=
  modify (set_is_playing true);;
  ampli_on_off;;
  m4 ← value IndexError (Py.index (text_messages cfg) 4);
  pos ← gets track_position;
  title ← value IndexError (Py.index (track_titles cfg) pos);
  tts (m4 ++ " " ++ title);;
  pos ← gets track_position;
  file ← value IndexError (Py.index (track_list cfg) pos);
  runCmd (PLAYER ++ [music_path cfg ++ file ++ ".mp3"]);;
  modify (λ s, set_track_position (track_position s + 1) s);;
  pos ← gets track_position;
  (if pos =? tracks cfg then modify (set_track_position 0) else mret tt);;
  disable_amplifier.

Definition tts_message (msg : Z) : M Z :=
  tText ← value IndexError (Py.index (text_messages cfg) msg);
  tts tText.

(** The [while w < len(forecast)] loop of [get_weather]. *)
Fixpoint get_weather_loop (fuel : nat) (forecast : list (list byte)) (w : Z) : M unit :=
  match fuel with
  | O => mthrow FuelExhausted
  | S fuel' =>
      if w <? Z.of_nat (length forecast) then
        line ← value IndexError (Py.index forecast w);
        text ← value UnicodeDecodeError (Py.decode_ascii line);
        tts text;;
        get_weather_loop fuel' forecast (w + 1)
      else mret tt
  end.

Definition get_weather : M unit :=
  modify (set_is_playing true);;
  ampli_on_off;;
  tts (weather_airport cfg);;
  out ← popen_communicate (WEATHER ++ [weather_ICAO cfg]);
  let forecast := Py.splitlines (fst out) in
  get_weather_loop (S (length forecast)) forecast 4;;
  disable_amplifier.

Definition wrong_command : M unit :=
  modify (set_is_playing true);;
  ampli_on_off;;
  m8 ← value IndexError (Py.index (text_messages cfg) 8);
  tts m8;;
  disable_amplifier.

Definition play_tts_sentence (msg : Z) : M unit :=
  modify (set_is_playing true);;
  ampli_on_off;;
  tts_message msg;;
  disable_amplifier.

(** *** Reset *)

(** [reinit] declares only [pi] and [dialed_number] global, so its
    assignments to [track_position] and [is_playing] bind two names local
    to the call and the globals keep their values. *)
Definition reinit : M unit :=
  pi_write pin_dial_counter_led PI_LOW;;
  pi_write pin_hangout_led PI_LOW;;
  pi_write pin_dialer_led PI_LOW;;
  modify (set_dialed_number "");;
  let track_position_local := 0 in
  let is_playing_local := true in
  mret tt.

(** *** The command dispatcher *)

Definition check_number : M unit :=
  number ← gets dialed_number;
  debug_message number;;
  if negb (String.eqb number "") then
    n ← value ValueError (Py.int number);
    if n =? 666 then
      modify (set_dialed_number "");;
      reinit
    else if n =? 321 then
      release_callbacks;;
      play_track;;
      cb_set_hangout;;
      led ← pi_read pin_hangout_led;
      if led =? PI_HIGH then cb_set_rotary else mret tt
    else if n =? 123 then
      release_callbacks;;
      play_all_tracks;;
      cb_set_hangout;;
      led ← pi_read pin_hangout_led;
      if led =? PI_HIGH then cb_set_rotary else mret tt
    else if n =? 124 then
      release_callbacks;;
      list_all_tracks;;
      cb_set_hangout;;
      led ← pi_read pin_hangout_led;
      if led =? PI_HIGH then cb_set_rotary else mret tt
    else if (n <=? tracks cfg + 400) && (400 <? n) then
      modify (set_track_position (n - 401));;
      release_callbacks;;
      play_track;;
      cb_set_hangout;;
      led ← pi_read pin_hangout_led;
      if led =? PI_HIGH then cb_set_rotary else mret tt
    else if n =? 111 then
      release_callbacks;;
      say_help;;
      cb_set_hangout;;
      led ← pi_read pin_hangout_led;
      if led =? PI_HIGH then cb_set_rotary else mret tt
    else if n =? 999 then
      runCmd REBOOT;;
      mret tt
    else if n =? 100 then
      release_callbacks;;
      get_weather;;
      cb_set_hangout;;
      led ← pi_read pin_hangout_led;
      if led =? PI_HIGH then cb_set_rotary else mret tt
    else if n =? 999 then
      runCmd REBOOT;;
      mret tt
    else mret tt
  else mret tt.

(** *** The three callbacks *)

Definition hangout : M unit :=
  line ← pi_read pin_phone_hangout;
  if line =? PI_HIGH then
    release_callbacks;;
    pi_write pin_hangout_led PI_HIGH;;
    play_tts_sentence 0;;
    set_callbacks
  else
    release_callbacks;;
    play_tts_sentence 1;;
    pi_write pin_hangout_led PI_LOW;;
    reinit;;
    cb_set_hangout.

Definition dial_detect : M unit :=
  line ← pi_read pin_phone_hangout;
  if line =? PI_HIGH then
    level ← pi_read pin_dial_detect;
    modify (set_dialer_status level);;
    status ← gets dialer_status;
    (if status =? PI_HIGH then
       modify (set_pulses 0);;
       pi_write pin_dialer_led PI_HIGH
     else mret tt);;
    number ← gets dialed_number;
    (if max_numbers <=? Z.of_nat (String.length number) then
       modify (set_dialed_number "")
     else
       count ← gets pulses;
       if negb (count =? 0) then
         (if count =? 20 then modify (set_pulses 0) else mret tt);;
         count ← gets pulses;
         modify (set_dialed_number (number ++ Py.str (Z.quot count 2)));;
         check_number
       else mret tt);;
    pi_write pin_dialer_led PI_LOW
  else mret tt.

Definition pulse_count : M unit :=
  status ← gets dialer_status;
  if status =? PI_HIGH then modify (λ s, set_pulses (pulses s + 1) s) else mret tt.

(** *** Start-up and the event loop *)

(** The globals as the module body leaves them ([is_playing] starts
    [True], the three handler globals hold no callback yet). *)
Definition module_globals : State :=
  {| gpio := ∅;
     cb_hangout_handler := {| cb_live := 0; cb_held := false |};
     cb_dialer_handler := {| cb_live := 0; cb_held := false |};
     cb_counter_handler := {| cb_live := 0; cb_held := false |};
     ampli_status := false; dialer_status := 0; pulses := 0;
     dialed_number := ""; track_position := 0; is_playing := true;
     clock := O; log := [] |}.

(** [initGPIO], the pin directions and the JSON loading (here [cfg])
    apart. *)
Definition initGPIO : M unit :=
  set_callbacks;;
  reinit.

(** What the GPIO layer does between two callbacks: time passes, or an
    edge on one of the three input pins calls the callbacks registered for
    it. *)
Inductive Event := Tick | HookEdge | DialEdge | PulseEdge.

Definition deliver (e : Event) : M unit :=
  match e with
  | Tick => modify tick
  | HookEdge =>
      h ← gets cb_hangout_handler;
      if delivers h then hangout else mret tt
  | DialEdge =>
      h ← gets cb_dialer_handler;
      if delivers h then dial_detect else mret tt
  | PulseEdge =>
      h ← gets cb_counter_handler;
      if delivers h then pulse_count else mret tt
  end.

Fixpoint exec (evs : list Event) : M unit :=
  match evs with
  | [] => mret tt
  | e :: evs' => deliver e;; exec evs'
  end.

End Program.

(** ** Vocabulary of the statements *)

(** The texts [int] accepts without a [ValueError]. *)
Fixpoint all_digits (s : string) : bool :=
  match s with
  | EmptyString => true
  | String c s' => bool_decide (is_Some (Py.digit_value c)) && all_digits s'
  end.

(** The digit a turn of the dial with [count] edges stands for. *)
Definition decoded (count : Z) : Z := Z.quot (if count =? 20 then 0 else count) 2.

(** The processes started so far, oldest first. *)
Definition processes (l : list Effect) : list (list string) :=
  omap (λ e, match e with Popen cmd => Some cmd | _ => None end) l.

(** [m] keeps [P], whether it returns or raises. *)
Definition preserves {A} (P : State → Prop) (m : M A) : Prop :=
  ∀ s, P s → P (final (m s)).

(** What one call of [ampli_on_off] does to the outside and to the state. *)
Definition ampli_sequence : list Effect :=
  [GpioWrite pin_ampli_power PI_HIGH; Sleep 5000; GpioWrite pin_ampli_power PI_LOW;
   Sleep 2000; GpioWrite pin_ampli_mode PI_HIGH; Sleep 500; GpioWrite pin_ampli_mode PI_LOW].

Definition amplified (s : State) : State :=
  {| gpio := <[pin_ampli_mode := PI_LOW]> (<[pin_ampli_mode := PI_HIGH]>
               (<[pin_ampli_power := PI_LOW]> (<[pin_ampli_power := PI_HIGH]> (gpio s))));
     cb_hangout_handler := cb_hangout_handler s;
     cb_dialer_handler := cb_dialer_handler s; cb_counter_handler := cb_counter_handler s;
     ampli_status := false; dialer_status := dialer_status s; pulses := pulses s;
     dialed_number := dialed_number s; track_position := track_position s;
     is_playing := is_playing s; clock := S (S (S (clock s)));
     log := log s ++ ampli_sequence |}.

(** A process was started and waited for. *)
Definition started (cmd : list string) (s : State) : State := tick (emit (Popen cmd) s).

(** A pin was written. *)
Definition written (pin level : Z) (s : State) : State :=
  emit (GpioWrite pin level) (set_gpio <[pin := level]> s).

(** The JSON files declare what the lists hold: the two playlist lists have
    [tracks] entries, the help list at least [help_strings], and the
    announcements are there up to the one with the highest number a command
    speaks (7). *)
Definition playlist_ok (cfg : Config) : Prop :=
  Z.of_nat (length (track_list cfg)) = tracks cfg ∧
  Z.of_nat (length (track_titles cfg)) = tracks cfg.

Definition messages_ok (cfg : Config) : Prop := (8 ≤ length (text_messages cfg))%nat.

(** The [i]th announcement, title and file, for an index known to exist. *)
Definition message (cfg : Config) (i : nat) : string := default "" (text_messages cfg !! i).
Definition title (cfg : Config) (i : nat) : string := default "" (track_titles cfg !! i).
Definition file (cfg : Config) (i : nat) : string := default "" (track_list cfg !! i).

(** The two processes that announce and play track [i]. *)
Definition announcement (cfg : Config) (i : nat) : string :=
  message cfg 4 ++ " " ++ title cfg i.
Definition mp3 (cfg : Config) (i : nat) : string := music_path cfg ++ file cfg i ++ ".mp3".

Definition track_processes (cfg : Config) (i : nat) : list (list string) :=
  [TTS ++ [announcement cfg i]; PLAYER ++ [mp3 cfg i]]%list.

Definition track_effects (cfg : Config) (i : nat) : list Effect :=
  Popen <$> track_processes cfg i.

(** A turn of the dial: the dial-in-progress signal rises, the pulse pin
    sees [n] edges, the signal falls; time passes before each of the two
    edges of the signal. *)
Definition rotation (n : nat) : list Event :=
  [Tick; DialEdge] ++ repeat PulseEdge n ++ [Tick; DialEdge].

(** The edges of the pulse pin for a digit: two per pulse, ten pulses for 0. *)
Definition edges (d : Z) : nat := Z.to_nat (if d =? 0 then 20 else 2 * d).

Definition dial (ds : list Z) : list Event := flat_map (λ d, rotation (edges d)) ds.

(** The handset stays lifted while [k] digits are dialled from instant [t]. *)
Definition off_hook_dialing (W : World) (t k : nat) : Prop :=
  ∀ i, (i < k)%nat →
    input W (t + 2 * i + 1)%nat pin_phone_hangout = PI_HIGH ∧
    input W (t + 2 * i + 1)%nat pin_dial_detect = PI_HIGH ∧
    input W (t + 2 * i + 2)%nat pin_phone_hangout = PI_HIGH ∧
    input W (t + 2 * i + 2)%nat pin_dial_detect = PI_LOW.

(** The dialler is listening and the buffer will start afresh: it is empty
    or already holds [max_numbers] characters. *)
Definition ready_to_dial (s : State) : Prop :=
  delivers (cb_dialer_handler s) = true ∧ delivers (cb_counter_handler s) = true ∧
  (dialed_number s = "" ∨ max_numbers ≤ Z.of_nat (String.length (dialed_number s))).

(** What dialling digits that are no command leaves untouched. *)
Definition same_station (s s' : State) : Prop :=
  track_position s' = track_position s ∧ is_playing s' = is_playing s ∧
  ampli_status s' = ampli_status s ∧
  cb_hangout_handler s' = cb_hangout_handler s ∧
  cb_dialer_handler s' = cb_dialer_handler s ∧
  cb_counter_handler s' = cb_counter_handler s ∧
  gpio s' !! pin_hangout_led = gpio s !! pin_hangout_led ∧
  processes (log s') = processes (log s).

(** The buffer a turn of the dial appends to: a full one is emptied when
    the turn begins. *)
Definition fresh (s : State) : string :=
  if max_numbers <=? Z.of_nat (String.length (dialed_number s)) then "" else dialed_number s.

(** The state [release_callbacks] returns. *)
Definition released (s : State) : State :=
  written pin_dial_counter_led PI_LOW
    (set_cb_counter_handler cancel
       (set_cb_dialer_handler cancel (set_cb_hangout_handler cancel s))).

(** The state [cb_set_rotary] returns. *)
Definition rotary_on (s : State) : State :=
  written pin_dial_counter_led PI_HIGH
    (set_cb_counter_handler pi_callback (set_cb_dialer_handler pi_callback s)).

(** The callbacks after an action: the one of the hook always, the two of
    the dial when the ready indicator reads high. *)
Definition rearmed (s : State) : State :=
  (if default 0 (gpio s !! pin_hangout_led) =? PI_HIGH then rotary_on else id)
    (set_cb_hangout_handler pi_callback s).

(** The state [reinit] returns. *)
Definition reinitialised (s : State) : State :=
  set_dialed_number ""
    (written pin_dialer_led PI_LOW
       (written pin_hangout_led PI_LOW (written pin_dial_counter_led PI_LOW s))).

(** The buffer holds no more than [max_numbers] characters. *)
Definition within_capacity (s : State) : Prop :=
  Z.of_nat (String.length (dialed_number s)) ≤ max_numbers.

(** One round of the loop of [play_all_tracks], and [k] of them. *)
Definition one_track (cfg : Config) (s : State) : State :=
  let i := Z.to_nat (track_position s) in
  set_track_position (track_position s + 1)
    (started (PLAYER ++ [mp3 cfg i]) (started (TTS ++ [announcement cfg i]) s)).

Fixpoint tracks_played (cfg : Config) (k : nat) (s : State) : State :=
  match k with
  | O => s
  | S k' => tracks_played cfg k' (one_track cfg s)
  end.

(** The words [play_all_tracks] speaks before the first track. *)
Definition preamble (cfg : Config) : string := message cfg 3 ++ " " ++ message cfg 2.

(** What an action between release and re-arming cannot change: the ready
    indicator and the three handler globals. *)
Definition gate_of (s : State) : option Z * Callback * Callback * Callback :=
  (gpio s !! pin_hangout_led, cb_hangout_handler s, cb_dialer_handler s,
   cb_counter_handler s).

(** The state in which the program waits for callbacks. *)
Definition booted : State := final (initGPIO module_globals).

Section Reading.

Variable cfg : Config.
Variable W : World.

(** The five lines every branch of [check_number] with an action repeats
    around it. *)
Definition guarded (action : M unit) : M unit :=
  release_callbacks;;
  action;;
  cb_set_hangout;;
  led ← pi_read W pin_hangout_led;
  if led =? PI_HIGH then cb_set_rotary else mret tt.

(** [check_number] once the dialled number is read as [n]. *)
Definition dispatch (n : Z) : M unit :=
  if n =? 666 then modify (set_dialed_number "");; reinit
  else if n =? 321 then guarded (play_track cfg W)
  else if n =? 123 then guarded (play_all_tracks cfg W)
  else if n =? 124 then guarded (list_all_tracks cfg W)
  else if (n <=? tracks cfg + 400) && (400 <? n) then
    modify (set_track_position (n - 401));; guarded (play_track cfg W)
  else if n =? 111 then guarded (say_help cfg W)
  else if n =? 999 then runCmd W REBOOT;; mret tt
  else if n =? 100 then guarded (get_weather cfg W)
  else mret tt.

(** The codes of the command table that start an action. *)
Definition action_code (n : Z) : Prop :=
  n ≠ 666 ∧
  (n = 321 ∨ n = 123 ∨ n = 124 ∨ 400 < n ≤ tracks cfg + 400 ∨ n = 111 ∨ n = 100).

Definition next_position (p : Z) : Z := if p + 1 =? tracks cfg then 0 else p + 1.

(** The state [play_track] returns. *)
Definition track_played (s : State) : State :=
  let i := Z.to_nat (track_position s) in
  set_is_playing false (amplified
    (set_track_position (next_position (track_position s))
      (started (PLAYER ++ [mp3 cfg i])
        (started (TTS ++ [announcement cfg i])
          (amplified (set_is_playing true s)))))).

End Reading.

(** ** A telephone to try the statements on *)

Definition demo_cfg : Config :=
  {| text_messages := ["Ready"; "Goodbye"; "tracks"; "Playing all"; "Now playing";
                       "unused"; "There are"; "titles"; "Wrong command"]%string;
     track_list := ["one"; "two"; "three"; "four"; "five"; "six"]%string;
     track_titles := ["First"; "Second"; "Third"; "Fourth"; "Fifth"; "Sixth"]%string;
     help_messages := ["Dial 321"; "Dial 123"]%string;
     help_strings := 2;
     tracks := 6;
     music_path := "/home/pi/music/";
     weather_airport := "Linate";
     weather_ICAO := "LIML" |}.

(** The handset is lifted until instant [t0]; the dial-in-progress signal is
    high at the even instants; every process succeeds and the weather
    process prints nothing. *)
Definition hangs_up_at (t0 : nat) : World :=
  {| input := λ t pin,
       if pin =? pin_phone_hangout then (if (t <? t0)%nat then PI_HIGH else PI_LOW)
       else if pin =? pin_dial_detect then (if Nat.even t then PI_HIGH else PI_LOW)
       else PI_LOW;
     returncode := λ _, 0;
     weather_stdout := λ _, [] |}.

Definition lifted : World := hangs_up_at 1000.

(** The program was started and the handset lifted: the pick-up callback
    has run, at instant 7 the program waits for the dial. *)
Definition answered : State := final (exec demo_cfg lifted [HookEdge] booted).

(** The same, with the play position moved to [p]. *)
Definition answered_at (p : Z) : State := set_track_position p answered.

(** ** Vocabulary of the further statements *)

(** A handler global in order: the callback object it holds is the only
    one registered for its pin, or it holds a cancelled object and none is
    registered. *)
Definition tidy_handler (h : Callback) : Prop :=
  cb_live h = if cb_held h then 1%nat else 0%nat.

Definition tidy (s : State) : Prop :=
  tidy_handler (cb_hangout_handler s) ∧ tidy_handler (cb_dialer_handler s) ∧
  tidy_handler (cb_counter_handler s).

Definition cancelled : Callback := {| cb_live := 0; cb_held := false |}.
Definition registered : Callback := {| cb_live := 1; cb_held := true |}.

(** The three handler globals. *)
Definition handlers (s : State) : Callback * Callback * Callback :=
  (cb_hangout_handler s, cb_dialer_handler s, cb_counter_handler s).

(** The state [play_tts_sentence] returns after speaking [txt]. *)
Definition said (txt : string) (s : State) : State :=
  set_is_playing false
    (amplified (started (TTS ++ [txt]) (amplified (set_is_playing true s)))).

(** What [play_tts_sentence] does to the outside when it speaks [txt]. *)
Definition sentence_effects (txt : string) : list Effect :=
  (ampli_sequence ++ [Popen (TTS ++ [txt])] ++ ampli_sequence)%list.

(** No callback is registered. *)
Definition all_cancelled (s : State) : Prop :=
  handlers s = (cancelled, cancelled, cancelled).

(** [m], run from a state with [Pre], returns in a state with [Post] or
    raises in a state with [Exc]. *)
Definition triple {A} (Pre : State → Prop) (m : M A) (Post Exc : State → Prop) : Prop :=
  ∀ s, Pre s → match m s with Ret _ s' => Post s' | Raise _ s' => Exc s' end.

(** The processes [cmds] were started and waited for, one after the other. *)
Definition many_started (cmds : list (list string)) (s : State) : State :=
  fold_left (λ x cmd, started cmd x) cmds s.

(** The state an action returns that runs [cmds] between its two amplifier
    sequences. *)
Definition performed (cmds : list (list string)) (s : State) : State :=
  set_is_playing false (amplified (many_started cmds (amplified (set_is_playing true s)))).

(** The command that speaks [txt]. *)
Definition speak (txt : string) : list string := (TTS ++ [txt])%list.

(** What [list_all_tracks] says first, and for the title at index [i]. *)
Definition titles_preamble (cfg : Config) : string :=
  message cfg 6 ++ " " ++ Py.str (tracks cfg) ++ " " ++ message cfg 7.

Definition title_line (cfg : Config) (i : nat) : string :=
  " " ++ Py.str (Z.of_nat i + 1) ++ ": " ++ title cfg i ++ ", ".

(** The help list holds the [help_strings] entries the JSON file declares. *)
Definition help_ok (cfg : Config) : Prop :=
  help_strings cfg ≤ Z.of_nat (length (help_messages cfg)).

(** Lines of bytes printed each with a line feed after it. *)
Definition unlines (ls : list (list byte)) : list byte :=
  concat (map (λ l, l ++ [x0a])%list ls).

(** A line of bytes without a line feed or a carriage return, and one of
    ASCII bytes only. *)
Definition unbroken (l : list byte) : Prop := Forall (λ b, b ≠ x0a ∧ b ≠ x0d) l.

Definition plain (l : list byte) : Prop :=
  Forall (λ b, b ≠ x0a ∧ b ≠ x0d ∧ (Byte.to_N b < 128)%N) l.

Definition text_of (l : list byte) : string :=
  fold_right (λ b acc, String (ascii_of_byte b) acc) EmptyString l.

(** The numbers [check_number] has a branch for. *)
Definition command_code (cfg : Config) (n : Z) : Prop :=
  n = 666 ∨ n = 321 ∨ n = 123 ∨ n = 124 ∨ 400 < n ≤ tracks cfg + 400 ∨
  n = 111 ∨ n = 999 ∨ n = 100.

(** [n] instants pass. *)
Definition ticks (n : nat) (s : State) : State := Nat.iter n tick s.

(** A weather process for the demonstration telephone: it prints the lines
    [ls], each with a line feed after it. *)
Definition forecasting (ls : list (list byte)) : World :=
  {| input := input lifted;
     returncode := λ _, 0;
     weather_stdout := λ _, unlines ls |}.

Definition demo_forecast : list (list byte) :=
  list_byte_of_string <$> ["Sky"; "Air"; "Now"; ""; "Sun"; "Calm"]%list.

(** The handset is on the hook from instant [t0] until instant [t1], and
    lifted before and after. *)
Definition lifted_again (t0 t1 : nat) : World :=
  {| input := λ t pin,
       if pin =? pin_phone_hangout
       then (if (t0 <=? t)%nat && (t <? t1)%nat then PI_LOW else PI_HIGH)
       else input lifted t pin;
     returncode := λ _, 0;
     weather_stdout := λ _, [] |}.

(** What the callback of the dial writes during one turn: the dial
    indicator goes high when the turn begins and low at the end of each of
    its two runs. *)
Definition turn_begins : list Effect :=
  [GpioWrite pin_dialer_led PI_HIGH; GpioWrite pin_dialer_led PI_LOW]%list.

Definition turn_effects : list Effect :=
  (turn_begins ++ [GpioWrite pin_dialer_led PI_LOW])%list.

(** Nothing but the dial indicator was written, and only the writes [l]
    were logged. *)
Definition only_logged (l : list Effect) (s s' : State) : Prop :=
  log s' = (log s ++ l)%list ∧
  ∀ pin, pin ≠ pin_dialer_led → gpio s' !! pin = gpio s !! pin.

(** * Properties *)

(** ** Decimal texts and indexing *)

Lemma digit_value_char d : 0 ≤ d ≤ 9 → Py.digit_value (Py.digit_char d) = Some d.
Proof.
  intros H.
  assert (d = 0 ∨ d = 1 ∨ d = 2 ∨ d = 3 ∨ d = 4 ∨ d = 5 ∨ d = 6 ∨ d = 7 ∨ d = 8 ∨ d = 9)
    as Hd by lia.
  repeat (destruct Hd as [-> | Hd]; [reflexivity |]). by subst.
Qed.

Lemma digit_value_range c d : Py.digit_value c = Some d → 0 ≤ d ≤ 9.
Proof.
  unfold Py.digit_value. case_match eqn:E; [|done]. intros [= <-]. lia.
Qed.

Lemma str_digit d : 0 ≤ d ≤ 9 → Py.str d = String (Py.digit_char d) "".
Proof.
  intros H. unfold Py.str, Py.digits.
  destruct (Z.ltb_spec d 0); [lia |].
  destruct (Z.to_nat (Z.log2 d)); simpl.
  - by rewrite Z.mod_small by lia.
  - destruct (Z.ltb_spec d 10); [|lia]. by rewrite Z.mod_small by lia.
Qed.

Lemma all_digits_app a b : all_digits (a ++ b) = all_digits a && all_digits b.
Proof. induction a as [|c a IH]; simpl; [done |]. by rewrite IH, andb_assoc. Qed.

Lemma all_digits_from fuel n acc :
  0 ≤ n → all_digits acc = true → all_digits (Py.digits_from fuel n acc) = true.
Proof.
  revert n acc. induction fuel as [|fuel IH]; intros n acc Hn Hacc; simpl.
  - rewrite digit_value_char by (pose proof (Z.mod_pos_bound n 10); lia). by rewrite Hacc.
  - assert (all_digits (String (Py.digit_char (n `mod` 10)) acc) = true) as H.
    { simpl. rewrite digit_value_char by (pose proof (Z.mod_pos_bound n 10); lia).
      by rewrite Hacc. }
    destruct (n <? 10); [done |]. apply IH; [|done]. apply Z.div_pos; lia.
Qed.

Lemma all_digits_str n : 0 ≤ n → all_digits (Py.str n) = true.
Proof.
  intros H. unfold Py.str. destruct (Z.ltb_spec n 0); [lia |].
  by apply all_digits_from.
Qed.

Lemma int_from_app a b acc :
  Py.int_from (a ++ b) acc = Py.int_from a acc ≫= Py.int_from b.
Proof.
  revert acc. induction a as [|c a IH]; intros acc; simpl; [done |].
  destruct (Py.digit_value c); [apply IH | done].
Qed.

(** A text of [n] digits reads as a number below [10^n]. *)
Lemma int_from_bound s acc v :
  0 ≤ acc → Py.int_from s acc = Some v →
  acc * 10 ^ Z.of_nat (String.length s) ≤ v < (acc + 1) * 10 ^ Z.of_nat (String.length s).
Proof.
  revert acc. induction s as [|c s IH]; intros acc Hacc; simpl String.length.
  - intros [= <-]. simpl. lia.
  - simpl. destruct (Py.digit_value c) as [d|] eqn:Hd; [|done].
    apply digit_value_range in Hd. intros Hv. apply IH in Hv; [|lia].
    rewrite Nat2Z.inj_succ, Z.pow_succ_r by lia.
    assert (0 < 10 ^ Z.of_nat (String.length s)) by (apply Z.pow_pos_nonneg; lia).
    nia.
Qed.

Lemma int_small s v : Py.int s = Some v → (String.length s < 3)%nat → 0 ≤ v < 100.
Proof.
  intros Hv Hlen. destruct s as [|c s]; [done |].
  apply int_from_bound in Hv; [|done].
  assert (10 ^ Z.of_nat (String.length (String c s)) ≤ 10 ^ 2)
    by (apply Z.pow_le_mono_r; lia).
  lia.
Qed.

Lemma int_all_digits s : all_digits s = true → s ≠ "" → is_Some (Py.int s).
Proof.
  intros Hs Hne. destruct s as [|c s]; [done |]. unfold Py.int.
  generalize 0. revert Hs. generalize (String c s). clear.
  induction s as [|c s IH]; intros Hs acc; simpl; [by eexists |].
  simpl in Hs. apply andb_prop in Hs as [Hc Hs].
  apply bool_decide_eq_true in Hc as [d ->]. by apply IH.
Qed.

(** The text of up to three dialled digits reads as the number they spell. *)
Lemma int_digits3 a b c :
  0 ≤ a ≤ 9 → 0 ≤ b ≤ 9 → 0 ≤ c ≤ 9 →
  Py.int (Py.str a) = Some a ∧
  Py.int (Py.str a ++ Py.str b) = Some (10 * a + b) ∧
  Py.int ((Py.str a ++ Py.str b) ++ Py.str c) = Some (100 * a + 10 * b + c).
Proof.
  intros Ha Hb Hc. rewrite !str_digit by done. simpl. unfold Py.int. simpl.
  rewrite !digit_value_char by done. repeat split; f_equal; lia.
Qed.

Lemma index_in_range {A} (l : list A) (i : Z) :
  0 ≤ i < Z.of_nat (length l) →
  Py.index l i = l !! Z.to_nat i ∧ is_Some (l !! Z.to_nat i).
Proof.
  intros H. unfold Py.index. destruct (Z.leb_spec 0 i); [|lia].
  split; [done |]. apply lookup_lt_is_Some. lia.
Qed.

Lemma index_default (l : list string) (i : Z) :
  0 ≤ i < Z.of_nat (length l) → Py.index l i = Some (default "" (l !! Z.to_nat i)).
Proof.
  intros H. destruct (index_in_range l i H) as [-> [x ->]]. done.
Qed.

(** From here on [++] joins lists; texts are joined with [%string]. *)
Local Open Scope list_scope.

Lemma processes_app l1 l2 : processes (l1 ++ l2) = processes l1 ++ processes l2.
Proof. apply omap_app. Qed.

(** ** Running the monad *)

(** Evaluation of the state record: the setters and the projections are
    unfolded by value, everything else (the maps, the lists, the texts, the
    pin numbers) is left as written. *)
Ltac eval_state :=
  cbv [set_gpio set_cb_hangout_handler set_cb_dialer_handler set_cb_counter_handler
       set_ampli_status set_dialer_status set_pulses set_dialed_number
       set_track_position set_is_playing emit tick amplified started written
       released rotary_on reinitialised one_track
       gpio cb_hangout_handler cb_dialer_handler cb_counter_handler ampli_status
       dialer_status pulses dialed_number track_position is_playing clock log
       final fst snd
       mbind M_bind mret M_ret mthrow M_throw modify gets value].

Tactic Notation "eval_state" "in" hyp(H) :=
  cbv [set_gpio set_cb_hangout_handler set_cb_dialer_handler set_cb_counter_handler
       set_ampli_status set_dialer_status set_pulses set_dialed_number
       set_track_position set_is_playing emit tick amplified started written
       released rotary_on reinitialised one_track
       gpio cb_hangout_handler cb_dialer_handler cb_counter_handler ampli_status
       dialer_status pulses dialed_number track_position is_playing clock log
       final fst snd
       mbind M_bind mret M_ret mthrow M_throw modify gets value] in H.

Lemma bind_run {A B} (m : M A) (k : A → M B) s :
  (m ≫= k) s = match m s with Ret a s' => k a s' | Raise e s' => Raise e s' end.
Proof. reflexivity. Qed.

Lemma pi_write_run pin level s : pi_write pin level s = Ret tt (written pin level s).
Proof. reflexivity. Qed.

Lemma ampli_on_off_run s : ampli_on_off s = Ret tt (amplified s).
Proof.
  destruct s. cbv [ampli_on_off pi_write time_sleep]. eval_state.
  by rewrite <- !app_assoc.
Qed.

Lemma disable_amplifier_run s :
  is_playing s = true →
  disable_amplifier s = Ret tt (set_is_playing false (amplified s)).
Proof.
  intros H. unfold disable_amplifier. rewrite bind_run. cbv [gets]. rewrite H.
  rewrite bind_run, ampli_on_off_run. reflexivity.
Qed.

Section Run.

Variable cfg : Config.
Variable W : World.

Lemma runCmd_run cmd s : runCmd W cmd s = Ret (returncode W (clock s)) (started cmd s).
Proof. reflexivity. Qed.

Lemma tts_run txt s : tts W txt s = Ret (returncode W (clock s)) (started (TTS ++ [txt]) s).
Proof. reflexivity. Qed.

Lemma message_index i :
  messages_ok cfg → (i < 8)%nat →
  Py.index (text_messages cfg) (Z.of_nat i) = Some (message cfg i).
Proof.
  intros Hm Hi. unfold message. rewrite index_default, Nat2Z.id; [done |].
  unfold messages_ok in Hm. lia.
Qed.

Lemma title_index p :
  playlist_ok cfg → 0 ≤ p < tracks cfg →
  Py.index (track_titles cfg) p = Some (title cfg (Z.to_nat p)).
Proof. intros [_ Hl] Hp. unfold title. apply index_default. lia. Qed.

Lemma file_index p :
  playlist_ok cfg → 0 ≤ p < tracks cfg →
  Py.index (track_list cfg) p = Some (file cfg (Z.to_nat p)).
Proof. intros [Hl _] Hp. unfold file. apply index_default. lia. Qed.

Lemma play_track_run s :
  messages_ok cfg → playlist_ok cfg → 0 ≤ track_position s < tracks cfg →
  play_track cfg W s = Ret tt (track_played cfg s).
Proof.
  intros Hm Hl Hp.
  pose proof (message_index 4 Hm ltac:(lia)) as H4.
  pose proof (title_index _ Hl Hp) as Ht. pose proof (file_index _ Hl Hp) as Hf.
  change (Z.of_nat 4) with 4 in H4.
  unfold announcement, mp3 in *.
  destruct s. eval_state in Ht. eval_state in Hf. eval_state in Hp.
  cbv [play_track ampli_on_off pi_write time_sleep tts runCmd popen_communicate
       disable_amplifier track_played next_position announcement mp3]; eval_state.
  rewrite H4, Ht, Hf. cbv beta iota.
  destruct (_ =? _); eval_state; by rewrite <- !app_assoc.
Qed.

(** [check_number] is the dispatch on the number read from the buffer. *)
Lemma check_number_dispatch s n :
  Py.int (dialed_number s) = Some n → check_number cfg W s = dispatch cfg W n s.
Proof.
  intros Hn. unfold check_number. rewrite bind_run. cbv [gets]. rewrite bind_run.
  cbv [debug_message DEBUG mret M_ret].
  destruct (dialed_number s) as [|c rest] eqn:Hnum; [done |].
  cbv [String.eqb negb]. rewrite bind_run, Hn. cbv [value mret M_ret].
  unfold dispatch.
  repeat (destruct (_ =? _); [reflexivity |]);
    repeat (destruct (_ && _); [reflexivity |]);
    repeat (destruct (_ =? _); [reflexivity |]); reflexivity.
Qed.

(** Without a number in the buffer, or one that is no command, nothing happens. *)
Lemma check_number_empty s : dialed_number s = ""%string → check_number cfg W s = Ret tt s.
Proof.
  intros H. unfold check_number. rewrite bind_run. cbv [gets]. rewrite bind_run, H.
  reflexivity.
Qed.

Lemma check_number_quiet s n :
  Py.int (dialed_number s) = Some n → 0 ≤ n < 100 → check_number cfg W s = Ret tt s.
Proof.
  intros Hn Hsmall. rewrite (check_number_dispatch s n Hn). unfold dispatch.
  destruct (Z.ltb_spec 400 n); [lia |]. rewrite andb_false_r.
  repeat match goal with
         | |- context [n =? ?k] => destruct (Z.eqb_spec n k); [lia |]
         end.
  reflexivity.
Qed.

End Run.

(** ** What the callbacks preserve *)

Lemma preserves_ret {A} P (a : A) : preserves P (mret a).
Proof. intros s H. exact H. Qed.

Lemma preserves_throw {A} P (e : Exn) : preserves P (mthrow e : M A).
Proof. intros s H. exact H. Qed.

Lemma preserves_bind {A B} P (m : M A) (k : A → M B) :
  preserves P m → (∀ a, preserves P (k a)) → preserves P (m ≫= k).
Proof.
  intros Hm Hk s H. specialize (Hm s H). rewrite bind_run.
  destruct (m s) as [a s'|e s']; [by apply Hk | done].
Qed.

Lemma preserves_gets {A} P (f : State → A) : preserves P (gets f).
Proof. intros s H. exact H. Qed.

Lemma preserves_modify P f : (∀ s, P s → P (f s)) → preserves P (modify f).
Proof. intros Hf s H. by apply Hf. Qed.

Lemma preserves_value {A} P e (o : option A) : preserves P (value e o).
Proof. destruct o; intros s H; exact H. Qed.

Lemma preserves_if {A} P (b : bool) (m1 m2 : M A) :
  preserves P m1 → preserves P m2 → preserves P (if b then m1 else m2).
Proof. by destruct b. Qed.

Create HintDb frame discriminated.

(** The structure of a monadic term is followed by its syntax; the
    database [frame] holds one pattern per function of the program. *)
Ltac frame :=
  lazymatch goal with
  | |- preserves _ (mbind _ _) => apply preserves_bind; [frame | intros ?; frame]
  | |- preserves _ (mret _) => apply preserves_ret
  | |- preserves _ (mthrow _) => apply preserves_throw
  | |- preserves _ (gets _) => apply preserves_gets
  | |- preserves _ (value _ _) => apply preserves_value
  | |- preserves _ (if _ then _ else _) => apply preserves_if; frame
  | |- preserves _ (match _ with O => _ | S _ => _ end) => fail
  | |- preserves _ _ => solve [auto 1 with frame nocore]
  end.

Section Stable.
Variable cfg : Config.
Variable W : World.
Variable P : State → Prop.

Hypothesis P_emit : ∀ e s, P s → P (emit e s).
Hypothesis P_tick : ∀ s, P s → P (tick s).
Hypothesis P_write : ∀ pin v s, pin ≠ pin_hangout_led → P s → P (set_gpio <[pin := v]> s).
Hypothesis P_ampli : ∀ s, P s → P (set_ampli_status false s).
Hypothesis P_playing : ∀ b s, P s → P (set_is_playing b s).
Hypothesis P_position : ∀ v s, P s → P (set_track_position v s).

Lemma pi_write_frame pin v : pin ≠ pin_hangout_led → preserves P (pi_write pin v).
Proof. intros Hpin. apply preserves_modify. intros s H. by apply P_emit, P_write. Qed.

Lemma pi_read_frame pin : preserves P (pi_read W pin).
Proof. apply preserves_gets. Qed.

Lemma time_sleep_frame ms : preserves P (time_sleep ms).
Proof. apply preserves_modify. intros s H. by apply P_tick, P_emit. Qed.

Lemma popen_frame cmd : preserves P (popen_communicate W cmd).
Proof. intros s H. by apply P_tick, P_emit. Qed.

Lemma set_playing_frame b : preserves P (modify (set_is_playing b)).
Proof. apply preserves_modify, P_playing. Qed.

Lemma set_position_frame v : preserves P (modify (set_track_position v)).
Proof. apply preserves_modify, P_position. Qed.

Hint Extern 1 (preserves _ (pi_write _ _)) => apply pi_write_frame; discriminate : frame.
Hint Extern 1 (preserves _ (pi_read _ _)) => apply pi_read_frame : frame.
Hint Extern 1 (preserves _ (time_sleep _)) => apply time_sleep_frame : frame.
Hint Extern 1 (preserves _ (popen_communicate _ _)) => apply popen_frame : frame.
Hint Extern 1 (preserves _ (modify (set_is_playing _))) => apply set_playing_frame : frame.
Hint Extern 1 (preserves _ (modify (set_track_position _))) => apply set_position_frame : frame.

Lemma runCmd_frame cmd : preserves P (runCmd W cmd).
Proof. unfold runCmd. frame. Qed.
Hint Extern 1 (preserves _ (runCmd _ _)) => apply runCmd_frame : frame.

Lemma tts_frame txt : preserves P (tts W txt).
Proof. apply runCmd_frame. Qed.
Hint Extern 1 (preserves _ (tts _ _)) => apply tts_frame : frame.

Lemma debug_message_frame msg : preserves P (debug_message msg).
Proof. apply preserves_ret. Qed.
Hint Extern 1 (preserves _ (debug_message _)) => apply debug_message_frame : frame.

Lemma ampli_on_off_frame : preserves P ampli_on_off.
Proof.
  unfold ampli_on_off. do 7 (apply preserves_bind; [frame | intros _]).
  apply preserves_modify, P_ampli.
Qed.
Hint Extern 1 (preserves _ ampli_on_off) => apply ampli_on_off_frame : frame.

Lemma disable_amplifier_frame : preserves P disable_amplifier.
Proof. unfold disable_amplifier. frame. Qed.
Hint Extern 1 (preserves _ disable_amplifier) => apply disable_amplifier_frame : frame.

Lemma play_all_loop_frame fuel : preserves P (play_all_loop cfg W fuel).
Proof.
  induction fuel as [|fuel IH]; simpl; [apply preserves_throw |].
  apply preserves_bind; [frame | intros pos]. apply preserves_if; [| frame].
  repeat (apply preserves_bind; [frame | intros ?]).
  apply preserves_if; [frame | exact IH].
Qed.
Hint Extern 1 (preserves _ (play_all_loop _ _ _)) => apply play_all_loop_frame : frame.

Lemma play_all_tracks_frame : preserves P (play_all_tracks cfg W).
Proof. unfold play_all_tracks. frame. Qed.

Lemma list_all_loop_frame fuel counter : preserves P (list_all_loop cfg W fuel counter).
Proof.
  revert counter. induction fuel as [|fuel IH]; intros counter; simpl;
    [apply preserves_throw |].
  apply preserves_if; [| frame].
  do 2 (apply preserves_bind; [frame | intros ?]). apply IH.
Qed.
Hint Extern 1 (preserves _ (list_all_loop _ _ _ _)) => apply list_all_loop_frame : frame.

Lemma list_all_tracks_frame : preserves P (list_all_tracks cfg W).
Proof. unfold list_all_tracks. frame. Qed.

Lemma say_help_loop_frame fuel counter : preserves P (say_help_loop cfg W fuel counter).
Proof.
  revert counter. induction fuel as [|fuel IH]; intros counter; simpl;
    [apply preserves_throw |].
  apply preserves_if; [| frame].
  do 2 (apply preserves_bind; [frame | intros ?]). apply IH.
Qed.
Hint Extern 1 (preserves _ (say_help_loop _ _ _ _)) => apply say_help_loop_frame : frame.

Lemma say_help_frame : preserves P (say_help cfg W).
Proof. unfold say_help. frame. Qed.

Lemma play_track_frame : preserves P (play_track cfg W).
Proof.
  unfold play_track. do 9 (apply preserves_bind; [frame | intros ?]).
  apply preserves_bind; [apply preserves_modify; intros s H; by apply P_position |].
  intros _. frame.
Qed.

Lemma tts_message_frame msg : preserves P (tts_message cfg W msg).
Proof. unfold tts_message. frame. Qed.
Hint Extern 1 (preserves _ (tts_message _ _ _)) => apply tts_message_frame : frame.

Lemma get_weather_loop_frame fuel forecast w :
  preserves P (get_weather_loop W fuel forecast w).
Proof.
  revert w. induction fuel as [|fuel IH]; intros w; simpl; [apply preserves_throw |].
  apply preserves_if; [| frame].
  do 3 (apply preserves_bind; [frame | intros ?]). apply IH.
Qed.
Hint Extern 1 (preserves _ (get_weather_loop _ _ _ _)) => apply get_weather_loop_frame : frame.

Lemma get_weather_frame : preserves P (get_weather cfg W).
Proof. unfold get_weather. frame. Qed.

Lemma wrong_command_frame : preserves P (wrong_command cfg W).
Proof. unfold wrong_command. frame. Qed.

Lemma play_tts_sentence_frame msg : preserves P (play_tts_sentence cfg W msg).
Proof. unfold play_tts_sentence. frame. Qed.


(** The callbacks themselves also write the indicator pins, the three
    handler globals and the dialling variables. *)
Hypothesis P_write_led : ∀ v s, P s → P (set_gpio <[pin_hangout_led := v]> s).
Hypothesis P_hangout_cb : ∀ f s, P s → P (set_cb_hangout_handler f s).
Hypothesis P_dialer_cb : ∀ f s, P s → P (set_cb_dialer_handler f s).
Hypothesis P_counter_cb : ∀ f s, P s → P (set_cb_counter_handler f s).

Lemma set_hangout_cb_frame f : preserves P (modify (set_cb_hangout_handler f)).
Proof. apply preserves_modify, P_hangout_cb. Qed.
Lemma set_dialer_cb_frame f : preserves P (modify (set_cb_dialer_handler f)).
Proof. apply preserves_modify, P_dialer_cb. Qed.
Lemma set_counter_cb_frame f : preserves P (modify (set_cb_counter_handler f)).
Proof. apply preserves_modify, P_counter_cb. Qed.
Hint Extern 1 (preserves _ (modify (set_cb_hangout_handler _))) =>
  apply set_hangout_cb_frame : frame.
Hint Extern 1 (preserves _ (modify (set_cb_dialer_handler _))) =>
  apply set_dialer_cb_frame : frame.
Hint Extern 1 (preserves _ (modify (set_cb_counter_handler _))) =>
  apply set_counter_cb_frame : frame.

Lemma set_callbacks_frame : preserves P set_callbacks.
Proof. unfold set_callbacks. frame. Qed.
Lemma release_callbacks_frame : preserves P release_callbacks.
Proof. unfold release_callbacks. frame. Qed.
Lemma cb_release_rotary_frame : preserves P cb_release_rotary.
Proof. unfold cb_release_rotary. frame. Qed.
Lemma cb_set_rotary_frame : preserves P cb_set_rotary.
Proof. unfold cb_set_rotary. frame. Qed.
Lemma cb_set_hangout_frame : preserves P cb_set_hangout.
Proof. unfold cb_set_hangout. frame. Qed.
Hint Extern 1 (preserves _ set_callbacks) => apply set_callbacks_frame : frame.
Hint Extern 1 (preserves _ release_callbacks) => apply release_callbacks_frame : frame.
Hint Extern 1 (preserves _ cb_set_rotary) => apply cb_set_rotary_frame : frame.
Hint Extern 1 (preserves _ cb_set_hangout) => apply cb_set_hangout_frame : frame.
Hint Extern 1 (preserves _ (play_track _ _)) => apply play_track_frame : frame.
Hint Extern 1 (preserves _ (play_all_tracks _ _)) => apply play_all_tracks_frame : frame.
Hint Extern 1 (preserves _ (list_all_tracks _ _)) => apply list_all_tracks_frame : frame.
Hint Extern 1 (preserves _ (say_help _ _)) => apply say_help_frame : frame.
Hint Extern 1 (preserves _ (get_weather _ _)) => apply get_weather_frame : frame.
Hint Extern 1 (preserves _ (play_tts_sentence _ _ _)) => apply play_tts_sentence_frame : frame.

Lemma guarded_frame action : preserves P action → preserves P (guarded W action).
Proof.
  intros H. unfold guarded.
  apply preserves_bind; [frame | intros _]. apply preserves_bind; [exact H | intros _].
  frame.
Qed.

Hypothesis P_number_reset : ∀ s, P s → P (set_dialed_number "" s).

Lemma reinit_frame : preserves P reinit.
Proof.
  unfold reinit. apply preserves_bind; [frame | intros _].
  apply preserves_bind; [| intros _].
  { apply preserves_modify. intros s H. by apply P_emit, P_write_led. }
  apply preserves_bind; [frame | intros _].
  apply preserves_bind; [| intros _; frame].
  apply preserves_modify, P_number_reset.
Qed.
Hint Extern 1 (preserves _ reinit) => apply reinit_frame : frame.

Lemma number_reset_frame : preserves P (modify (set_dialed_number "")).
Proof. apply preserves_modify, P_number_reset. Qed.
Hint Extern 1 (preserves _ (modify (set_dialed_number ""))) =>
  apply number_reset_frame : frame.
Hint Extern 1 (preserves _ (guarded _ _)) => apply guarded_frame; frame : frame.

Lemma dispatch_frame n : preserves P (dispatch cfg W n).
Proof. unfold dispatch. frame. Qed.

Lemma check_number_frame : preserves P (check_number cfg W).
Proof.
  intros s H. destruct (Py.int (dialed_number s)) as [n|] eqn:Hn.
  - rewrite (check_number_dispatch cfg W s n Hn). by apply dispatch_frame.
  - unfold check_number. rewrite bind_run. cbv [gets]. rewrite bind_run.
    cbv [debug_message DEBUG mret M_ret]. destruct (negb _); [|done].
    rewrite bind_run, Hn. done.
Qed.
Hint Extern 1 (preserves _ (check_number _ _)) => apply check_number_frame : frame.

Lemma hangout_frame : preserves P (hangout cfg W).
Proof.
  unfold hangout. apply preserves_bind; [frame | intros line].
  apply preserves_if.
  - apply preserves_bind; [frame | intros _]. apply preserves_bind; [| intros _; frame].
    apply preserves_modify. intros s H. by apply P_emit, P_write_led.
  - do 2 (apply preserves_bind; [frame | intros _]).
    apply preserves_bind; [| intros _; frame].
    apply preserves_modify. intros s H. by apply P_emit, P_write_led.
Qed.

Hypothesis P_status : ∀ v s, P s → P (set_dialer_status v s).
Hypothesis P_pulses_zero : ∀ s, P s → P (set_pulses 0 s).
Hypothesis P_pulses_incr : ∀ s, P s → P (set_pulses (pulses s + 1) s).

Lemma pulse_count_frame : preserves P pulse_count.
Proof.
  unfold pulse_count. apply preserves_bind; [frame | intros status].
  apply preserves_if; [| frame]. apply preserves_modify, P_pulses_incr.
Qed.

Hypothesis P_number_append : ∀ s,
  P s → Z.of_nat (String.length (dialed_number s)) < max_numbers → pulses s ≠ 20 →
  P (set_dialed_number (dialed_number s ++ Py.str (Z.quot (pulses s) 2)) s).

Lemma dial_detect_frame : preserves P (dial_detect cfg W).
Proof.
  unfold dial_detect. apply preserves_bind; [frame | intros line].
  apply preserves_if; [| frame].
  apply preserves_bind; [frame | intros level].
  apply preserves_bind; [apply preserves_modify, P_status | intros _].
  apply preserves_bind; [frame | intros status].
  apply preserves_bind; [| intros _].
  { apply preserves_if; [| frame].
    apply preserves_bind; [apply preserves_modify, P_pulses_zero | intros _; frame]. }
  assert (preserves P (pi_write pin_dialer_led PI_LOW)) as Hled by frame.
  intros s H. rewrite bind_run. cbv [gets]. rewrite bind_run.
  destruct (Z.leb_spec max_numbers (Z.of_nat (String.length (dialed_number s))))
    as [Hfull|Hroom].
  { cbv [modify]. by apply Hled, P_number_reset. }
  rewrite bind_run. cbv [gets].
  destruct (Z.eqb_spec (pulses s) 0) as [Hzero|Hcount]; cbv [negb mret M_ret].
  { by apply Hled. }
  rewrite bind_run.
  destruct (Z.eqb_spec (pulses s) 20) as [Htwenty|Hother]; cbv [modify mret M_ret];
    rewrite bind_run; cbv [gets]; rewrite bind_run; cbv [modify].
  - assert (pulses (set_pulses 0 s) ≠ 20) as Hne by discriminate.
    pose proof (P_number_append (set_pulses 0 s) (P_pulses_zero s H) Hroom Hne) as Happ.
    apply check_number_frame in Happ. revert Happ.
    replace (dialed_number (set_pulses 0 s)) with (dialed_number s) by (by destruct s).
    destruct (check_number cfg W _) as [[] s'|e s']; cbv [final]; [apply Hled | done].
  - pose proof (P_number_append s H Hroom Hother) as Happ.
    apply check_number_frame in Happ. revert Happ.
    destruct (check_number cfg W _) as [[] s'|e s']; cbv [final]; [apply Hled | done].
Qed.

Lemma deliver_frame e : preserves P (deliver cfg W e).
Proof.
  destruct e; unfold deliver.
  - apply preserves_modify, P_tick.
  - apply preserves_bind; [frame | intros h]. apply preserves_if; [apply hangout_frame | frame].
  - apply preserves_bind; [frame | intros h].
    apply preserves_if; [apply dial_detect_frame | frame].
  - apply preserves_bind; [frame | intros h].
    apply preserves_if; [apply pulse_count_frame | frame].
Qed.

Lemma exec_frame evs : preserves P (exec cfg W evs).
Proof.
  induction evs as [|e evs IH]; simpl; [apply preserves_ret |].
  apply preserves_bind; [apply deliver_frame | intros _; exact IH].
Qed.

End Stable.

(** ** The states the program reaches *)

Example answered_state :
  clock answered = 7%nat ∧ dialed_number answered = ""%string ∧
  gpio answered !! pin_hangout_led = Some PI_HIGH ∧
  delivers (cb_dialer_handler answered) = true ∧
  delivers (cb_counter_handler answered) = true ∧
  delivers (cb_hangout_handler answered) = true.
Proof. vm_compute. repeat split. Qed.

Lemma gets_run {A} (f : State → A) s : gets f s = Ret (f s) s.
Proof. reflexivity. Qed.

Lemma modify_run f s : modify f s = Ret tt (f s).
Proof. reflexivity. Qed.

Lemma ret_run {A} (a : A) s : (mret a : M A) s = Ret a s.
Proof. reflexivity. Qed.

(** One step of a monadic term applied to a state. *)
Ltac run_step :=
  first [ rewrite bind_run | rewrite modify_run | rewrite gets_run | rewrite ret_run
        | rewrite pi_write_run ];
  cbv beta iota.

Section Decoder.

Variable cfg : Config.
Variable W : World.

Lemma pi_read_input pin s :
  is_input pin = true → pi_read W pin s = Ret (input W (clock s) pin) s.
Proof. intros H. unfold pi_read. by rewrite gets_run, H. Qed.

Lemma pi_read_output pin s :
  is_input pin = false → pi_read W pin s = Ret (default 0 (gpio s !! pin)) s.
Proof. intros H. unfold pi_read. by rewrite gets_run, H. Qed.

(** The callback of the dial with the handset down. *)
Lemma dial_detect_on_hook s :
  input W (clock s) pin_phone_hangout ≠ PI_HIGH → dial_detect cfg W s = Ret tt s.
Proof.
  intros H. unfold dial_detect. rewrite bind_run, pi_read_input by done.
  cbv beta iota. by destruct (Z.eqb_spec (input W (clock s) pin_phone_hangout) PI_HIGH).
Qed.

(** The dial-in-progress signal rises: the count restarts and a full buffer
    is emptied. *)
Lemma dial_detect_rise s :
  input W (clock s) pin_phone_hangout = PI_HIGH →
  input W (clock s) pin_dial_detect = PI_HIGH →
  dial_detect cfg W s =
    Ret tt (written pin_dialer_led PI_LOW
              ((if max_numbers <=? Z.of_nat (String.length (dialed_number s))
                then set_dialed_number ""%string else id)
                 (written pin_dialer_led PI_HIGH
                    (set_pulses 0 (set_dialer_status PI_HIGH s))))).
Proof.
  intros Hhook Hdial. unfold dial_detect.
  rewrite bind_run, pi_read_input, Hhook by done. cbv beta iota.
  change (PI_HIGH =? PI_HIGH) with true. cbv beta iota.
  rewrite bind_run, pi_read_input, Hdial by done. cbv beta iota.
  repeat run_step. change (dialer_status (set_dialer_status PI_HIGH s)) with PI_HIGH.
  change (PI_HIGH =? PI_HIGH) with true. cbv beta iota.
  repeat run_step.
  change (dialed_number (written _ _ (set_pulses 0 (set_dialer_status PI_HIGH s))))
    with (dialed_number s).
  destruct (max_numbers <=? _).
  - by repeat run_step.
  - repeat run_step.
    change (pulses (written pin_dialer_led PI_HIGH (set_pulses 0 (set_dialer_status PI_HIGH s))))
      with 0.
    change (negb (0 =? 0)) with false. cbv beta iota. by repeat run_step.
Qed.

(** The signal falls: a full buffer is emptied, a turn without pulses adds
    nothing, any other turn appends its digit and calls the dispatcher. *)
Lemma dial_detect_fall s :
  input W (clock s) pin_phone_hangout = PI_HIGH →
  input W (clock s) pin_dial_detect = PI_LOW →
  dial_detect cfg W s =
    if max_numbers <=? Z.of_nat (String.length (dialed_number s))
    then Ret tt (written pin_dialer_led PI_LOW
                   (set_dialed_number ""%string (set_dialer_status PI_LOW s)))
    else if pulses s =? 0
    then Ret tt (written pin_dialer_led PI_LOW (set_dialer_status PI_LOW s))
    else (check_number cfg W;; pi_write pin_dialer_led PI_LOW)
           (set_dialed_number (dialed_number s ++ Py.str (decoded (pulses s)))%string
              (set_pulses (if pulses s =? 20 then 0 else pulses s)
                 (set_dialer_status PI_LOW s))).
Proof.
  intros Hhook Hdial. unfold dial_detect.
  rewrite bind_run, pi_read_input, Hhook by done. cbv beta iota.
  change (PI_HIGH =? PI_HIGH) with true. cbv beta iota.
  rewrite bind_run, pi_read_input, Hdial by done. cbv beta iota.
  repeat run_step. change (dialer_status (set_dialer_status PI_LOW s)) with PI_LOW.
  change (PI_LOW =? PI_HIGH) with false. cbv beta iota.
  repeat run_step.
  change (dialed_number (set_dialer_status PI_LOW s)) with (dialed_number s).
  destruct (max_numbers <=? _).
  - by repeat run_step.
  - repeat run_step. change (pulses (set_dialer_status PI_LOW s)) with (pulses s).
    destruct (pulses s =? 0); cbv [negb]; cbv beta iota.
    + by repeat run_step.
    + unfold decoded. destruct (pulses s =? 20) eqn:E; repeat run_step.
      * destruct s; reflexivity.
      * destruct s; reflexivity.
Qed.

End Decoder.

(** ** Turns of the dial *)

Lemma decoded_edges d : 0 ≤ d ≤ 9 → (0 < edges d)%nat ∧ decoded (Z.of_nat (edges d)) = d.
Proof.
  intros H.
  assert (d = 0 ∨ d = 1 ∨ d = 2 ∨ d = 3 ∨ d = 4 ∨ d = 5 ∨ d = 6 ∨ d = 7 ∨ d = 8 ∨ d = 9)
    as Hd by lia.
  repeat (destruct Hd as [-> | Hd]; [vm_compute; split; [lia | reflexivity] |]).
  subst. vm_compute; split; [lia | reflexivity].
Qed.

Lemma same_station_refl s : same_station s s.
Proof. by repeat split. Qed.

Lemma same_station_trans s1 s2 s3 :
  same_station s1 s2 → same_station s2 s3 → same_station s1 s3.
Proof.
  unfold same_station. intros (?&?&?&?&?&?&?&?) (?&?&?&?&?&?&?&?).
  repeat split; congruence.
Qed.

(** Writing one of the two dial indicators leaves the station as it is. *)
Lemma same_station_written pin level s :
  pin ≠ pin_hangout_led → same_station s (written pin level s).
Proof.
  intros Hpin. destruct s. unfold same_station. eval_state.
  repeat split; [by rewrite lookup_insert_ne | rewrite processes_app; simpl; apply app_nil_r].
Qed.

Lemma risen_facts s :
  let s_up := written pin_dialer_led PI_LOW
                ((if max_numbers <=? Z.of_nat (String.length (dialed_number (tick s)))
                  then set_dialed_number ""%string else id)
                   (written pin_dialer_led PI_HIGH
                      (set_pulses 0 (set_dialer_status PI_HIGH (tick s))))) in
  dialed_number s_up = fresh s ∧ same_station s s_up ∧ clock s_up = S (clock s) ∧
  pulses s_up = 0 ∧ dialer_status s_up = PI_HIGH.
Proof.
  destruct s. unfold fresh, same_station. eval_state.
  destruct (max_numbers <=? _); cbv [id]; eval_state;
    rewrite !lookup_insert_ne by done; rewrite !processes_app; simpl;
    rewrite !app_nil_r; done.
Qed.

Lemma counted_facts n s_up :
  pulses s_up = 0 →
  let s1 := set_dialed_number (dialed_number (tick (set_pulses (pulses s_up + Z.of_nat n) s_up)) ++
                               Py.str (decoded (pulses (tick (set_pulses (pulses s_up + Z.of_nat n) s_up)))))%string
              (set_pulses (if pulses (tick (set_pulses (pulses s_up + Z.of_nat n) s_up)) =? 20 then 0
                           else pulses (tick (set_pulses (pulses s_up + Z.of_nat n) s_up)))
                 (set_dialer_status PI_LOW (tick (set_pulses (pulses s_up + Z.of_nat n) s_up)))) in
  dialed_number s1 = (dialed_number s_up ++ Py.str (decoded (Z.of_nat n)))%string ∧
  same_station s_up s1 ∧ clock s1 = S (clock s_up).
Proof.
  intros Hp. destruct s_up. eval_state in Hp. subst. unfold same_station. eval_state.
  rewrite Z.add_0_l. done.
Qed.

Section Turns.

Variable cfg : Config.
Variable W : World.

Lemma exec_cons e evs s :
  exec cfg W (e :: evs) s =
    match deliver cfg W e s with
    | Ret _ s' => exec cfg W evs s'
    | Raise e' s' => Raise e' s'
    end.
Proof. reflexivity. Qed.

Lemma exec_nil s : exec cfg W [] s = Ret tt s.
Proof. reflexivity. Qed.

Lemma deliver_tick s : deliver cfg W Tick s = Ret tt (tick s).
Proof. reflexivity. Qed.

Lemma exec_app evs1 evs2 s :
  exec cfg W (evs1 ++ evs2) s =
    match exec cfg W evs1 s with
    | Ret _ s' => exec cfg W evs2 s'
    | Raise e s' => Raise e s'
    end.
Proof.
  revert s. induction evs1 as [|e evs1 IH]; intros s; [done |].
  rewrite <- app_comm_cons, !exec_cons. destruct (deliver cfg W e s); [apply IH | done].
Qed.

Lemma deliver_dial s :
  delivers (cb_dialer_handler s) = true → deliver cfg W DialEdge s = dial_detect cfg W s.
Proof. intros H. unfold deliver. by rewrite bind_run, gets_run, H. Qed.

Lemma pulse_count_run s :
  delivers (cb_counter_handler s) = true → dialer_status s = PI_HIGH →
  deliver cfg W PulseEdge s = Ret tt (set_pulses (pulses s + 1) s).
Proof.
  intros H Hs. unfold deliver. rewrite bind_run, gets_run, H. unfold pulse_count.
  by rewrite bind_run, gets_run, Hs.
Qed.

Lemma pulses_run n s :
  delivers (cb_counter_handler s) = true → dialer_status s = PI_HIGH →
  exec cfg W (repeat PulseEdge n) s = Ret tt (set_pulses (pulses s + Z.of_nat n) s).
Proof.
  revert s. induction n as [|n IH]; intros s H Hs.
  - simpl. destruct s. eval_state. do 2 f_equal. lia.
  - simpl repeat. rewrite exec_cons, pulse_count_run by done.
    rewrite IH by done. destruct s. eval_state. do 2 f_equal. lia.
Qed.

Lemma rotation_run n s :
  (0 < n)%nat →
  delivers (cb_dialer_handler s) = true → delivers (cb_counter_handler s) = true →
  off_hook_dialing W (clock s) 1 →
  ∃ s1, exec cfg W (rotation n) s =
          (check_number cfg W;; pi_write pin_dialer_led PI_LOW) s1 ∧
        dialed_number s1 = (fresh s ++ Py.str (decoded (Z.of_nat n)))%string ∧
        same_station s s1 ∧ clock s1 = S (S (clock s)).
Proof.
  intros Hn Hd Hc Hw. destruct (Hw O ltac:(lia)) as (Hh1 & Hd1 & Hh2 & Hd2).
  replace (clock s + 2 * 0 + 1)%nat with (S (clock s)) in * by lia.
  replace (clock s + 2 * 0 + 2)%nat with (S (S (clock s))) in * by lia.
  unfold rotation. rewrite exec_app, exec_cons, deliver_tick. cbv beta iota.
  rewrite exec_cons, deliver_dial by exact Hd.
  rewrite dial_detect_rise by assumption. cbv beta iota. rewrite exec_nil.
  pose proof (risen_facts s) as F. cbv zeta in F.
  set (s_up := written pin_dialer_led PI_LOW _) in *.
  destruct F as (Hnum & Hsame & Hclock & Hp & Hst).
  assert (cb_dialer_handler s_up = cb_dialer_handler s ∧
          cb_counter_handler s_up = cb_counter_handler s) as [Hcd Hcc]
    by (by destruct Hsame as (?&?&?&?&?&?&?)).
  rewrite exec_app, pulses_run by (by rewrite ?Hcc).
  rewrite exec_cons, deliver_tick. cbv beta iota.
  rewrite exec_cons, deliver_dial by (by rewrite <- Hcd in Hd).
  rewrite dial_detect_fall
    by (change (clock (tick (set_pulses (pulses s_up + Z.of_nat n) s_up)))
          with (S (clock s_up)); by rewrite Hclock).
  pose proof (counted_facts n s_up Hp) as G. cbv zeta in G.
  set (s_counted := tick (set_pulses _ s_up)) in *.
  assert (dialed_number s_counted = fresh s) as Hnum' by (by rewrite <- Hnum).
  assert ((max_numbers <=? Z.of_nat (String.length (dialed_number s_counted))) = false) as ->.
  { rewrite Hnum'. unfold fresh.
    destruct (Z.leb_spec max_numbers (Z.of_nat (String.length (dialed_number s))))
      as [|Hlt]; [done |].
    by apply Z.leb_gt. }
  assert (pulses s_counted = Z.of_nat n) as Hp' by (subst s_counted; rewrite Hp; apply Z.add_0_l).
  destruct (Z.eqb_spec (pulses s_counted) 0) as [|_]; [lia |].
  set (s1 := set_dialed_number _ _) in *. destruct G as (G1 & G2 & G3).
  exists s1. split; [| split; [| split]].
  - by destruct ((check_number cfg W;; pi_write pin_dialer_led PI_LOW) s1) as [[] ?|].
  - by rewrite G1, Hnum.
  - by eapply same_station_trans.
  - by rewrite G3, Hclock.
Qed.

End Turns.

(** ** Dialling a number *)

Lemma off_hook_dialing_tail W t k :
  off_hook_dialing W t (S k) →
  off_hook_dialing W t 1 ∧ off_hook_dialing W (S (S t)) k.
Proof.
  intros H. split; intros i Hi.
  - apply H. lia.
  - specialize (H (S i) ltac:(lia)).
    by replace (S (S t) + 2 * i + 1)%nat with (t + 2 * S i + 1)%nat by lia;
       replace (S (S t) + 2 * i + 2)%nat with (t + 2 * S i + 2)%nat by lia.
Qed.

Lemma fresh_ready s : ready_to_dial s → fresh s = ""%string.
Proof.
  intros (_ & _ & [H | H]); unfold fresh.
  - by rewrite H.
  - by destruct (Z.leb_spec max_numbers (Z.of_nat (String.length (dialed_number s)))); [| lia].
Qed.

Lemma fresh_short s :
  (String.length (dialed_number s) < 3)%nat → fresh s = dialed_number s.
Proof.
  intros H. unfold fresh, max_numbers.
  by destruct (Z.leb_spec 3 (Z.of_nat (String.length (dialed_number s)))); [lia |].
Qed.

Lemma length_str_digit d : 0 ≤ d ≤ 9 → String.length (Py.str d) = 1%nat.
Proof. intros H. by rewrite str_digit. Qed.

Lemma string_length_app (a b : string) :
  String.length (a ++ b)%string = (String.length a + String.length b)%nat.
Proof. induction a as [|c a IH]; simpl; [done |]. by rewrite IH. Qed.

Section Dialling.

Variable cfg : Config.
Variable W : World.

(** A turn whose digit completes no command only grows the buffer. *)
Lemma rotation_quiet n s v :
  (0 < n)%nat →
  delivers (cb_dialer_handler s) = true → delivers (cb_counter_handler s) = true →
  off_hook_dialing W (clock s) 1 →
  Py.int (fresh s ++ Py.str (decoded (Z.of_nat n)))%string = Some v → 0 ≤ v < 100 →
  ∃ s', exec cfg W (rotation n) s = Ret tt s' ∧
        dialed_number s' = (fresh s ++ Py.str (decoded (Z.of_nat n)))%string ∧
        same_station s s' ∧ clock s' = S (S (clock s)).
Proof.
  intros Hn Hd Hc Hw Hv Hsmall.
  destruct (rotation_run cfg W n s Hn Hd Hc Hw) as (s1 & Hrun & Hnum & Hsame & Hclock).
  exists (written pin_dialer_led PI_LOW s1). split; [| split; [| split]].
  - rewrite Hrun, bind_run, (check_number_quiet cfg W s1 v) by (by rewrite ?Hnum).
    reflexivity.
  - by destruct s1.
  - eapply same_station_trans; [exact Hsame |]. by apply same_station_written.
  - by destruct s1.
Qed.

(** Three digits dialled into a fresh buffer: the first two rest in the
    buffer, the third enters the dispatcher with the three of them. *)
Lemma dial3_run a b c s :
  0 ≤ a ≤ 9 → 0 ≤ b ≤ 9 → 0 ≤ c ≤ 9 →
  ready_to_dial s → off_hook_dialing W (clock s) 3 →
  ∃ s3, exec cfg W (dial [a; b; c]) s =
          (check_number cfg W;; pi_write pin_dialer_led PI_LOW) s3 ∧
        dialed_number s3 = ((Py.str a ++ Py.str b) ++ Py.str c)%string ∧
        Py.int (dialed_number s3) = Some (100 * a + 10 * b + c) ∧
        same_station s s3 ∧ clock s3 = (clock s + 6)%nat.
Proof.
  intros Ha Hb Hc Hready Hw.
  destruct (int_digits3 a b c Ha Hb Hc) as (I1 & I2 & I3).
  destruct (decoded_edges a Ha) as [Ea Da]. destruct (decoded_edges b Hb) as [Eb Db].
  destruct (decoded_edges c Hc) as [Ec Dc].
  apply off_hook_dialing_tail in Hw as [W1 Hw].
  apply off_hook_dialing_tail in Hw as [W2 Hw].
  apply off_hook_dialing_tail in Hw as [W3 _].
  pose proof (fresh_ready s Hready) as F0. destruct Hready as (Hd & Hcn & _).
  destruct (rotation_quiet (edges a) s a Ea Hd Hcn W1) as (s1 & R1 & N1 & S1 & C1);
    [by rewrite F0, Da | lia |].
  rewrite F0, Da in N1. change ("" ++ Py.str a)%string with (Py.str a) in N1.
  assert (delivers (cb_dialer_handler s1) = true ∧ delivers (cb_counter_handler s1) = true)
    as [Hd1 Hcn1] by (by destruct S1 as (?&?&?&?&->&->&?)).
  assert (fresh s1 = Py.str a) as F1
    by (rewrite fresh_short; rewrite N1; [done | rewrite length_str_digit by done; lia]).
  rewrite <- C1 in W2.
  destruct (rotation_quiet (edges b) s1 (10 * a + b) Eb Hd1 Hcn1 W2) as (s2 & R2 & N2 & S2 & C2);
    [by rewrite F1, Db | lia |].
  rewrite F1, Db in N2.
  assert (delivers (cb_dialer_handler s2) = true ∧ delivers (cb_counter_handler s2) = true)
    as [Hd2 Hcn2] by (by destruct S2 as (?&?&?&?&->&->&?)).
  assert (fresh s2 = (Py.str a ++ Py.str b)%string) as F2.
  { rewrite fresh_short; rewrite N2; [done |].
    rewrite string_length_app, !length_str_digit by done. lia. }
  rewrite <- C1, <- C2 in W3.
  destruct (rotation_run cfg W (edges c) s2 Ec Hd2 Hcn2 W3) as (s3 & R3 & N3 & S3 & C3).
  rewrite F2, Dc in N3.
  exists s3. split; [| split; [| split; [| split]]].
  - change (dial [a; b; c])
      with (rotation (edges a) ++ rotation (edges b) ++ rotation (edges c) ++ []).
    rewrite app_nil_r, exec_app, R1. cbv beta iota.
    rewrite exec_app, R2. cbv beta iota. exact R3.
  - exact N3.
  - by rewrite N3.
  - eapply same_station_trans; [| exact S3]. by eapply same_station_trans.
  - lia.
Qed.

End Dialling.

(** ** The commands *)

Lemma release_callbacks_run s : release_callbacks s = Ret tt (released s).
Proof. reflexivity. Qed.

Lemma cb_set_rotary_run s : cb_set_rotary s = Ret tt (rotary_on s).
Proof. reflexivity. Qed.

Lemma reinit_run s : reinit s = Ret tt (reinitialised s).
Proof. reflexivity. Qed.

Section Commands.

Variable cfg : Config.
Variable W : World.

Lemma guarded_run action s s2 :
  action (released s) = Ret tt s2 → guarded W action s = Ret tt (rearmed s2).
Proof.
  intros H. unfold guarded. rewrite bind_run, release_callbacks_run. cbv beta iota.
  rewrite bind_run, H. cbv beta iota. unfold cb_set_hangout.
  rewrite bind_run, modify_run. cbv beta iota.
  rewrite bind_run, pi_read_output by done. cbv beta iota. unfold rearmed.
  change (gpio (set_cb_hangout_handler pi_callback s2)) with (gpio s2).
  destruct (_ =? _); [apply cb_set_rotary_run | reflexivity].
Qed.

Lemma guarded_raise action s e s2 :
  action (released s) = Raise e s2 → guarded W action s = Raise e s2.
Proof.
  intros H. unfold guarded. rewrite bind_run, release_callbacks_run. cbv beta iota.
  by rewrite bind_run, H.
Qed.

Lemma next_position_mod p :
  0 ≤ p < tracks cfg → next_position cfg p = (p + 1) `mod` tracks cfg.
Proof.
  intros H. unfold next_position. destruct (Z.eqb_spec (p + 1) (tracks cfg)) as [->|].
  - by rewrite Z.mod_same by lia.
  - by rewrite Z.mod_small by lia.
Qed.

(** What one track played between release and re-arming leaves behind. *)
Lemma track_played_facts s :
  let s' := rearmed (track_played cfg (released s)) in
  track_position s' = next_position cfg (track_position s) ∧
  processes (log s') = processes (log s) ++ track_processes cfg (Z.to_nat (track_position s)) ∧
  dialed_number s' = dialed_number s ∧ is_playing s' = false ∧ ampli_status s' = false.
Proof.
  destruct s. unfold rearmed, track_played. eval_state.
  destruct (_ =? _); cbv [id]; eval_state; rewrite !processes_app; simpl;
    rewrite ?app_nil_r, <- ?app_assoc; done.
Qed.


(** The dispatcher entered after the last digit, followed to the end of the
    callback of the dial. *)
Lemma next_track_run s :
  messages_ok cfg → playlist_ok cfg → 0 ≤ track_position s < tracks cfg →
  Py.int (dialed_number s) = Some 321 →
  (check_number cfg W;; pi_write pin_dialer_led PI_LOW) s =
    Ret tt (written pin_dialer_led PI_LOW (rearmed (track_played cfg (released s)))).
Proof.
  intros Hm Hl Hp Hn. rewrite bind_run, (check_number_dispatch cfg W s 321 Hn).
  change (dispatch cfg W 321) with (guarded W (play_track cfg W)).
  by rewrite (guarded_run _ s (track_played cfg (released s)))
    by (by apply play_track_run).
Qed.

Lemma track_select_run s n :
  messages_ok cfg → playlist_ok cfg → action_code cfg n → 400 < n ≤ tracks cfg + 400 →
  Py.int (dialed_number s) = Some n →
  (check_number cfg W;; pi_write pin_dialer_led PI_LOW) s =
    Ret tt (written pin_dialer_led PI_LOW
              (rearmed (track_played cfg (released (set_track_position (n - 401) s))))).
Proof.
  intros Hm Hl [Hreset _] Hsel Hn. rewrite bind_run, (check_number_dispatch cfg W s n Hn).
  unfold dispatch.
  repeat match goal with
         | |- context [n =? ?k] => destruct (Z.eqb_spec n k); [lia |]
         end.
  destruct (Z.leb_spec n (tracks cfg + 400)); [| lia].
  destruct (Z.ltb_spec 400 n); [| lia]. cbv [andb].
  rewrite bind_run, modify_run. cbv beta iota.
  by rewrite (guarded_run _ _ (track_played cfg (released (set_track_position (n - 401) s))))
    by (apply play_track_run; [done | done | cbv [released written]; eval_state;
        destruct s; eval_state; lia]).
Qed.

End Commands.

(** ** Next track and track selection *)

Lemma written_facts pin level s :
  let s' := written pin level s in
  track_position s' = track_position s ∧ dialed_number s' = dialed_number s ∧
  is_playing s' = is_playing s ∧ ampli_status s' = ampli_status s ∧
  processes (log s') = processes (log s).
Proof.
  destruct s. eval_state. rewrite processes_app. simpl. by rewrite app_nil_r.
Qed.

Section Claims.

Variable cfg : Config.
Variable W : World.

(** C8: with [N >= 1] tracks and the play position [p] in [0, N-1],
    dialling 3, 2, 1 announces and plays the track at position [p], and
    nothing else, and leaves the play position at [(p + 1) mod N]. *)
Theorem next_track_advances (N p : Z) (s : State) :
  messages_ok cfg → playlist_ok cfg → tracks cfg = N → 1 ≤ N → 0 ≤ p ≤ N - 1 →
  track_position s = p → ready_to_dial s → off_hook_dialing W (clock s) 3 →
  ∃ s', exec cfg W (dial [3; 2; 1]) s = Ret tt s' ∧
        processes (log s') = processes (log s) ++ track_processes cfg (Z.to_nat p) ∧
        track_position s' = (p + 1) `mod` N.
Proof.
  intros Hm Hl HN H1 Hp Hpos Hready Hw.
  destruct (dial3_run cfg W 3 2 1 s) as (s3 & Hrun & _ & Hint & Hsame & _);
    [lia | lia | lia | done | done |].
  destruct Hsame as (Hpos3 & _ & _ & _ & _ & _ & _ & Hlog3).
  rewrite next_track_run in Hrun by (done || lia).
  eexists. split; [exact Hrun |].
  destruct (written_facts pin_dialer_led PI_LOW (rearmed (track_played cfg (released s3))))
    as (-> & _ & _ & _ & ->).
  destruct (track_played_facts cfg s3) as (-> & -> & _).
  rewrite Hlog3, Hpos3, Hpos. split; [done |].
  rewrite <- HN. apply next_position_mod. lia.
Qed.

(** C6, as the program has it: with at least five tracks, dialling 4, 0, 5
    announces and plays the track at index 4, and nothing else, and moves
    the play position of the next-track command to the track after it: 5,
    or 0 when there are exactly five tracks. *)
Theorem track_select_moves_position (s : State) :
  messages_ok cfg → playlist_ok cfg → 5 ≤ tracks cfg →
  ready_to_dial s → off_hook_dialing W (clock s) 3 →
  ∃ s', exec cfg W (dial [4; 0; 5]) s = Ret tt s' ∧
        processes (log s') = processes (log s) ++ track_processes cfg 4 ∧
        track_position s' = if tracks cfg =? 5 then 0 else 5.
Proof.
  intros Hm Hl H5 Hready Hw.
  destruct (dial3_run cfg W 4 0 5 s) as (s3 & Hrun & _ & Hint & Hsame & _);
    [lia | lia | lia | done | done |].
  destruct Hsame as (_ & _ & _ & _ & _ & _ & _ & Hlog3).
  rewrite (track_select_run cfg W s3 405) in Hrun by (done || (unfold action_code; lia)).
  eexists. split; [exact Hrun |].
  match type of Hrun with _ = Ret _ (written _ _ ?x) =>
    destruct (written_facts pin_dialer_led PI_LOW x) as (-> & _ & _ & _ & ->) end.
  destruct (track_played_facts cfg (set_track_position (405 - 401) s3)) as (-> & -> & _).
  change (log (set_track_position (405 - 401) s3)) with (log s3).
  change (track_position (set_track_position (405 - 401) s3)) with 4.
  rewrite Hlog3. split; [done |]. unfold next_position.
  change (4 + 1) with 5. by rewrite Z.eqb_sym.
Qed.

End Claims.

(** ** The buffer after a command *)

(** A frame lemma used for a property that reads fields nothing in the
    term writes: every side condition holds by computation. *)
Ltac by_frame lem := apply lem; intros; first [assumption | reflexivity].

Section Buffer.

Variable cfg : Config.
Variable W : World.

(** No command but the reset touches the dialled number. *)
Lemma dispatch_keeps_number n x :
  n ≠ 666 → preserves (λ s, dialed_number s = x) (dispatch cfg W n).
Proof.
  intros Hn. unfold dispatch. destruct (Z.eqb_spec n 666) as [|_]; [done |].
  set (P := λ s, dialed_number s = x).
  assert (∀ action, preserves P action → preserves P (guarded W action)) as Hg.
  { intros action Ha. by_frame (guarded_frame W P). }
  apply preserves_if; [apply Hg; by_frame (play_track_frame cfg W P) |].
  apply preserves_if; [apply Hg; by_frame (play_all_tracks_frame cfg W P) |].
  apply preserves_if; [apply Hg; by_frame (list_all_tracks_frame cfg W P) |].
  apply preserves_if.
  { apply preserves_bind; [by apply preserves_modify | intros _].
    apply Hg; by_frame (play_track_frame cfg W P). }
  apply preserves_if; [apply Hg; by_frame (say_help_frame cfg W P) |].
  apply preserves_if.
  { apply preserves_bind; [by_frame (runCmd_frame W P) | intros _; apply preserves_ret]. }
  apply preserves_if; [apply Hg; by_frame (get_weather_frame cfg W P) |].
  apply preserves_ret.
Qed.

(** With the handset lifted, the callback of the dial empties a full buffer,
    whichever way the dial-in-progress signal went. *)
Lemma dial_detect_full s :
  input W (clock s) pin_phone_hangout = PI_HIGH →
  max_numbers ≤ Z.of_nat (String.length (dialed_number s)) →
  ∃ s', dial_detect cfg W s = Ret tt s' ∧ dialed_number s' = ""%string.
Proof.
  intros Hhook Hfull. unfold dial_detect.
  rewrite bind_run, pi_read_input, Hhook by done. cbv beta iota.
  change (PI_HIGH =? PI_HIGH) with true. cbv beta iota.
  rewrite bind_run, pi_read_input by done. cbv beta iota.
  repeat run_step.
  change (dialer_status (set_dialer_status ?v s)) with v.
  destruct (input W (clock s) pin_dial_detect =? PI_HIGH); repeat run_step.
  - match goal with |- context [dialed_number ?t] =>
      change (dialed_number t) with (dialed_number s) end.
    destruct (Z.leb_spec max_numbers (Z.of_nat (String.length (dialed_number s)))); [| lia].
    repeat run_step. eexists. split; [reflexivity |]. by destruct s.
  - match goal with |- context [dialed_number ?t] =>
      change (dialed_number t) with (dialed_number s) end.
    destruct (Z.leb_spec max_numbers (Z.of_nat (String.length (dialed_number s)))); [| lia].
    repeat run_step. eexists. split; [reflexivity |]. by destruct s.
Qed.

(** C2, as the program has it: a code that starts an action (321, 123,
    124, 401 to 400 + tracks, 111, 100) is still in the buffer when the
    dispatcher returns, or raises; it is the callback of the dial that
    empties the buffer, at the next edge of the dial-in-progress signal with
    the handset lifted, because the buffer is full. *)
Theorem command_stays_in_buffer (s : State) (n : Z) :
  Py.int (dialed_number s) = Some n → action_code cfg n →
  dialed_number (final (check_number cfg W s)) = dialed_number s ∧
  ∀ s2, dialed_number s2 = dialed_number s →
        input W (clock s2) pin_phone_hangout = PI_HIGH →
        ∃ s', dial_detect cfg W s2 = Ret tt s' ∧ dialed_number s' = ""%string.
Proof.
  intros Hn [Hreset Hcode]. split.
  - rewrite (check_number_dispatch cfg W s n Hn).
    by apply (dispatch_keeps_number n (dialed_number s) Hreset).
  - intros s2 Hsame Hhook. apply dial_detect_full; [done |].
    rewrite Hsame. unfold max_numbers.
    destruct (Nat.lt_ge_cases (String.length (dialed_number s)) 3) as [Hshort|]; [| lia].
    pose proof (int_small _ _ Hn Hshort). lia.
Qed.

(** C3, as the program has it: dialling 6, 6, 6 into a fresh buffer (an
    empty one, or one already holding three characters) leaves the buffer
    empty. *)
Theorem reset_code_clears_fresh_buffer (s : State) :
  ready_to_dial s → off_hook_dialing W (clock s) 3 →
  ∃ s', exec cfg W (dial [6; 6; 6]) s = Ret tt s' ∧ dialed_number s' = ""%string.
Proof.
  intros Hready Hw.
  destruct (dial3_run cfg W 6 6 6 s) as (s3 & Hrun & _ & Hint & _);
    [lia | lia | lia | done | done |].
  rewrite bind_run, (check_number_dispatch cfg W s3 666 Hint) in Hrun.
  change (dispatch cfg W 666) with (modify (set_dialed_number ""%string);; reinit) in Hrun.
  rewrite bind_run, modify_run, reinit_run in Hrun. cbv beta iota in Hrun.
  rewrite pi_write_run in Hrun. eexists. split; [exact Hrun |]. by destruct s3.
Qed.

(** [reinit] assigns [track_position] and [is_playing] as locals: in the
    state, the play position and the playing flag are what they were. *)
Lemma reinit_keeps_position s :
  track_position (final (reinit s)) = track_position s ∧
  is_playing (final (reinit s)) = is_playing s.
Proof. by destruct s. Qed.

End Buffer.

(** ** The decoder, the playlist bounds and the amplifier flag *)

Section Invariants.

Variable cfg : Config.
Variable W : World.

(** C5: with the handset lifted, room in the buffer and the dial released
    after [P] edges of the pulse pin, the callback of the dial appends
    nothing when [P = 0], appends the digit 0 when [P = 20] and the digit
    [P / 2] when [P] is even and between 2 and 18, and then calls the
    dispatcher on the buffer so extended. *)
Theorem dial_detect_decodes (s : State) (P : Z) :
  input W (clock s) pin_phone_hangout = PI_HIGH →
  input W (clock s) pin_dial_detect = PI_LOW →
  Z.of_nat (String.length (dialed_number s)) < max_numbers →
  pulses s = P →
  (P = 0 →
     dial_detect cfg W s = Ret tt (written pin_dialer_led PI_LOW (set_dialer_status PI_LOW s)) ∧
     dialed_number (final (dial_detect cfg W s)) = dialed_number s) ∧
  (P = 20 →
     dial_detect cfg W s =
       (check_number cfg W;; pi_write pin_dialer_led PI_LOW)
         (set_dialed_number (dialed_number s ++ "0")%string
            (set_pulses 0 (set_dialer_status PI_LOW s)))) ∧
  (∀ d, 1 ≤ d ≤ 9 → P = 2 * d →
     dial_detect cfg W s =
       (check_number cfg W;; pi_write pin_dialer_led PI_LOW)
         (set_dialed_number (dialed_number s ++ String (Py.digit_char d) "")%string
            (set_pulses P (set_dialer_status PI_LOW s)))).
Proof.
  intros Hhook Hdial Hroom HP. rewrite (dial_detect_fall cfg W s Hhook Hdial).
  destruct (Z.leb_spec max_numbers (Z.of_nat (String.length (dialed_number s)))); [lia |].
  rewrite HP. split; [| split].
  - intros ->. split; [done |]. by destruct s.
  - by intros ->.
  - intros d Hd ->. destruct (Z.eqb_spec (2 * d) 0); [lia |].
    destruct (Z.eqb_spec (2 * d) 20); [lia |].
    unfold decoded. destruct (Z.eqb_spec (2 * d) 20); [lia |].
    replace (Z.quot (2 * d) 2) with d by (rewrite Z.mul_comm, Z.quot_mul; lia).
    by rewrite str_digit by lia.
Qed.

(** C10: when the two lists of the playlist have [tracks] entries, a
    number the dispatcher takes for a track selection ([400 < n] and
    [n <= tracks + 400]) gives a play position [n - 401] between 0 and
    [tracks - 1], both lists have an entry there, and [play_track] run from
    that position returns without an [IndexError]. *)
Theorem track_select_in_bounds (n : Z) (s : State) :
  playlist_ok cfg →
  (n <=? tracks cfg + 400) && (400 <? n) = true →
  0 ≤ n - 401 ≤ tracks cfg - 1 ∧
  is_Some (Py.index (track_titles cfg) (n - 401)) ∧
  is_Some (Py.index (track_list cfg) (n - 401)) ∧
  (messages_ok cfg →
   play_track cfg W (set_track_position (n - 401) s) =
     Ret tt (track_played cfg (set_track_position (n - 401) s))).
Proof.
  intros Hl Hn. apply andb_prop in Hn as [Hle Hgt].
  apply Z.leb_le in Hle. apply Z.ltb_lt in Hgt.
  assert (0 ≤ n - 401 < tracks cfg) as Hp by lia.
  split; [lia |]. split; [| split].
  - rewrite (title_index cfg _ Hl Hp). by eexists.
  - rewrite (file_index cfg _ Hl Hp). by eexists.
  - intros Hm. by apply play_track_run.
Qed.

(** C9: [ampli_status] is false after every call of [ampli_on_off]; no
    callback and no passing of time turns a false [ampli_status] true; so
    it is false in every state the program reaches from its start, whatever
    the events. *)
Theorem ampli_status_stays_false :
  (∀ s, ∃ s', ampli_on_off s = Ret tt s' ∧ ampli_status s' = false) ∧
  (∀ e s, ampli_status s = false → ampli_status (final (deliver cfg W e s)) = false) ∧
  (∀ evs, ampli_status (final (exec cfg W evs booted)) = false).
Proof.
  split; [| split].
  - intros s. exists (amplified s). split; [apply ampli_on_off_run | done].
  - intros e s H. by_frame (deliver_frame cfg W (λ s, ampli_status s = false) ).
  - intros evs. by_frame (exec_frame cfg W (λ s, ampli_status s = false)).
Qed.

End Invariants.

(** ** The capacity of the buffer *)

Section Capacity.

Variable cfg : Config.
Variable W : World.

(** One event keeps the buffer within its capacity, and the count of
    pulses non-negative, when the count it finds is at most 20. *)
Lemma deliver_capacity e s :
  within_capacity s → 0 ≤ pulses s ≤ 20 →
  within_capacity (final (deliver cfg W e s)) ∧ 0 ≤ pulses (final (deliver cfg W e s)).
Proof.
  intros Hcap Hp. unfold within_capacity in *.
  set (P := λ s, Z.of_nat (String.length (dialed_number s)) ≤ max_numbers ∧ 0 ≤ pulses s).
  assert (P s) as Hs by (split; [exact Hcap | exact (proj1 Hp)]).
  destruct e; unfold deliver.
  - exact Hs.
  - rewrite bind_run, gets_run. destruct (delivers _); [| exact Hs].
    apply (hangout_frame cfg W P); try (intros; assumption).
    intros s' [_ ?]. split; [done |]. by destruct s'.
  - rewrite bind_run, gets_run. destruct (delivers _); [| exact Hs].
    set (Q := λ s, Z.of_nat (String.length (dialed_number s)) ≤ max_numbers ∧
                   0 ≤ pulses s ≤ 20).
    assert (Q (final (dial_detect cfg W s))) as [? [? ?]]; [| by split].
    apply (dial_detect_frame cfg W Q); try (intros; assumption); [| | | by split].
    + intros s' [_ ?]. split; [done |]. by destruct s'.
    + intros s' [? _]. split; [by destruct s' | done].
    + intros s' [_ [Hlo Hhi]] Hroom Hne. split; [| by destruct s'].
      change (dialed_number (set_dialed_number ?v s')) with v.
      assert (0 ≤ Z.quot (pulses s') 2 ≤ 9) as Hd.
      { split; [apply Z.quot_pos; lia |].
        assert (Z.quot (pulses s') 2 < 10) by (apply Z.quot_lt_upper_bound; lia). lia. }
      rewrite string_length_app, length_str_digit by done. unfold max_numbers in *. lia.
  - rewrite bind_run, gets_run. destruct (delivers _); [| exact Hs].
    apply (pulse_count_frame P); [| exact Hs].
    intros s' [? ?]. split; [by destruct s' |].
    change (pulses (set_pulses ?v s')) with v. lia.
Qed.

Lemma exec_snoc evs e s :
  final (exec cfg W (evs ++ [e]) s) =
    match exec cfg W evs s with
    | Ret _ s' => final (deliver cfg W e s')
    | Raise _ s' => s'
    end.
Proof.
  rewrite exec_app. destruct (exec cfg W evs s) as [[] s'|]; [| done].
  rewrite exec_cons. by destruct (deliver cfg W e s') as [[] ?|].
Qed.

Lemma exec_capacity evs :
  (∀ pre, pre `prefix_of` evs → pulses (final (exec cfg W pre booted)) ≤ 20) →
  within_capacity (final (exec cfg W evs booted)) ∧
  0 ≤ pulses (final (exec cfg W evs booted)).
Proof.
  induction evs as [|e evs IH] using rev_ind; intros Hp.
  - vm_compute. split; discriminate.
  - destruct IH as [Hcap Hlo].
    { intros pre Hpre. apply Hp. by apply prefix_app_r. }
    specialize (Hp evs (prefix_app_r evs evs [e] (reflexivity _))).
    rewrite exec_snoc. destruct (exec cfg W evs booted) as [[] s'|]; [| done].
    by apply deliver_capacity.
Qed.

(** X1: the dialled number only ever holds decimal digits and the pulse
    count is never negative, so [int] never raises on the buffer: in every
    state the program reaches, the buffer is empty or [Py.int] has a value
    for it. *)
Lemma dial_detect_digits evs :
  let s := final (exec cfg W evs booted) in
  all_digits (dialed_number s) = true ∧ 0 ≤ pulses s ∧
  (dialed_number s ≠ ""%string → is_Some (Py.int (dialed_number s))).
Proof.
  cbv zeta.
  set (P := λ s, all_digits (dialed_number s) = true ∧ 0 ≤ pulses s).
  assert (P (final (exec cfg W evs booted))) as [Hd Hp].
  { apply (exec_frame cfg W P); try (intros; assumption).
    - intros s [? ?]. split; [done |]. by destruct s.
    - intros s [? ?]. split; [by destruct s | done].
    - intros s [? ?]. split; [by destruct s |].
      change (pulses (set_pulses ?v s)) with v. lia.
    - intros s [? ?] _ _. split; [| by destruct s].
      change (dialed_number (set_dialed_number ?v s)) with v.
      rewrite all_digits_app. apply andb_true_intro. split; [done |].
      apply all_digits_str. apply Z.quot_pos; lia.
    - split; vm_compute; [reflexivity | discriminate]. }
  split; [done |]. split; [done |]. intros Hne. by apply int_all_digits.
Qed.

(** C4, as the program has it: while no turn of the dial delivers more
    than 20 edges of the pulse pin, the buffer never holds more than three
    characters, from the start of the program on and whatever the events;
    and a digit dialled with the handset lifted while the buffer is full
    finds the buffer emptied when the turn begins and is then alone in it. *)
Theorem buffer_within_capacity :
  (∀ evs,
     (∀ pre, pre `prefix_of` evs → pulses (final (exec cfg W pre booted)) ≤ 20) →
     within_capacity (final (exec cfg W evs booted))) ∧
  (∀ s n,
     (0 < n ≤ 20)%nat →
     delivers (cb_dialer_handler s) = true → delivers (cb_counter_handler s) = true →
     off_hook_dialing W (clock s) 1 →
     max_numbers ≤ Z.of_nat (String.length (dialed_number s)) →
     ∃ s', exec cfg W (rotation n) s = Ret tt s' ∧
           dialed_number s' = Py.str (decoded (Z.of_nat n)) ∧
           String.length (dialed_number s') = 1%nat).
Proof.
  split.
  - intros evs Hp. by apply exec_capacity.
  - intros s n Hn Hd Hc Hw Hfull.
    assert (fresh s = ""%string) as Hfresh.
    { unfold fresh.
      by destruct (Z.leb_spec max_numbers (Z.of_nat (String.length (dialed_number s))));
        [| lia]. }
    assert (0 ≤ decoded (Z.of_nat n) ≤ 9) as Hdigit.
    { unfold decoded. destruct (Z.eqb_spec (Z.of_nat n) 20); [done |].
      split; [apply Z.quot_pos; lia |].
      assert (Z.quot (Z.of_nat n) 2 < 10) by (apply Z.quot_lt_upper_bound; lia). lia. }
    destruct (int_digits3 _ 0 0 Hdigit ltac:(lia) ltac:(lia)) as (Hint & _).
    destruct (rotation_quiet cfg W n s (decoded (Z.of_nat n))) as (s' & Hrun & Hnum & _);
      [lia | done | done | done | by rewrite Hfresh | lia |].
    rewrite Hfresh in Hnum. exists s'. split; [done |].
    split; [done |]. rewrite Hnum. by apply length_str_digit.
Qed.

End Capacity.

(** ** Playing the whole list *)

Lemma tracks_played_facts cfg k s :
  0 ≤ track_position s →
  let s' := tracks_played cfg k s in
  log s' = log s ++ flat_map (track_effects cfg) (seq (Z.to_nat (track_position s)) k) ∧
  track_position s' = track_position s + Z.of_nat k ∧
  clock s' = (clock s + 2 * k)%nat ∧ is_playing s' = is_playing s ∧
  ampli_status s' = ampli_status s ∧ gpio s' = gpio s.
Proof.
  revert s. induction k as [|k IH]; intros s Hp; cbv zeta.
  - simpl. rewrite app_nil_r, Z.add_0_r, Nat.add_0_r. done.
  - simpl tracks_played. destruct (IH (one_track cfg s)) as (-> & -> & -> & -> & -> & ->).
    { destruct s. eval_state. eval_state in Hp. lia. }
    destruct s. eval_state. eval_state in Hp.
    match goal with
    | |- context [Z.to_nat (?p + 1)] =>
        replace (Z.to_nat (p + 1)) with (S (Z.to_nat p)) by lia
    end.
    simpl. unfold track_effects, track_processes. simpl.
    rewrite <- !app_assoc. simpl. repeat split; try done; lia.
Qed.

Section PlayAll.

Variable cfg : Config.
Variable W : World.

Lemma play_all_round fuel s :
  messages_ok cfg → playlist_ok cfg → 0 ≤ track_position s < tracks cfg →
  play_all_loop cfg W (S fuel) s =
    if input W (clock s + 2)%nat pin_phone_hangout =? PI_LOW
    then Ret tt (one_track cfg s)
    else play_all_loop cfg W fuel (one_track cfg s).
Proof.
  intros Hm Hl Hp.
  pose proof (message_index cfg 4 Hm ltac:(lia)) as H4. change (Z.of_nat 4) with 4 in H4.
  pose proof (title_index cfg _ Hl Hp) as Ht. pose proof (file_index cfg _ Hl Hp) as Hf.
  simpl play_all_loop. rewrite bind_run, gets_run. cbv beta iota.
  destruct (Z.ltb_spec (track_position s) (tracks cfg)); [| lia].
  cbv [debug_message DEBUG]. repeat run_step. rewrite H4. cbv [value]. repeat run_step.
  rewrite Ht. repeat run_step. rewrite tts_run. cbv beta iota. repeat run_step.
  rewrite Hf. repeat run_step. rewrite runCmd_run. cbv beta iota. repeat run_step.
  rewrite pi_read_input by done. cbv beta iota.
  replace (clock (set_track_position _ _)) with (clock s + 2)%nat by (destruct s; eval_state; lia).
  unfold one_track, announcement, mp3. by destruct (_ =? _).
Qed.




End PlayAll.

(** ** The callbacks after an action *)

Section Rearm.

Variable cfg : Config.
Variable W : World.

Lemma action_keeps_gate (action : M unit) g :
  (∀ P : State → Prop,
     (∀ e s, P s → P (emit e s)) → (∀ s, P s → P (tick s)) →
     (∀ pin v s, pin ≠ pin_hangout_led → P s → P (set_gpio <[pin := v]> s)) →
     (∀ s, P s → P (set_ampli_status false s)) →
     (∀ b s, P s → P (set_is_playing b s)) →
     (∀ v s, P s → P (set_track_position v s)) →
     preserves P action) →
  preserves (λ s, gate_of s = g) action.
Proof.
  intros H. apply H; try (intros; assumption).
  intros pin v s Hpin <-. unfold gate_of. destruct s. eval_state.
  by rewrite lookup_insert_ne.
Qed.

Lemma guarded_gate (action : M unit) s s' :
  preserves (λ x, gate_of x = gate_of (released s)) action →
  guarded W action s = Ret tt s' →
  delivers (cb_hangout_handler s') = true ∧
  cb_dialer_handler s' =
    (if default 0 (gpio s !! pin_hangout_led) =? PI_HIGH
     then pi_callback (cancel (cb_dialer_handler s))
     else cancel (cb_dialer_handler s)).
Proof.
  intros Hkeep Hrun. specialize (Hkeep (released s) eq_refl).
  destruct (action (released s)) as [[] s2|e s2] eqn:E.
  - rewrite (guarded_run W action s s2 E) in Hrun. injection Hrun as <-.
    cbv [final] in Hkeep. unfold gate_of in Hkeep.
    injection Hkeep as Hled Hh Hd Hc. unfold rearmed. rewrite Hled.
    replace (gpio (released s) !! pin_hangout_led) with (gpio s !! pin_hangout_led)
      by (destruct s; eval_state; by rewrite lookup_insert_ne).
    destruct (_ =? _); cbv [id].
    + split; [by destruct s2 |].
      transitivity (pi_callback (cb_dialer_handler s2)); [by destruct s2 |].
      rewrite Hd. by destruct s.
    + split; [by destruct s2 |].
      transitivity (cb_dialer_handler s2); [by destruct s2 |]. rewrite Hd. by destruct s.
  - by rewrite (guarded_raise W action s e s2 E) in Hrun.
Qed.

(** X2: when [check_number] returns from a command with an action, the
    hook callback is registered again, and the callback of the dial is
    registered again exactly when the ready indicator, as the program last
    wrote it, was high before the action; the level of the line plays no
    part. *)
Theorem rearm_follows_indicator (s s' : State) (n : Z) :
  Py.int (dialed_number s) = Some n → action_code cfg n →
  check_number cfg W s = Ret tt s' →
  delivers (cb_hangout_handler s') = true ∧
  cb_dialer_handler s' =
    (if default 0 (gpio s !! pin_hangout_led) =? PI_HIGH
     then pi_callback (cancel (cb_dialer_handler s))
     else cancel (cb_dialer_handler s)).
Proof.
  intros Hn [Hreset Hcode]. rewrite (check_number_dispatch cfg W s n Hn). unfold dispatch.
  destruct (Z.eqb_spec n 666) as [|_]; [done |].
  assert (∀ g, preserves (λ x, gate_of x = g) (play_track cfg W)) as K1
    by (intros g; apply action_keeps_gate; intros; by apply play_track_frame).
  assert (∀ g, preserves (λ x, gate_of x = g) (play_all_tracks cfg W)) as K2
    by (intros g; apply action_keeps_gate; intros; by apply play_all_tracks_frame).
  assert (∀ g, preserves (λ x, gate_of x = g) (list_all_tracks cfg W)) as K3
    by (intros g; apply action_keeps_gate; intros; by apply list_all_tracks_frame).
  assert (∀ g, preserves (λ x, gate_of x = g) (say_help cfg W)) as K4
    by (intros g; apply action_keeps_gate; intros; by apply say_help_frame).
  assert (∀ g, preserves (λ x, gate_of x = g) (get_weather cfg W)) as K5
    by (intros g; apply action_keeps_gate; intros; by apply get_weather_frame).
  destruct (Z.eqb_spec n 321); [by apply guarded_gate |].
  destruct (Z.eqb_spec n 123); [by apply guarded_gate |].
  destruct (Z.eqb_spec n 124); [by apply guarded_gate |].
  destruct ((n <=? tracks cfg + 400) && (400 <? n)) eqn:Hsel.
  { rewrite bind_run, modify_run. cbv beta iota. intros Hrun.
    by apply (guarded_gate _ (set_track_position (n - 401) s) s' (K1 _)) in Hrun. }
  apply andb_false_iff in Hsel. rewrite Z.leb_gt, Z.ltb_ge in Hsel.
  destruct (Z.eqb_spec n 111); [by apply guarded_gate |].
  destruct (Z.eqb_spec n 999); [lia |].
  destruct (Z.eqb_spec n 100); [by apply guarded_gate |].
  lia.
Qed.

End Rearm.

(** C1, at a run the program can make: started, the handset lifted at
    instant 0, 3 2 1 dialled, the handset replaced at instant 15 while the
    amplifier is being switched on.  When the callback returns, at instant
    21, the line reads low, and yet the two callbacks of the dial are
    registered again next to the one of the hook. *)
Theorem dial_rearmed_after_hangup :
  ∃ s', exec demo_cfg (hangs_up_at 15) (HookEdge :: dial [3; 2; 1]) booted = Ret tt s' ∧
        clock s' = 21%nat ∧
        input (hangs_up_at 15) (clock s') pin_phone_hangout = PI_LOW ∧
        delivers (cb_hangout_handler s') = true ∧
        delivers (cb_dialer_handler s') = true ∧
        delivers (cb_counter_handler s') = true.
Proof. eexists. split; [vm_compute; reflexivity |]. vm_compute. by repeat split. Qed.

(** ** The statements on the demonstration telephone *)

Lemma demo_messages_ok : messages_ok demo_cfg.
Proof. unfold messages_ok. vm_compute. lia. Defined.

Lemma demo_playlist_ok : playlist_ok demo_cfg.
Proof. split; vm_compute; reflexivity. Defined.

Lemma answered_ready p : ready_to_dial (answered_at p).
Proof.
  split; [vm_compute; reflexivity |]. split; [vm_compute; reflexivity |].
  left. vm_compute. reflexivity.
Defined.

Lemma lifted_dialing p : off_hook_dialing lifted (clock (answered_at p)) 3.
Proof.
  intros i Hi. destruct i as [|[|[|i]]]; [| | | lia];
    (split; [vm_compute; reflexivity |]); (split; [vm_compute; reflexivity |]);
    (split; vm_compute; reflexivity).
Defined.

(** C2 does not hold as worded: after 1, 2, 4 is dialled and the titles
    are spoken, the buffer holds "124". *)
Lemma command_left_in_buffer :
  ∃ s', exec demo_cfg lifted (HookEdge :: dial [1; 2; 4]) booted = Ret tt s' ∧
        dialed_number s' = "124"%string ∧ dialed_number s' ≠ ""%string.
Proof.
  eexists. split; [vm_compute; reflexivity |]. vm_compute.
  split; [reflexivity | discriminate].
Qed.

Lemma command_stays_in_buffer_witness :
  let s := set_dialed_number "124"%string answered in
  Py.int (dialed_number s) = Some 124 ∧ action_code demo_cfg 124 ∧
  dialed_number (final (check_number demo_cfg lifted s)) = dialed_number s.
Proof.
  assert (Py.int (dialed_number (set_dialed_number "124"%string answered)) = Some 124)
    as Hn by (vm_compute; reflexivity).
  assert (action_code demo_cfg 124) as Hc by (split; [lia | tauto]).
  split; [exact Hn |]. split; [exact Hc |].
  apply (command_stays_in_buffer demo_cfg lifted _ 124 Hn Hc).
Defined.

(** C3 does not hold as worded: with "1" in the buffer, dialling 6, 6, 6
    leaves "6" in it, and no reset happens. *)
Lemma reset_code_after_one_digit :
  ∃ s0 s', exec demo_cfg lifted (HookEdge :: dial [1]) booted = Ret tt s0 ∧
           dialed_number s0 = "1"%string ∧
           exec demo_cfg lifted (dial [6; 6; 6]) s0 = Ret tt s' ∧
           dialed_number s' = "6"%string ∧ dialed_number s' ≠ ""%string.
Proof.
  eexists. eexists. split; [vm_compute; reflexivity |].
  split; [vm_compute; reflexivity |]. split; [vm_compute; reflexivity |].
  vm_compute. split; [reflexivity | discriminate].
Qed.

Lemma reset_code_clears_fresh_buffer_witness :
  ready_to_dial (answered_at 0) ∧ off_hook_dialing lifted (clock (answered_at 0)) 3 ∧
  ∃ s', exec demo_cfg lifted (dial [6; 6; 6]) (answered_at 0) = Ret tt s' ∧
        dialed_number s' = ""%string.
Proof.
  split; [exact (answered_ready 0) |]. split; [exact (lifted_dialing 0) |].
  exact (reset_code_clears_fresh_buffer demo_cfg lifted (answered_at 0)
           (answered_ready 0) (lifted_dialing 0)).
Defined.

(** C4 does not hold as worded: with 1 and 2 in the buffer, a turn of
    the dial that delivers 21 edges appends "10", and the buffer holds four
    characters. *)
Lemma buffer_over_capacity :
  ∃ s', exec demo_cfg lifted (HookEdge :: dial [1; 2] ++ rotation 21) booted = Ret tt s' ∧
        dialed_number s' = "1210"%string ∧ ¬ within_capacity s'.
Proof.
  eexists. split; [vm_compute; reflexivity |]. split; [vm_compute; reflexivity |].
  vm_compute. intros H. apply H. reflexivity.
Qed.

Lemma buffer_within_capacity_witness :
  within_capacity (final (exec demo_cfg lifted (HookEdge :: rotation 2) booted)) ∧
  ∃ s', exec demo_cfg lifted (rotation 4)
          (set_dialed_number "124"%string (answered_at 0)) = Ret tt s' ∧
        dialed_number s' = Py.str (decoded (Z.of_nat 4)) ∧
        String.length (dialed_number s') = 1%nat.
Proof.
  destruct (buffer_within_capacity demo_cfg lifted) as [Hrun Hturn]. split.
  - apply (Hrun (HookEdge :: rotation 2)). intros pre Hpre.
    change (HookEdge :: rotation 2)
      with [HookEdge; Tick; DialEdge; PulseEdge; PulseEdge; Tick; DialEdge] in Hpre.
    repeat (destruct pre as [|? pre];
            [vm_compute; discriminate
            | pose proof (prefix_cons_inv_1 _ _ _ _ Hpre) as ->;
              apply prefix_cons_inv_2 in Hpre]).
    apply prefix_nil_inv in Hpre. subst pre. vm_compute. discriminate.
  - apply Hturn.
    + lia.
    + vm_compute; reflexivity.
    + vm_compute; reflexivity.
    + intros i Hi. destruct i as [|i]; [| lia].
      split; [vm_compute; reflexivity |]. split; [vm_compute; reflexivity |].
      split; vm_compute; reflexivity.
    + vm_compute. discriminate.
Defined.

Lemma dial_detect_decodes_witness :
  let s := set_pulses 6 (answered_at 0) in
  input lifted (clock s) pin_phone_hangout = PI_HIGH ∧
  input lifted (clock s) pin_dial_detect = PI_LOW ∧
  Z.of_nat (String.length (dialed_number s)) < max_numbers ∧
  dial_detect demo_cfg lifted s =
    (check_number demo_cfg lifted;; pi_write pin_dialer_led PI_LOW)
      (set_dialed_number (dialed_number s ++ String (Py.digit_char 3) "")%string
         (set_pulses 6 (set_dialer_status PI_LOW s))).
Proof.
  cbv zeta.
  assert (input lifted (clock (set_pulses 6 (answered_at 0))) pin_phone_hangout = PI_HIGH)
    as H1 by (vm_compute; reflexivity).
  assert (input lifted (clock (set_pulses 6 (answered_at 0))) pin_dial_detect = PI_LOW)
    as H2 by (vm_compute; reflexivity).
  assert (Z.of_nat (String.length (dialed_number (set_pulses 6 (answered_at 0)))) < max_numbers)
    as H3 by (vm_compute; reflexivity).
  assert (pulses (set_pulses 6 (answered_at 0)) = 6) as H4 by reflexivity.
  split; [exact H1 |]. split; [exact H2 |]. split; [exact H3 |].
  destruct (dial_detect_decodes demo_cfg lifted _ 6 H1 H2 H3 H4) as (_ & _ & Hd).
  apply (Hd 3); lia.
Defined.

(** C6 does not hold as worded: with six tracks and the play position
    at 1, dialling 4, 0, 5 leaves the play position at 5. *)
Lemma track_select_moves_pointer :
  ∃ s', exec demo_cfg lifted (dial [4; 0; 5]) (answered_at 1) = Ret tt s' ∧
        track_position (answered_at 1) = 1 ∧ track_position s' = 5 ∧
        track_position s' ≠ track_position (answered_at 1).
Proof.
  eexists. split; [vm_compute; reflexivity |]. split; [vm_compute; reflexivity |].
  split; [vm_compute; reflexivity |]. vm_compute. discriminate.
Qed.

Lemma track_select_moves_position_witness :
  5 ≤ tracks demo_cfg ∧
  ∃ s', exec demo_cfg lifted (dial [4; 0; 5]) (answered_at 1) = Ret tt s' ∧
        processes (log s') = processes (log (answered_at 1)) ++ track_processes demo_cfg 4 ∧
        track_position s' = if tracks demo_cfg =? 5 then 0 else 5.
Proof.
  assert (5 ≤ tracks demo_cfg) as H5 by (vm_compute; discriminate).
  split; [exact H5 |].
  exact (track_select_moves_position demo_cfg lifted (answered_at 1)
           demo_messages_ok demo_playlist_ok H5 (answered_ready 1) (lifted_dialing 1)).
Defined.


Lemma next_track_advances_witness :
  track_position (answered_at 2) = 2 ∧
  ∃ s', exec demo_cfg lifted (dial [3; 2; 1]) (answered_at 2) = Ret tt s' ∧
        processes (log s') =
          processes (log (answered_at 2)) ++ track_processes demo_cfg (Z.to_nat 2) ∧
        track_position s' = (2 + 1) `mod` 6.
Proof.
  assert (track_position (answered_at 2) = 2) as Hp by (vm_compute; reflexivity).
  split; [exact Hp |].
  apply (next_track_advances demo_cfg lifted 6 2 (answered_at 2)
           demo_messages_ok demo_playlist_ok);
    [vm_compute; reflexivity | lia | lia | exact Hp | exact (answered_ready 2)
    | exact (lifted_dialing 2)].
Defined.

Lemma ampli_status_stays_false_witness :
  ampli_status (answered_at 0) = false ∧
  ampli_status (final (deliver demo_cfg lifted HookEdge (answered_at 0))) = false.
Proof.
  assert (ampli_status (answered_at 0) = false) as H by (vm_compute; reflexivity).
  split; [exact H |].
  destruct (ampli_status_stays_false demo_cfg lifted) as (_ & Hkeep & _).
  exact (Hkeep HookEdge (answered_at 0) H).
Defined.

Lemma track_select_in_bounds_witness :
  playlist_ok demo_cfg ∧
  (405 <=? tracks demo_cfg + 400) && (400 <? 405) = true ∧
  0 ≤ 405 - 401 ≤ tracks demo_cfg - 1 ∧
  is_Some (Py.index (track_titles demo_cfg) (405 - 401)) ∧
  is_Some (Py.index (track_list demo_cfg) (405 - 401)).
Proof.
  assert ((405 <=? tracks demo_cfg + 400) && (400 <? 405) = true) as Hn
    by (vm_compute; reflexivity).
  split; [exact demo_playlist_ok |]. split; [exact Hn |].
  destruct (track_select_in_bounds demo_cfg lifted 405 (answered_at 0) demo_playlist_ok Hn)
    as (Hr & Ht & Hf & _).
  split; [exact Hr |]. split; [exact Ht | exact Hf].
Defined.

(** * Further properties *)

(** ** The handler globals *)

Lemma cancel_tidy h : tidy_handler h → cancel h = cancelled.
Proof.
  destruct h as [n [|]]; unfold tidy_handler, cancel; simpl; by intros ->.
Qed.

Lemma released_handlers s :
  tidy s → handlers (released s) = (cancelled, cancelled, cancelled).
Proof.
  intros (H1 & H2 & H3).
  change (handlers (released s))
    with (cancel (cb_hangout_handler s), cancel (cb_dialer_handler s),
          cancel (cb_counter_handler s)).
  by rewrite !cancel_tidy.
Qed.

Lemma handlers_tidy s a b c :
  handlers s = (a, b, c) → tidy_handler a → tidy_handler b → tidy_handler c → tidy s.
Proof. unfold handlers. intros [= <- <- <-]. by split. Qed.

Lemma play_tts_sentence_run cfg W i s :
  messages_ok cfg → (i < 8)%nat →
  play_tts_sentence cfg W (Z.of_nat i) s = Ret tt (said (message cfg i) s).
Proof.
  intros Hm Hi. unfold play_tts_sentence.
  rewrite bind_run, modify_run. cbv beta iota.
  rewrite bind_run, ampli_on_off_run. cbv beta iota.
  unfold tts_message. rewrite !bind_run, (message_index cfg i Hm Hi). cbv [value].
  rewrite ret_run, tts_run. cbv beta iota.
  by rewrite disable_amplifier_run.
Qed.

Lemma said_facts txt s :
  log (said txt s) = log s ++ sentence_effects txt ∧
  handlers (said txt s) = handlers s ∧ gpio (said txt s) !! pin_hangout_led = gpio s !! pin_hangout_led ∧
  dialed_number (said txt s) = dialed_number s ∧ track_position (said txt s) = track_position s ∧
  is_playing (said txt s) = false ∧ ampli_status (said txt s) = false ∧
  clock (said txt s) = (clock s + 7)%nat.
Proof.
  destruct s. unfold said, sentence_effects, handlers. eval_state.
  rewrite <- !app_assoc. rewrite !lookup_insert_ne by done.
  repeat split; try done. lia.
Qed.

(** ** Lifting and replacing the handset *)

Lemma deliver_hook cfg W s :
  delivers (cb_hangout_handler s) = true → deliver cfg W HookEdge s = hangout cfg W s.
Proof. intros H. unfold deliver. by rewrite bind_run, gets_run, H. Qed.

Lemma deliver_unregistered cfg W e s :
  delivers (cb_dialer_handler s) = false → delivers (cb_counter_handler s) = false →
  e = DialEdge ∨ e = PulseEdge → deliver cfg W e s = Ret tt s.
Proof.
  intros Hd Hc [-> | ->]; unfold deliver; by rewrite bind_run, gets_run, ?Hd, ?Hc.
Qed.

Lemma pick_up_run cfg W (s : State) :
  messages_ok cfg → delivers (cb_hangout_handler s) = true →
  input W (clock s) pin_phone_hangout = PI_HIGH →
  ∃ s', deliver cfg W HookEdge s = Ret tt s' ∧
        log s' = log s ++
                 [GpioWrite pin_dial_counter_led PI_LOW; GpioWrite pin_hangout_led PI_HIGH] ++
                 sentence_effects (message cfg 0) ++
                 [GpioWrite pin_dial_counter_led PI_HIGH] ∧
        gpio s' !! pin_hangout_led = Some PI_HIGH ∧
        delivers (cb_hangout_handler s') = true ∧
        delivers (cb_dialer_handler s') = true ∧
        delivers (cb_counter_handler s') = true ∧
        dialed_number s' = dialed_number s ∧ pulses s' = pulses s ∧
        track_position s' = track_position s.
Proof.
  intros Hm Hd Hh. rewrite deliver_hook by done. unfold hangout.
  rewrite bind_run, pi_read_input, Hh by done. cbv beta iota.
  change (PI_HIGH =? PI_HIGH) with true. cbv beta iota.
  rewrite bind_run, release_callbacks_run. cbv beta iota.
  rewrite bind_run, pi_write_run. cbv beta iota.
  rewrite bind_run, (play_tts_sentence_run cfg W 0) by (done || lia). cbv beta iota.
  eexists. split; [reflexivity |].
  unfold said, sentence_effects. destruct s. eval_state.
  rewrite <- !app_assoc. rewrite !lookup_insert_ne by done. rewrite lookup_insert_eq.
  by repeat split.
Qed.

Lemma hang_up_run cfg W (s : State) :
  messages_ok cfg → tidy s → delivers (cb_hangout_handler s) = true →
  input W (clock s) pin_phone_hangout ≠ PI_HIGH →
  ∃ s', deliver cfg W HookEdge s = Ret tt s' ∧
        log s' = log s ++ [GpioWrite pin_dial_counter_led PI_LOW] ++
                 sentence_effects (message cfg 1) ++
                 [GpioWrite pin_hangout_led PI_LOW; GpioWrite pin_dial_counter_led PI_LOW;
                  GpioWrite pin_hangout_led PI_LOW; GpioWrite pin_dialer_led PI_LOW] ∧
        gpio s' !! pin_hangout_led = Some PI_LOW ∧
        dialed_number s' = ""%string ∧
        handlers s' = (registered, cancelled, cancelled) ∧
        track_position s' = track_position s ∧ clock s' = (clock s + 7)%nat ∧
        ∀ evs, Forall (λ e, e = DialEdge ∨ e = PulseEdge) evs →
               exec cfg W evs s' = Ret tt s'.
Proof.
  intros Hm Ht Hd Hh. rewrite deliver_hook by done. unfold hangout.
  rewrite bind_run, pi_read_input by done. cbv beta iota.
  destruct (Z.eqb_spec (input W (clock s) pin_phone_hangout) PI_HIGH) as [|_]; [done |].
  rewrite bind_run, release_callbacks_run. cbv beta iota.
  rewrite bind_run, (play_tts_sentence_run cfg W 1) by (done || lia). cbv beta iota.
  rewrite bind_run, pi_write_run. cbv beta iota.
  rewrite bind_run, reinit_run. cbv beta iota.
  unfold cb_set_hangout. rewrite modify_run.
  set (s1 := set_cb_hangout_handler pi_callback _).
  exists s1. split; [reflexivity |].
  pose proof (released_handlers s Ht) as Hr.
  assert (handlers s1 = (registered, cancelled, cancelled)) as Hs.
  { subst s1. unfold said. destruct s. unfold handlers in *. eval_state in Hr. eval_state.
    injection Hr as -> -> ->. reflexivity. }
  split; [| split; [| split; [| split; [| split; [| split]]]]].
  - subst s1. unfold said, sentence_effects. destruct s. eval_state.
    by rewrite <- !app_assoc.
  - subst s1. unfold said. destruct s. eval_state.
    rewrite !lookup_insert_ne by done. apply lookup_insert_eq.
  - subst s1. by destruct s.
  - exact Hs.
  - subst s1. by destruct s.
  - subst s1. unfold said. destruct s. eval_state. lia.
  - assert (cb_dialer_handler s1 = cancelled ∧ cb_counter_handler s1 = cancelled) as [H2 H3]
      by (split; [exact (f_equal (λ p, snd (fst p)) Hs) | exact (f_equal snd Hs)]).
    intros evs Hevs. induction Hevs as [|e evs He _ IH]; [done |].
    rewrite exec_cons, (deliver_unregistered cfg W e s1); [exact IH | | | exact He].
    + by rewrite H2.
    + by rewrite H3.
Qed.

(** X4: when the hook callback runs with the line high (the handset was
    lifted), it switches the ready indicator on, speaks announcement 0
    between two amplifier sequences and registers the three callbacks: from
    then on the dial is listened to.  The dialled number, the pulse count and
    the play position are what they were. *)
Theorem pick_up_arms_dial cfg W (s : State) :
  messages_ok cfg → delivers (cb_hangout_handler s) = true →
  input W (clock s) pin_phone_hangout = PI_HIGH →
  ∃ s', deliver cfg W HookEdge s = Ret tt s' ∧
        log s' = log s ++
                 [GpioWrite pin_dial_counter_led PI_LOW; GpioWrite pin_hangout_led PI_HIGH] ++
                 sentence_effects (message cfg 0) ++
                 [GpioWrite pin_dial_counter_led PI_HIGH] ∧
        gpio s' !! pin_hangout_led = Some PI_HIGH ∧
        delivers (cb_hangout_handler s') = true ∧
        delivers (cb_dialer_handler s') = true ∧
        delivers (cb_counter_handler s') = true ∧
        dialed_number s' = dialed_number s ∧ pulses s' = pulses s ∧
        track_position s' = track_position s.
Proof. apply pick_up_run. Qed.

(** X5: when the hook callback runs with the line not high (the handset
    was replaced), it speaks announcement 1, switches the indicators off,
    empties the dialled number and registers the hook callback alone: until
    the handset is lifted again no edge of the dial pins runs any code.  The
    play position is kept. *)
Theorem hang_up_silences_dial cfg W (s : State) :
  messages_ok cfg → tidy s → delivers (cb_hangout_handler s) = true →
  input W (clock s) pin_phone_hangout ≠ PI_HIGH →
  ∃ s', deliver cfg W HookEdge s = Ret tt s' ∧
        log s' = log s ++ [GpioWrite pin_dial_counter_led PI_LOW] ++
                 sentence_effects (message cfg 1) ++
                 [GpioWrite pin_hangout_led PI_LOW; GpioWrite pin_dial_counter_led PI_LOW;
                  GpioWrite pin_hangout_led PI_LOW; GpioWrite pin_dialer_led PI_LOW] ∧
        gpio s' !! pin_hangout_led = Some PI_LOW ∧
        dialed_number s' = ""%string ∧
        handlers s' = (registered, cancelled, cancelled) ∧
        track_position s' = track_position s ∧
        ∀ evs, Forall (λ e, e = DialEdge ∨ e = PulseEdge) evs →
               exec cfg W evs s' = Ret tt s'.
Proof.
  intros Hm Ht Hd Hh.
  destruct (hang_up_run cfg W s Hm Ht Hd Hh)
    as (s' & H1 & H2 & H3 & H4 & H5 & H6 & _ & H7).
  by exists s'.
Qed.

(** X17: replacing the handset and lifting it again starts the dial
    afresh: after the two runs of the hook callback, an instant apart, the
    buffer is empty whatever was dialled before, the three callbacks are
    registered and the ready indicator is on; the play position is the one
    before the handset was replaced. *)
Theorem handset_cycle_clears_number cfg W (s : State) :
  messages_ok cfg → tidy s → delivers (cb_hangout_handler s) = true →
  input W (clock s) pin_phone_hangout ≠ PI_HIGH →
  input W (clock s + 8)%nat pin_phone_hangout = PI_HIGH →
  ∃ s', exec cfg W [HookEdge; Tick; HookEdge] s = Ret tt s' ∧
        ready_to_dial s' ∧ dialed_number s' = ""%string ∧
        delivers (cb_hangout_handler s') = true ∧
        gpio s' !! pin_hangout_led = Some PI_HIGH ∧
        track_position s' = track_position s.
Proof.
  intros Hm Ht Hd Hlow Hhigh.
  destruct (hang_up_run cfg W s Hm Ht Hd Hlow)
    as (s1 & Hrun1 & _ & _ & Hnum1 & Hh1 & Hpos1 & Hclock1 & _).
  assert (delivers (cb_hangout_handler (tick s1)) = true) as Hd1.
  { change (cb_hangout_handler (tick s1)) with (cb_hangout_handler s1).
    by rewrite (f_equal (λ p, fst (fst p)) Hh1 : cb_hangout_handler s1 = registered). }
  assert (input W (clock (tick s1)) pin_phone_hangout = PI_HIGH) as Hhigh1.
  { change (clock (tick s1)) with (S (clock s1)). rewrite Hclock1.
    by replace (S (clock s + 7)) with (clock s + 8)%nat by lia. }
  destruct (pick_up_run cfg W (tick s1) Hm Hd1 Hhigh1)
    as (s2 & Hrun2 & _ & Hled2 & Hk2 & Hdl2 & Hc2 & Hnum2 & _ & Hpos2).
  exists s2. rewrite exec_cons, Hrun1. cbv beta iota.
  rewrite exec_cons, deliver_tick. cbv beta iota.
  rewrite exec_cons, Hrun2. cbv beta iota. rewrite exec_nil.
  change (dialed_number (tick s1)) with (dialed_number s1) in Hnum2.
  change (track_position (tick s1)) with (track_position s1) in Hpos2.
  rewrite Hnum1 in Hnum2. split; [done |]. split.
  { split; [done |]. split; [done |]. by left. }
  split; [done |]. split; [done |]. split; [done |]. by rewrite Hpos2.
Qed.

(** ** One callback per pin *)

Lemma triple_bind {A B} Pre Mid Post Exc (m : M A) (k : A → M B) :
  triple Pre m Mid Exc → (∀ a, triple Mid (k a) Post Exc) → triple Pre (m ≫= k) Post Exc.
Proof.
  intros Hm Hk s H. specialize (Hm s H). rewrite bind_run.
  destruct (m s) as [a s'|e s']; [by apply Hk | done].
Qed.

Lemma triple_preserves {A} P (m : M A) : preserves P m → triple P m P P.
Proof. intros Hm s H. specialize (Hm s H). by destruct (m s). Qed.

Lemma triple_final {A} Pre (m : M A) Post s :
  triple Pre m Post Post → Pre s → Post (final (m s)).
Proof. intros Hm H. specialize (Hm s H). by destruct (m s). Qed.

Lemma triple_weaken {A} (Pre Post Exc Post' Exc' : State → Prop) (m : M A) :
  triple Pre m Post Exc → (∀ s, Post s → Post' s) → (∀ s, Exc s → Exc' s) →
  triple Pre m Post' Exc'.
Proof.
  intros Hm HP HE s H. specialize (Hm s H). destruct (m s); [by apply HP | by apply HE].
Qed.

Lemma all_cancelled_tidy s : all_cancelled s → tidy s.
Proof. intros H. by apply (handlers_tidy s _ _ _ H). Qed.

Section Tidy.

Variable cfg : Config.
Variable W : World.

(** The actions run with whatever handlers they find and leave them. *)
Lemma action_keeps_handlers (action : M unit) (Q : State → Prop) :
  (∀ P : State → Prop,
     (∀ e s, P s → P (emit e s)) → (∀ s, P s → P (tick s)) →
     (∀ pin v s, pin ≠ pin_hangout_led → P s → P (set_gpio <[pin := v]> s)) →
     (∀ s, P s → P (set_ampli_status false s)) →
     (∀ b s, P s → P (set_is_playing b s)) →
     (∀ v s, P s → P (set_track_position v s)) →
     preserves P action) →
  (∀ s s', handlers s' = handlers s → Q s → Q s') →
  triple Q action Q Q.
Proof.
  intros H HQ. apply triple_preserves.
  apply H; intros; (eapply HQ; [| eassumption]); reflexivity.
Qed.

Lemma all_cancelled_handlers s s' :
  handlers s' = handlers s → all_cancelled s → all_cancelled s'.
Proof. unfold all_cancelled. by intros ->. Qed.

Lemma release_callbacks_triple : triple tidy release_callbacks all_cancelled tidy.
Proof. intros s H. rewrite release_callbacks_run. by apply released_handlers. Qed.

Lemma set_callbacks_triple : triple all_cancelled set_callbacks tidy tidy.
Proof.
  intros s H. change (set_callbacks s) with
    (Ret tt (written pin_dial_counter_led PI_HIGH
               (set_cb_counter_handler pi_callback
                  (set_cb_dialer_handler pi_callback
                     (set_cb_hangout_handler pi_callback s))))).
  unfold all_cancelled, handlers in H. injection H as H1 H2 H3.
  apply (handlers_tidy _ registered registered registered); try reflexivity.
  unfold handlers. destruct s. eval_state. eval_state in H1. eval_state in H2.
  eval_state in H3. by subst.
Qed.

Lemma guarded_triple (action : M unit) :
  triple all_cancelled action all_cancelled all_cancelled →
  triple tidy (guarded W action) tidy tidy.
Proof.
  intros Ha. unfold guarded.
  eapply triple_bind; [apply release_callbacks_triple | intros _].
  apply (triple_bind _ all_cancelled);
    [eapply triple_weaken; [exact Ha | done | apply all_cancelled_tidy] | intros _].
  apply (triple_bind _ (λ x, handlers x = (registered, cancelled, cancelled))).
  { intros s H. unfold cb_set_hangout. rewrite modify_run.
    unfold all_cancelled, handlers in *. injection H as H1 H2 H3.
    destruct s. eval_state. eval_state in H1. eval_state in H2. eval_state in H3.
    by subst. }
  intros _. apply (triple_bind _ (λ x, handlers x = (registered, cancelled, cancelled))).
  { intros s H. exact H. }
  intros led. destruct (led =? PI_HIGH).
  - intros s H. rewrite cb_set_rotary_run.
    unfold handlers in H. injection H as H1 H2 H3.
    apply (handlers_tidy _ registered registered registered); try reflexivity.
    unfold handlers. destruct s. eval_state. eval_state in H1. eval_state in H2.
    eval_state in H3. by subst.
  - intros s H. rewrite ret_run. by apply (handlers_tidy s _ _ _ H).
Qed.

Lemma tidy_handlers s s' : handlers s' = handlers s → tidy s → tidy s'.
Proof. unfold tidy, handlers. by intros [= -> -> ->]. Qed.

Lemma triple_keeps (Q : State → Prop) f :
  (∀ s s', handlers s' = handlers s → Q s → Q s') →
  (∀ s, handlers (f s) = handlers s) → triple Q (modify f) Q Q.
Proof. intros HQ Hf s H. rewrite modify_run. by apply (HQ s). Qed.

Lemma triple_gets {A} (Q E : State → Prop) (f : State → A) : triple Q (gets f) Q E.
Proof. intros s H. exact H. Qed.

Lemma triple_ret {A} (Q E : State → Prop) (a : A) : triple Q (mret a) Q E.
Proof. intros s H. exact H. Qed.

Lemma play_track_handlers Q :
  (∀ s s', handlers s' = handlers s → Q s → Q s') → triple Q (play_track cfg W) Q Q.
Proof. apply action_keeps_handlers. intros. by apply play_track_frame. Qed.

Lemma play_all_tracks_handlers Q :
  (∀ s s', handlers s' = handlers s → Q s → Q s') → triple Q (play_all_tracks cfg W) Q Q.
Proof. apply action_keeps_handlers. intros. by apply play_all_tracks_frame. Qed.

Lemma list_all_tracks_handlers Q :
  (∀ s s', handlers s' = handlers s → Q s → Q s') → triple Q (list_all_tracks cfg W) Q Q.
Proof. apply action_keeps_handlers. intros. by apply list_all_tracks_frame. Qed.

Lemma say_help_handlers Q :
  (∀ s s', handlers s' = handlers s → Q s → Q s') → triple Q (say_help cfg W) Q Q.
Proof. apply action_keeps_handlers. intros. by apply say_help_frame. Qed.

Lemma get_weather_handlers Q :
  (∀ s s', handlers s' = handlers s → Q s → Q s') → triple Q (get_weather cfg W) Q Q.
Proof. apply action_keeps_handlers. intros. by apply get_weather_frame. Qed.

Lemma play_tts_sentence_handlers Q msg :
  (∀ s s', handlers s' = handlers s → Q s → Q s') →
  triple Q (play_tts_sentence cfg W msg) Q Q.
Proof. apply action_keeps_handlers. intros. by apply play_tts_sentence_frame. Qed.

Lemma runCmd_handlers Q cmd :
  (∀ s s', handlers s' = handlers s → Q s → Q s') → triple Q (runCmd W cmd) Q Q.
Proof. intros HQ s H. rewrite runCmd_run. by apply (HQ s). Qed.

Lemma reinit_handlers Q :
  (∀ s s', handlers s' = handlers s → Q s → Q s') → triple Q reinit Q Q.
Proof. intros HQ s H. rewrite reinit_run. by apply (HQ s). Qed.

Lemma pi_write_handlers Q pin v :
  (∀ s s', handlers s' = handlers s → Q s → Q s') → triple Q (pi_write pin v) Q Q.
Proof. intros HQ s H. rewrite pi_write_run. by apply (HQ s). Qed.

Lemma dispatch_tidy n : triple tidy (dispatch cfg W n) tidy tidy.
Proof.
  unfold dispatch.
  destruct (n =? 666).
  { eapply triple_bind; [by apply triple_keeps; [apply tidy_handlers |] | intros _].
    apply reinit_handlers, tidy_handlers. }
  destruct (n =? 321);
    [apply guarded_triple, play_track_handlers, all_cancelled_handlers |].
  destruct (n =? 123);
    [apply guarded_triple, play_all_tracks_handlers, all_cancelled_handlers |].
  destruct (n =? 124);
    [apply guarded_triple, list_all_tracks_handlers, all_cancelled_handlers |].
  destruct (_ && _).
  { eapply triple_bind; [by apply triple_keeps; [apply tidy_handlers |] | intros _].
    apply guarded_triple, play_track_handlers, all_cancelled_handlers. }
  destruct (n =? 111);
    [apply guarded_triple, say_help_handlers, all_cancelled_handlers |].
  destruct (n =? 999).
  { eapply triple_bind; [apply runCmd_handlers, tidy_handlers | intros _; apply triple_ret]. }
  destruct (n =? 100);
    [apply guarded_triple, get_weather_handlers, all_cancelled_handlers |].
  apply triple_ret.
Qed.

Lemma check_number_tidy : triple tidy (check_number cfg W) tidy tidy.
Proof.
  intros s H. destruct (Py.int (dialed_number s)) as [n|] eqn:Hn.
  - rewrite (check_number_dispatch cfg W s n Hn). by apply dispatch_tidy.
  - unfold check_number. rewrite bind_run. cbv [gets]. rewrite bind_run.
    cbv [debug_message DEBUG mret M_ret]. destruct (negb _); [| done].
    rewrite bind_run, Hn. done.
Qed.

Lemma dial_detect_tidy : triple tidy (dial_detect cfg W) tidy tidy.
Proof.
  assert (∀ f, (∀ s, handlers (f s) = handlers s) → triple tidy (modify f) tidy tidy) as Hf
    by (intros f; apply triple_keeps, tidy_handlers).
  assert (∀ pin v, triple tidy (pi_write pin v) tidy tidy) as Hw
    by (intros; apply pi_write_handlers, tidy_handlers).
  unfold dial_detect.
  eapply triple_bind; [apply triple_gets | intros line].
  destruct (line =? PI_HIGH); [| apply triple_ret].
  eapply triple_bind; [apply triple_gets | intros level].
  eapply triple_bind; [by apply Hf | intros _].
  eapply triple_bind; [apply triple_gets | intros status].
  eapply triple_bind; [| intros _].
  { destruct (status =? PI_HIGH); [| apply triple_ret].
    eapply triple_bind; [by apply Hf | intros _; apply Hw]. }
  eapply triple_bind; [apply triple_gets | intros number].
  eapply triple_bind; [| intros _; apply Hw].
  destruct (max_numbers <=? _); [by apply Hf |].
  eapply triple_bind; [apply triple_gets | intros count].
  destruct (negb _); [| apply triple_ret].
  eapply triple_bind; [| intros _].
  { destruct (count =? 20); [by apply Hf | apply triple_ret]. }
  eapply triple_bind; [apply triple_gets | intros count'].
  eapply triple_bind; [by apply Hf | intros _; apply check_number_tidy].
Qed.

Lemma hangout_tidy : triple tidy (hangout cfg W) tidy tidy.
Proof.
  assert (∀ msg, triple all_cancelled (play_tts_sentence cfg W msg) all_cancelled tidy) as Hs.
  { intros msg. eapply triple_weaken;
      [apply play_tts_sentence_handlers, all_cancelled_handlers | done
      | apply all_cancelled_tidy]. }
  assert (∀ pin v, triple all_cancelled (pi_write pin v) all_cancelled tidy) as Hw.
  { intros pin v. eapply triple_weaken;
      [apply pi_write_handlers, all_cancelled_handlers | done | apply all_cancelled_tidy]. }
  unfold hangout. eapply triple_bind; [apply triple_gets | intros line].
  destruct (line =? PI_HIGH).
  - eapply triple_bind; [apply release_callbacks_triple | intros _].
    eapply triple_bind; [apply Hw | intros _].
    eapply triple_bind; [apply Hs | intros _]. apply set_callbacks_triple.
  - eapply triple_bind; [apply release_callbacks_triple | intros _].
    eapply triple_bind; [apply Hs | intros _].
    eapply triple_bind; [apply Hw | intros _].
    apply (triple_bind _ all_cancelled).
    { eapply triple_weaken;
        [apply reinit_handlers, all_cancelled_handlers | done | apply all_cancelled_tidy]. }
    intros _ s H. unfold cb_set_hangout. rewrite modify_run.
    unfold all_cancelled, handlers in H. injection H as H1 H2 H3.
    apply (handlers_tidy _ registered cancelled cancelled); try reflexivity.
    unfold handlers. destruct s. eval_state. eval_state in H1. eval_state in H2.
    eval_state in H3. by subst.
Qed.

Lemma deliver_tidy e s : tidy s → tidy (final (deliver cfg W e s)).
Proof.
  intros H. destruct e; unfold deliver.
  - exact H.
  - rewrite bind_run, gets_run. destruct (delivers _); [| exact H].
    exact (triple_final _ _ _ s hangout_tidy H).
  - rewrite bind_run, gets_run. destruct (delivers _); [| exact H].
    exact (triple_final _ _ _ s dial_detect_tidy H).
  - rewrite bind_run, gets_run. destruct (delivers _); [| exact H].
    unfold pulse_count. rewrite bind_run, gets_run. by destruct (_ =? _).
Qed.

Lemma exec_tidy evs s : tidy s → tidy (final (exec cfg W evs s)).
Proof.
  revert s. induction evs as [|e evs IH]; intros s H; [exact H |].
  rewrite exec_cons. pose proof (deliver_tidy e s H) as Hd.
  destruct (deliver cfg W e s) as [[] s'|]; [by apply IH | exact Hd].
Qed.

(** X3: in every state the program reaches from its start, whatever the
    events and also after an exception, each of the three handler globals
    holds the only callback registered for its pin, or a cancelled one while
    none is registered: a pin never has two callbacks, and no registered
    callback is lost from its global. *)
Theorem callbacks_stay_tidy :
  ∀ evs, tidy (final (exec cfg W evs booted)).
Proof. intros evs. apply exec_tidy. by vm_compute. Qed.

End Tidy.

(** ** The play position after the whole list *)

Section PastTheList.

Variable cfg : Config.
Variable W : World.

(** The loop of [play_all_tracks] when the line is not found low before the
    last track: it ends with the list, whatever the line does then. *)
Lemma play_all_loop_through k : ∀ fuel s,
  messages_ok cfg → playlist_ok cfg →
  (k < fuel)%nat → 0 ≤ track_position s → track_position s + Z.of_nat k = tracks cfg →
  (∀ i, (1 ≤ i < k)%nat → input W (clock s + 2 * i)%nat pin_phone_hangout ≠ PI_LOW) →
  play_all_loop cfg W fuel s = Ret tt (tracks_played cfg k s).
Proof.
  induction k as [|k IH]; intros fuel s Hm Hl Hk Hp Hend Hon.
  - destruct fuel as [|fuel]; [lia |]. simpl play_all_loop.
    rewrite bind_run, gets_run. cbv beta iota.
    by destruct (Z.ltb_spec (track_position s) (tracks cfg)); [lia |].
  - destruct fuel as [|fuel]; [lia |].
    rewrite (play_all_round cfg W) by (done || lia).
    assert (track_position (one_track cfg s) = track_position s + 1 ∧
            clock (one_track cfg s) = (clock s + 2)%nat) as [Hpos Hclock]
      by (destruct s; eval_state; split; [done | lia]).
    assert (play_all_loop cfg W fuel (one_track cfg s) =
            Ret tt (tracks_played cfg k (one_track cfg s))) as Hrest.
    { apply IH; try done; try lia.
      intros i Hi. rewrite Hclock.
      replace (clock s + 2 + 2 * i)%nat with (clock s + 2 * S i)%nat by lia.
      apply Hon. lia. }
    destruct (Z.eqb_spec (input W (clock s + 2)%nat pin_phone_hangout) PI_LOW) as [Hlow|_];
      [| exact Hrest].
    destruct k as [|k]; [done |].
    exfalso. apply (Hon 1%nat); [lia |].
    by replace (clock s + 2 * 1)%nat with (clock s + 2)%nat by lia.
Qed.

Lemma play_track_raise s :
  messages_ok cfg → Py.index (track_titles cfg) (track_position s) = None →
  play_track cfg W s = Raise IndexError (amplified (set_is_playing true s)).
Proof.
  intros Hm Hnone. unfold play_track.
  rewrite bind_run, modify_run. cbv beta iota.
  rewrite bind_run, ampli_on_off_run. cbv beta iota.
  pose proof (message_index cfg 4 Hm ltac:(lia)) as H4. change (Z.of_nat 4) with 4 in H4.
  rewrite bind_run, H4. cbv [value]. rewrite ret_run. cbv beta iota.
  rewrite bind_run, gets_run. cbv beta iota.
  change (track_position (amplified (set_is_playing true s))) with (track_position s).
  by rewrite bind_run, Hnone.
Qed.

(** X7: when the line is not found low before the last track,
    [play_all_tracks] announces and plays every track of the list in order
    and returns with the play position equal to the number of tracks, one
    past the last index of the list. *)
Theorem play_all_ends_past_the_list (s : State) :
  messages_ok cfg → playlist_ok cfg →
  (∀ i, (1 ≤ i < Z.to_nat (tracks cfg))%nat →
        input W (clock s + 4 + 2 * i)%nat pin_phone_hangout ≠ PI_LOW) →
  ∃ s', play_all_tracks cfg W s = Ret tt s' ∧
        track_position s' = tracks cfg ∧
        Py.index (track_titles cfg) (track_position s') = None ∧
        processes (log s') =
          processes (log s) ++ [TTS ++ [preamble cfg]] ++
          flat_map (track_processes cfg) (seq 0 (Z.to_nat (tracks cfg))).
Proof.
  intros Hm Hl Hon.
  assert (0 ≤ tracks cfg) as Hn by (destruct Hl as [<- _]; lia).
  pose proof (message_index cfg 3 Hm ltac:(lia)) as H3. change (Z.of_nat 3) with 3 in H3.
  pose proof (message_index cfg 2 Hm ltac:(lia)) as H2. change (Z.of_nat 2) with 2 in H2.
  unfold play_all_tracks. rewrite bind_run, modify_run. cbv beta iota.
  rewrite bind_run, ampli_on_off_run. cbv beta iota. repeat run_step.
  rewrite H3. cbv [value]. repeat run_step. rewrite H2. repeat run_step.
  rewrite tts_run. cbv beta iota. rewrite bind_run.
  set (s0 := started _ _).
  assert (track_position s0 = 0 ∧ clock s0 = (clock s + 4)%nat ∧ is_playing s0 = true ∧
          processes (log s0) = processes (log s) ++ [TTS ++ [preamble cfg]])
    as (Hpos & Hclock & Hplay & Hlog).
  { subst s0. destruct s. eval_state. rewrite !processes_app. simpl.
    rewrite !app_nil_r. repeat split; try done. lia. }
  rewrite (play_all_loop_through (Z.to_nat (tracks cfg)))
    by (rewrite ?Hpos, ?Hclock; done || lia).
  destruct (tracks_played_facts cfg (Z.to_nat (tracks cfg)) s0)
    as (Hlog' & Hpos' & _ & Hplay' & _ & _); [lia |].
  rewrite disable_amplifier_run by (by rewrite Hplay').
  eexists. split; [reflexivity |].
  change (track_position (set_is_playing false (amplified ?x))) with (track_position x).
  change (log (set_is_playing false (amplified ?x))) with (log x ++ ampli_sequence).
  rewrite Hpos', Hpos, Z2Nat.id by done. split; [lia |]. split.
  - destruct Hl as [_ Hl]. unfold Py.index.
    destruct (Z.leb_spec 0 (0 + tracks cfg)); [| lia].
    apply lookup_ge_None. lia.
  - rewrite processes_app, Hlog', processes_app, Hlog, Hpos. change (Z.to_nat 0) with O.
    rewrite <- !app_assoc. f_equal. f_equal.
    change (processes ampli_sequence) with (@nil (list string)). rewrite app_nil_r.
    unfold track_effects. generalize (seq 0 (Z.to_nat (tracks cfg))).
    intros l. induction l as [|i l IH]; [done |].
    change (flat_map ?f (i :: l)) with (f i ++ flat_map f l).
    by rewrite processes_app, IH.
Qed.

End PastTheList.

Section Raising.

Variable cfg : Config.
Variable W : World.

(** X8: with the play position equal to the number of tracks, where
    [play_all_tracks] leaves it after the whole list, dialling 3, 2, 1
    raises [IndexError] when [play_track] looks the title up: the amplifier
    sequence has run once, nothing is spoken or played, [is_playing] stays
    true, and the three callbacks that were released for the action are not
    registered again. *)
Theorem next_track_past_the_list_raises (s : State) :
  messages_ok cfg → playlist_ok cfg → tidy s → track_position s = tracks cfg →
  ready_to_dial s → off_hook_dialing W (clock s) 3 →
  ∃ s', exec cfg W (dial [3; 2; 1]) s = Raise IndexError s' ∧
        all_cancelled s' ∧ is_playing s' = true ∧ track_position s' = tracks cfg ∧
        processes (log s') = processes (log s) ∧
        ∃ l, log s' = l ++ ampli_sequence.
Proof.
  intros Hm Hl Ht Hpos Hready Hw.
  destruct (dial3_run cfg W 3 2 1 s) as (s3 & Hrun & _ & Hint & Hsame & _);
    [lia | lia | lia | done | done |].
  destruct Hsame as (Hpos3 & _ & _ & Hh & Hd & Hc & _ & Hlog3).
  assert (tidy s3) as Ht3.
  { apply (tidy_handlers s); [| done]. unfold handlers. by rewrite Hh, Hd, Hc. }
  assert (Py.index (track_titles cfg) (track_position (released s3)) = None) as Hnone.
  { change (track_position (released s3)) with (track_position s3).
    rewrite Hpos3, Hpos. destruct Hl as [_ Hl]. unfold Py.index.
    destruct (Z.leb_spec 0 (tracks cfg)); [| lia]. apply lookup_ge_None. lia. }
  rewrite bind_run, (check_number_dispatch cfg W s3 321 Hint) in Hrun.
  change (dispatch cfg W 321) with (guarded W (play_track cfg W)) in Hrun.
  rewrite (guarded_raise W _ s3 IndexError (amplified (set_is_playing true (released s3))))
    in Hrun by (by apply play_track_raise).
  eexists. split; [exact Hrun |].
  pose proof (released_handlers s3 Ht3) as Hr. split; [| split; [| split; [| split]]].
  - exact Hr.
  - reflexivity.
  - change (track_position (amplified (set_is_playing true (released s3))))
      with (track_position s3). by rewrite Hpos3.
  - rewrite <- Hlog3. destruct s3. eval_state. rewrite !processes_app. simpl.
    by rewrite !app_nil_r.
  - by eexists.
Qed.

End Raising.

(** ** The spoken lists *)

Lemma many_started_snoc cmds cmd s :
  many_started (cmds ++ [cmd]) s = started cmd (many_started cmds s).
Proof. unfold many_started. by rewrite fold_left_app. Qed.

Lemma many_started_cons cmd cmds s :
  many_started (cmd :: cmds) s = many_started cmds (started cmd s).
Proof. reflexivity. Qed.

Lemma many_started_facts cmds : ∀ s,
  log (many_started cmds s) = log s ++ (Popen <$> cmds) ∧
  clock (many_started cmds s) = (clock s + length cmds)%nat ∧
  handlers (many_started cmds s) = handlers s ∧
  gpio (many_started cmds s) = gpio s ∧
  track_position (many_started cmds s) = track_position s ∧
  dialed_number (many_started cmds s) = dialed_number s ∧
  is_playing (many_started cmds s) = is_playing s ∧
  ampli_status (many_started cmds s) = ampli_status s.
Proof.
  induction cmds as [|cmd cmds IH]; intros s.
  - simpl. rewrite app_nil_r, Nat.add_0_r. done.
  - rewrite many_started_cons.
    destruct (IH (started cmd s)) as (-> & -> & -> & -> & -> & -> & -> & ->).
    destruct s. unfold handlers. eval_state. rewrite <- app_assoc. simpl.
    split; [done |]. split; [lia | done].
Qed.

Lemma performed_facts cmds s :
  log (performed cmds s) = log s ++ ampli_sequence ++ (Popen <$> cmds) ++ ampli_sequence ∧
  processes (log (performed cmds s)) = processes (log s) ++ cmds ∧
  handlers (performed cmds s) = handlers s ∧
  gpio (performed cmds s) !! pin_hangout_led = gpio s !! pin_hangout_led ∧
  track_position (performed cmds s) = track_position s ∧
  dialed_number (performed cmds s) = dialed_number s ∧
  is_playing (performed cmds s) = false ∧ ampli_status (performed cmds s) = false.
Proof.
  assert (processes (Popen <$> cmds) = cmds) as Hc.
  { clear. induction cmds as [|c cmds IH]; [done |].
    change (processes (Popen <$> c :: cmds)) with (c :: processes (Popen <$> cmds)).
    by rewrite IH. }
  destruct (many_started_facts cmds (amplified (set_is_playing true s)))
    as (Hlog & _ & Hh & Hg & Hp & Hn & _ & _).
  assert (log (performed cmds s) =
          log s ++ ampli_sequence ++ (Popen <$> cmds) ++ ampli_sequence) as Hlog'.
  { unfold performed.
    change (log (set_is_playing false (amplified ?x))) with (log x ++ ampli_sequence).
    rewrite Hlog. destruct s. eval_state. by rewrite <- !app_assoc. }
  split; [exact Hlog' |]. split; [| split; [| split; [| split; [| split]]]].
  - rewrite Hlog', !processes_app, Hc.
    change (processes ampli_sequence) with (@nil (list string)).
    by rewrite app_nil_r.
  - unfold performed.
    change (handlers (set_is_playing false (amplified ?x))) with (handlers x).
    by rewrite Hh.
  - unfold performed.
    change (gpio (set_is_playing false (amplified ?x)))
      with (<[pin_ampli_mode := PI_LOW]> (<[pin_ampli_mode := PI_HIGH]>
              (<[pin_ampli_power := PI_LOW]> (<[pin_ampli_power := PI_HIGH]> (gpio x))))).
    rewrite Hg. destruct s. eval_state. by rewrite !lookup_insert_ne by done.
  - unfold performed.
    change (track_position (set_is_playing false (amplified ?x))) with (track_position x).
    by rewrite Hp.
  - unfold performed.
    change (dialed_number (set_is_playing false (amplified ?x))) with (dialed_number x).
    by rewrite Hn.
  - done.
Qed.

Lemma many_started_playing cmds s :
  is_playing (many_started cmds s) = is_playing s.
Proof. by destruct (many_started_facts cmds s) as (_ & _ & _ & _ & _ & _ & -> & _). Qed.

Section Lists.

Variable cfg : Config.
Variable W : World.

Lemma list_all_loop_run k : ∀ fuel counter s,
  playlist_ok cfg → (k < fuel)%nat → 0 ≤ counter → k = Z.to_nat (tracks cfg - counter) →
  list_all_loop cfg W fuel counter s =
    Ret tt (many_started (map (λ i, speak (title_line cfg i)) (seq (Z.to_nat counter) k)) s).
Proof.
  induction k as [|k IH]; intros fuel counter s Hl Hk Hc Hend;
    (destruct fuel as [|fuel]; [lia |]); simpl list_all_loop.
  - by destruct (Z.ltb_spec counter (tracks cfg)); [lia |].
  - destruct (Z.ltb_spec counter (tracks cfg)); [| lia].
    rewrite bind_run, (title_index cfg counter) by (done || lia). cbv [value].
    rewrite ret_run. cbv beta iota. rewrite bind_run, tts_run. cbv beta iota.
    rewrite IH by (done || lia).
    replace (Z.to_nat (counter + 1)) with (S (Z.to_nat counter)) by lia.
    simpl seq. simpl map. rewrite many_started_cons. unfold speak, title_line.
    by rewrite Z2Nat.id by lia.
Qed.

(** X9: [list_all_tracks] says how many tracks there are and then every
    title of the list in order, each after its number counted from 1, all
    between two amplifier sequences; it returns, and leaves the play
    position and the dialled number as they were. *)
Theorem list_all_tracks_speaks_titles (s : State) :
  messages_ok cfg → playlist_ok cfg →
  ∃ s', list_all_tracks cfg W s = Ret tt s' ∧
        log s' = log s ++ ampli_sequence ++
                 (Popen <$> speak (titles_preamble cfg) ::
                    map (λ i, speak (title_line cfg i)) (seq 0 (Z.to_nat (tracks cfg)))) ++
                 ampli_sequence ∧
        track_position s' = track_position s ∧ dialed_number s' = dialed_number s ∧
        is_playing s' = false ∧ ampli_status s' = false.
Proof.
  intros Hm Hl.
  pose proof (message_index cfg 6 Hm ltac:(lia)) as H6. change (Z.of_nat 6) with 6 in H6.
  pose proof (message_index cfg 7 Hm ltac:(lia)) as H7. change (Z.of_nat 7) with 7 in H7.
  set (cmds := speak (titles_preamble cfg) ::
                 map (λ i, speak (title_line cfg i)) (seq 0 (Z.to_nat (tracks cfg)))).
  assert (list_all_tracks cfg W s = Ret tt (performed cmds s)) as Hrun.
  { unfold list_all_tracks. rewrite bind_run, modify_run. cbv beta iota.
    rewrite bind_run, ampli_on_off_run. cbv beta iota.
    rewrite bind_run, H6. cbv [value]. rewrite ret_run. cbv beta iota.
    rewrite bind_run, H7. rewrite ret_run. cbv beta iota.
    rewrite bind_run, tts_run. cbv beta iota.
    rewrite bind_run, (list_all_loop_run (Z.to_nat (tracks cfg))) by (done || lia).
    cbv beta iota. change (Z.to_nat 0) with O.
    rewrite disable_amplifier_run; [reflexivity |].
    by rewrite many_started_playing. }
  exists (performed cmds s). split; [exact Hrun |].
  destruct (performed_facts cmds s) as (H1 & _ & _ & _ & H2 & H3 & H4 & H5).
  by repeat split.
Qed.

Lemma say_help_loop_run k : ∀ fuel counter s,
  help_ok cfg → (k < fuel)%nat → 0 ≤ counter → k = Z.to_nat (help_strings cfg - counter) →
  say_help_loop cfg W fuel counter s =
    Ret tt (many_started (speak <$> take k (drop (Z.to_nat counter) (help_messages cfg))) s).
Proof.
  unfold help_ok.
  induction k as [|k IH]; intros fuel counter s Hl Hk Hc Hend;
    (destruct fuel as [|fuel]; [lia |]); simpl say_help_loop.
  - by destruct (Z.ltb_spec counter (help_strings cfg)); [lia |].
  - destruct (Z.ltb_spec counter (help_strings cfg)); [| lia].
    destruct (index_in_range (help_messages cfg) counter ltac:(lia)) as [Hi [txt Htxt]].
    rewrite bind_run, Hi, Htxt. cbv [value]. rewrite ret_run. cbv beta iota.
    rewrite bind_run, tts_run. cbv beta iota.
    rewrite IH by (done || lia).
    replace (Z.to_nat (counter + 1)) with (S (Z.to_nat counter)) by lia.
    rewrite (drop_S _ _ _ Htxt). reflexivity.
Qed.

(** The loop of [say_help] on a list shorter than [help_strings]: every
    entry is spoken, then the index runs off the list. *)
Lemma say_help_loop_raise k : ∀ fuel counter s,
  Z.of_nat (length (help_messages cfg)) < help_strings cfg →
  (k < fuel)%nat → 0 ≤ counter → counter + Z.of_nat k = Z.of_nat (length (help_messages cfg)) →
  say_help_loop cfg W fuel counter s =
    Raise IndexError (many_started (speak <$> drop (Z.to_nat counter) (help_messages cfg)) s).
Proof.
  induction k as [|k IH]; intros fuel counter s Hl Hk Hc Hend;
    (destruct fuel as [|fuel]; [lia |]); simpl say_help_loop;
    (destruct (Z.ltb_spec counter (help_strings cfg)); [| lia]).
  - assert (Py.index (help_messages cfg) counter = None) as ->.
    { unfold Py.index. destruct (Z.leb_spec 0 counter); [| lia].
      apply lookup_ge_None. lia. }
    rewrite drop_ge by lia. reflexivity.
  - destruct (index_in_range (help_messages cfg) counter ltac:(lia)) as [Hi [txt Htxt]].
    rewrite bind_run, Hi, Htxt. cbv [value]. rewrite ret_run. cbv beta iota.
    rewrite bind_run, tts_run. cbv beta iota.
    rewrite IH by (done || lia).
    replace (Z.to_nat (counter + 1)) with (S (Z.to_nat counter)) by lia.
    rewrite (drop_S _ _ _ Htxt). reflexivity.
Qed.

(** X10: [say_help] speaks the first [help_strings] entries of the help
    list in order between two amplifier sequences.  When the list is shorter
    than [help_strings] it speaks the whole list and then raises
    [IndexError]: the second amplifier sequence does not run and
    [is_playing] stays true. *)
Theorem say_help_speaks_help (s : State) :
  (help_ok cfg →
   ∃ s', say_help cfg W s = Ret tt s' ∧
         log s' = log s ++ ampli_sequence ++
                  (Popen <$> (speak <$> take (Z.to_nat (help_strings cfg)) (help_messages cfg))) ++
                  ampli_sequence ∧
         is_playing s' = false ∧ ampli_status s' = false) ∧
  (¬ help_ok cfg →
   ∃ s', say_help cfg W s = Raise IndexError s' ∧
         log s' = log s ++ ampli_sequence ++ (Popen <$> (speak <$> help_messages cfg)) ∧
         is_playing s' = true).
Proof.
  split; intros Hh.
  - set (cmds := speak <$> take (Z.to_nat (help_strings cfg)) (help_messages cfg)).
    assert (say_help cfg W s = Ret tt (performed cmds s)) as Hrun.
    { unfold say_help. rewrite bind_run, modify_run. cbv beta iota.
      rewrite bind_run, ampli_on_off_run. cbv beta iota.
      rewrite bind_run, (say_help_loop_run (Z.to_nat (help_strings cfg))) by (done || lia).
      cbv beta iota. change (Z.to_nat 0) with O. rewrite drop_0.
      rewrite disable_amplifier_run; [reflexivity |].
      by rewrite many_started_playing. }
    exists (performed cmds s). split; [exact Hrun |].
    destruct (performed_facts cmds s) as (H1 & _ & _ & _ & _ & _ & H4 & H5).
    by repeat split.
  - unfold help_ok in Hh. unfold say_help. rewrite bind_run, modify_run. cbv beta iota.
    rewrite bind_run, ampli_on_off_run. cbv beta iota.
    rewrite bind_run, (say_help_loop_raise (length (help_messages cfg))) by (done || lia).
    change (Z.to_nat 0) with O. rewrite drop_0.
    eexists. split; [reflexivity |].
    destruct (many_started_facts (speak <$> help_messages cfg)
                (amplified (set_is_playing true s))) as (-> & _ & _ & _ & _ & _ & -> & _).
    split; [| done]. destruct s. eval_state. by rewrite <- !app_assoc.
Qed.

End Lists.

(** ** The weather forecast *)

Lemma byte_eqb_ne (a b : byte) : a ≠ b → Byte.eqb a b = false.
Proof.
  intros H. destruct (Byte.eqb a b) eqn:E; [| done].
  by apply Byte.byte_dec_bl in E.
Qed.

Lemma plain_unbroken l : plain l → unbroken l.
Proof. intros H. eapply Forall_impl; [exact H |]. simpl. tauto. Qed.

Lemma splitlines_from_line l : ∀ rest cur,
  unbroken l →
  Py.splitlines_from (l ++ x0a :: rest) cur = (rev cur ++ l) :: Py.splitlines_from rest [].
Proof.
  induction l as [|b l IH]; intros rest cur Hl.
  - simpl. by rewrite app_nil_r.
  - apply Forall_cons in Hl as [(Hlf & Hcr) Hl].
    change ((b :: l) ++ x0a :: rest) with (b :: (l ++ x0a :: rest)).
    simpl Py.splitlines_from. rewrite (byte_eqb_ne b x0a Hlf), (byte_eqb_ne b x0d Hcr).
    rewrite IH by done. simpl rev. by rewrite <- app_assoc.
Qed.

(** Splitting what was printed line by line gives the lines back. *)
Lemma splitlines_unlines ls : Forall unbroken ls → Py.splitlines (unlines ls) = ls.
Proof.
  unfold Py.splitlines. induction ls as [|l ls IH]; intros H; [done |].
  apply Forall_cons in H as [Hl Hls].
  change (unlines (l :: ls)) with ((l ++ [x0a]) ++ unlines ls).
  rewrite <- app_assoc. change ([x0a] ++ unlines ls) with (x0a :: unlines ls).
  rewrite splitlines_from_line by done. by rewrite IH.
Qed.

Lemma decode_plain l : plain l → Py.decode_ascii l = Some (text_of l).
Proof.
  induction l as [|b l IH]; intros H; [done |].
  apply Forall_cons in H as [(_ & _ & Hb) Hl]. simpl.
  apply N.ltb_lt in Hb. rewrite Hb, IH by done. reflexivity.
Qed.

Section Weather.

Variable cfg : Config.
Variable W : World.

Lemma get_weather_loop_run forecast k : ∀ fuel w s,
  Forall plain (drop (Z.to_nat w) forecast) → (k < fuel)%nat → 0 ≤ w →
  k = (length forecast - Z.to_nat w)%nat →
  get_weather_loop W fuel forecast w s =
    Ret tt (many_started ((λ l, speak (text_of l)) <$> drop (Z.to_nat w) forecast) s).
Proof.
  induction k as [|k IH]; intros fuel w s Hp Hk Hw Hend;
    (destruct fuel as [|fuel]; [lia |]); simpl get_weather_loop.
  - destruct (Z.ltb_spec w (Z.of_nat (length forecast))); [lia |].
    rewrite drop_ge by lia. reflexivity.
  - destruct (Z.ltb_spec w (Z.of_nat (length forecast))); [| lia].
    destruct (index_in_range forecast w ltac:(lia)) as [Hi [line Hline]].
    rewrite (drop_S _ _ _ Hline) in Hp |- *. apply Forall_cons in Hp as [Hl Hp].
    rewrite bind_run, Hi, Hline. cbv [value]. rewrite ret_run. cbv beta iota.
    rewrite bind_run, (decode_plain line Hl), ret_run. cbv beta iota.
    rewrite bind_run, tts_run. cbv beta iota.
    replace (S (Z.to_nat w)) with (Z.to_nat (w + 1)) in * by lia.
    by rewrite IH by (done || lia).
Qed.

(** X11: when the weather process prints lines of ASCII text, each ended
    by a line feed, [get_weather] speaks the name of the airport, starts the
    weather process with the ICAO code and then speaks every line it printed
    from the fifth on, in order, all between two amplifier sequences; with
    four lines or fewer nothing of the forecast is spoken. *)
Theorem get_weather_speaks_forecast (s : State) (ls : list (list byte)) :
  weather_stdout W (clock s + 4)%nat = unlines ls → Forall plain ls →
  ∃ s', get_weather cfg W s = Ret tt s' ∧
        log s' = log s ++ ampli_sequence ++
                 (Popen <$> speak (weather_airport cfg) :: (WEATHER ++ [weather_ICAO cfg]) ::
                    ((λ l, speak (text_of l)) <$> drop 4 ls)) ++
                 ampli_sequence ∧
        is_playing s' = false ∧ ampli_status s' = false ∧
        ((length ls ≤ 4)%nat →
         processes (log s') =
           processes (log s) ++ [speak (weather_airport cfg); WEATHER ++ [weather_ICAO cfg]]).
Proof.
  intros Hout Hls.
  set (cmds := speak (weather_airport cfg) :: (WEATHER ++ [weather_ICAO cfg]) ::
                 ((λ l, speak (text_of l)) <$> drop 4 ls)).
  assert (get_weather cfg W s = Ret tt (performed cmds s)) as Hrun.
  { unfold get_weather. rewrite bind_run, modify_run. cbv beta iota.
    rewrite bind_run, ampli_on_off_run. cbv beta iota.
    rewrite bind_run, tts_run. cbv beta iota.
    rewrite bind_run. unfold popen_communicate.
    replace (clock (started (TTS ++ [weather_airport cfg])
                      (amplified (set_is_playing true s))))
      with (clock s + 4)%nat by (destruct s; eval_state; lia).
    rewrite Hout. cbv beta iota zeta. change (fst (?a, ?b)) with a.
    rewrite (splitlines_unlines ls) by (eapply Forall_impl; [exact Hls | apply plain_unbroken]).
    rewrite bind_run, (get_weather_loop_run ls (length ls - 4)) by (done || lia || by apply Forall_drop).
    cbv beta iota. change (Z.to_nat 4) with 4%nat.
    rewrite disable_amplifier_run; [reflexivity |].
    by rewrite many_started_playing. }
  exists (performed cmds s). split; [exact Hrun |].
  destruct (performed_facts cmds s) as (H1 & H2 & _ & _ & _ & _ & H4 & H5).
  split; [exact H1 |]. split; [exact H4 |]. split; [exact H5 |].
  intros Hshort. rewrite H2. subst cmds. by rewrite drop_ge by lia.
Qed.

(** The loop of [get_weather] up to a line that is not ASCII. *)
Lemma get_weather_loop_raise pre bad post k : ∀ fuel w s,
  Forall plain (drop (Z.to_nat w) pre) → Py.decode_ascii bad = None →
  (k < fuel)%nat → 0 ≤ w → (Z.to_nat w + k)%nat = length pre →
  get_weather_loop W fuel (pre ++ bad :: post) w s =
    Raise UnicodeDecodeError
      (many_started ((λ l, speak (text_of l)) <$> drop (Z.to_nat w) pre) s).
Proof.
  induction k as [|k IH]; intros fuel w s Hp Hbad Hk Hw Hend;
    (destruct fuel as [|fuel]; [lia |]); simpl get_weather_loop;
    (destruct (Z.ltb_spec w (Z.of_nat (length (pre ++ bad :: post))));
       [| rewrite length_app in *; simpl in *; lia]).
  - assert (Py.index (pre ++ bad :: post) w = Some bad) as ->.
    { unfold Py.index. destruct (Z.leb_spec 0 w); [| lia].
      replace (Z.to_nat w) with (length pre + 0)%nat by lia.
      by rewrite lookup_app_r, Nat.add_comm, Nat.add_sub by lia. }
    cbv [value]. rewrite bind_run, ret_run. cbv beta iota.
    rewrite bind_run, Hbad. rewrite drop_ge by lia. reflexivity.
  - assert (Z.to_nat w < length pre)%nat as Hlt by lia.
    destruct (lookup_lt_is_Some_2 pre (Z.to_nat w) Hlt) as [line Hline].
    assert (Py.index (pre ++ bad :: post) w = Some line) as ->.
    { unfold Py.index. destruct (Z.leb_spec 0 w); [| lia].
      by rewrite lookup_app_l by lia. }
    rewrite (drop_S _ _ _ Hline) in Hp |- *. apply Forall_cons in Hp as [Hl Hp].
    cbv [value]. rewrite bind_run, ret_run. cbv beta iota.
    rewrite bind_run, (decode_plain line Hl), ret_run. cbv beta iota.
    rewrite bind_run, tts_run. cbv beta iota.
    replace (S (Z.to_nat w)) with (Z.to_nat (w + 1)) in * by lia.
    by rewrite IH by (done || lia).
Qed.

(** X18: when a line the weather process prints, the fifth or a later one,
    holds a byte that is not ASCII, [get_weather] speaks the airport and the
    lines before that one and then raises [UnicodeDecodeError]: the second
    amplifier sequence does not run and [is_playing] stays true. *)
Theorem get_weather_stops_at_non_ascii (s : State) (pre post : list (list byte))
    (bad : list byte) :
  weather_stdout W (clock s + 4)%nat = unlines (pre ++ bad :: post) →
  Forall unbroken (pre ++ bad :: post) → Forall plain (drop 4 pre) →
  (4 ≤ length pre)%nat → Py.decode_ascii bad = None →
  ∃ s', get_weather cfg W s = Raise UnicodeDecodeError s' ∧
        log s' = log s ++ ampli_sequence ++
                 (Popen <$> speak (weather_airport cfg) :: (WEATHER ++ [weather_ICAO cfg]) ::
                    ((λ l, speak (text_of l)) <$> drop 4 pre)) ∧
        is_playing s' = true.
Proof.
  intros Hout Hls Hpre Hlen Hbad.
  unfold get_weather. rewrite bind_run, modify_run. cbv beta iota.
  rewrite bind_run, ampli_on_off_run. cbv beta iota.
  rewrite bind_run, tts_run. cbv beta iota.
  rewrite bind_run. unfold popen_communicate.
  replace (clock (started (TTS ++ [weather_airport cfg])
                    (amplified (set_is_playing true s))))
    with (clock s + 4)%nat by (destruct s; eval_state; lia).
  rewrite Hout. cbv beta iota zeta. change (fst (?a, ?b)) with a.
  rewrite (splitlines_unlines _ Hls).
  rewrite bind_run, (get_weather_loop_raise pre bad post (length pre - 4))
    by (done || (rewrite ?length_app; simpl; lia)).
  change (Z.to_nat 4) with 4%nat.
  eexists. split; [reflexivity |].
  match goal with |- context [many_started ?c ?x] =>
    destruct (many_started_facts c x) as (-> & _ & _ & _ & _ & _ & -> & _) end.
  split; [| done]. destruct s. eval_state. rewrite <- !app_assoc. reflexivity.
Qed.

End Weather.

(** ** What a turn of the dial writes *)

Lemma only_logged_refl s : only_logged [] s s.
Proof. split; [by rewrite app_nil_r | done]. Qed.

Lemma only_logged_trans l1 l2 s1 s2 s3 :
  only_logged l1 s1 s2 → only_logged l2 s2 s3 → only_logged (l1 ++ l2) s1 s3.
Proof.
  intros [H1 G1] [H2 G2]. split.
  - by rewrite H2, H1, <- app_assoc.
  - intros pin Hpin. by rewrite G2, G1.
Qed.

Lemma only_logged_written level s :
  only_logged [GpioWrite pin_dialer_led level] s (written pin_dialer_led level s).
Proof.
  split; [by destruct s |]. intros pin Hpin. destruct s. eval_state.
  by rewrite lookup_insert_ne.
Qed.

Lemma risen_log s :
  let s_up := written pin_dialer_led PI_LOW
                ((if max_numbers <=? Z.of_nat (String.length (dialed_number (tick s)))
                  then set_dialed_number ""%string else id)
                   (written pin_dialer_led PI_HIGH
                      (set_pulses 0 (set_dialer_status PI_HIGH (tick s))))) in
  only_logged turn_begins s s_up.
Proof.
  cbv zeta. unfold only_logged, turn_begins. destruct s. eval_state.
  destruct (max_numbers <=? _); cbv [id]; eval_state; rewrite <- !app_assoc;
    (split; [done |]); intros pin Hpin; by rewrite !lookup_insert_ne.
Qed.

Lemma counted_log n s_up :
  let s1 := set_dialed_number (dialed_number (tick (set_pulses (pulses s_up + Z.of_nat n) s_up)) ++
                               Py.str (decoded (pulses (tick (set_pulses (pulses s_up + Z.of_nat n) s_up)))))%string
              (set_pulses (if pulses (tick (set_pulses (pulses s_up + Z.of_nat n) s_up)) =? 20 then 0
                           else pulses (tick (set_pulses (pulses s_up + Z.of_nat n) s_up)))
                 (set_dialer_status PI_LOW (tick (set_pulses (pulses s_up + Z.of_nat n) s_up)))) in
  only_logged [] s_up s1.
Proof.
  cbv zeta. unfold only_logged. destruct s_up. eval_state. by rewrite app_nil_r.
Qed.

Section TurnLog.

Variable cfg : Config.
Variable W : World.

(** A turn of the dial up to the call of the dispatcher, with what it
    wrote. *)
Lemma rotation_log n s :
  (0 < n)%nat →
  delivers (cb_dialer_handler s) = true → delivers (cb_counter_handler s) = true →
  off_hook_dialing W (clock s) 1 →
  ∃ s1, exec cfg W (rotation n) s =
          (check_number cfg W;; pi_write pin_dialer_led PI_LOW) s1 ∧
        dialed_number s1 = (fresh s ++ Py.str (decoded (Z.of_nat n)))%string ∧
        same_station s s1 ∧ clock s1 = S (S (clock s)) ∧
        only_logged turn_begins s s1.
Proof.
  intros Hn Hd Hc Hw. destruct (Hw O ltac:(lia)) as (Hh1 & Hd1 & Hh2 & Hd2).
  replace (clock s + 2 * 0 + 1)%nat with (S (clock s)) in * by lia.
  replace (clock s + 2 * 0 + 2)%nat with (S (S (clock s))) in * by lia.
  unfold rotation. rewrite exec_app, exec_cons, deliver_tick. cbv beta iota.
  rewrite exec_cons, deliver_dial by exact Hd.
  rewrite dial_detect_rise by assumption. cbv beta iota. rewrite exec_nil.
  pose proof (risen_facts s) as F. cbv zeta in F.
  pose proof (risen_log s) as L. cbv zeta in L.
  set (s_up := written pin_dialer_led PI_LOW _) in *.
  destruct F as (Hnum & Hsame & Hclock & Hp & Hst).
  assert (cb_dialer_handler s_up = cb_dialer_handler s ∧
          cb_counter_handler s_up = cb_counter_handler s) as [Hcd Hcc]
    by (by destruct Hsame as (?&?&?&?&?&?&?)).
  rewrite exec_app, pulses_run by (by rewrite ?Hcc).
  rewrite exec_cons, deliver_tick. cbv beta iota.
  rewrite exec_cons, deliver_dial by (by rewrite <- Hcd in Hd).
  rewrite dial_detect_fall
    by (change (clock (tick (set_pulses (pulses s_up + Z.of_nat n) s_up)))
          with (S (clock s_up)); by rewrite Hclock).
  pose proof (counted_facts n s_up Hp) as G. cbv zeta in G.
  pose proof (counted_log n s_up) as L'. cbv zeta in L'.
  set (s_counted := tick (set_pulses _ s_up)) in *.
  assert (dialed_number s_counted = fresh s) as Hnum' by (by rewrite <- Hnum).
  assert ((max_numbers <=? Z.of_nat (String.length (dialed_number s_counted))) = false) as ->.
  { rewrite Hnum'. unfold fresh.
    destruct (Z.leb_spec max_numbers (Z.of_nat (String.length (dialed_number s))))
      as [|Hlt]; [done |].
    by apply Z.leb_gt. }
  assert (pulses s_counted = Z.of_nat n) as Hp' by (subst s_counted; rewrite Hp; apply Z.add_0_l).
  destruct (Z.eqb_spec (pulses s_counted) 0) as [|_]; [lia |].
  set (s1 := set_dialed_number _ _) in *. destruct G as (G1 & G2 & G3).
  exists s1. split; [| split; [| split; [| split]]].
  - by destruct ((check_number cfg W;; pi_write pin_dialer_led PI_LOW) s1) as [[] ?|].
  - by rewrite G1, Hnum.
  - by eapply same_station_trans.
  - by rewrite G3, Hclock.
  - rewrite <- (app_nil_r turn_begins). by eapply only_logged_trans.
Qed.

Lemma rotation_quiet_log n s v :
  (0 < n)%nat →
  delivers (cb_dialer_handler s) = true → delivers (cb_counter_handler s) = true →
  off_hook_dialing W (clock s) 1 →
  Py.int (fresh s ++ Py.str (decoded (Z.of_nat n)))%string = Some v → 0 ≤ v < 100 →
  ∃ s', exec cfg W (rotation n) s = Ret tt s' ∧
        dialed_number s' = (fresh s ++ Py.str (decoded (Z.of_nat n)))%string ∧
        same_station s s' ∧ clock s' = S (S (clock s)) ∧
        only_logged turn_effects s s'.
Proof.
  intros Hn Hd Hc Hw Hv Hsmall.
  destruct (rotation_log n s Hn Hd Hc Hw) as (s1 & Hrun & Hnum & Hsame & Hclock & Hlog).
  exists (written pin_dialer_led PI_LOW s1). split; [| split; [| split; [| split]]].
  - rewrite Hrun, bind_run, (check_number_quiet cfg W s1 v) by (by rewrite ?Hnum).
    reflexivity.
  - by destruct s1.
  - eapply same_station_trans; [exact Hsame |]. by apply same_station_written.
  - by destruct s1.
  - eapply only_logged_trans; [exact Hlog | apply only_logged_written].
Qed.

(** Three digits dialled into a fresh buffer, with what the three turns
    wrote before the dispatcher is entered with the three of them. *)
Lemma dial3_log a b c s :
  0 ≤ a ≤ 9 → 0 ≤ b ≤ 9 → 0 ≤ c ≤ 9 →
  ready_to_dial s → off_hook_dialing W (clock s) 3 →
  ∃ s3, exec cfg W (dial [a; b; c]) s =
          (check_number cfg W;; pi_write pin_dialer_led PI_LOW) s3 ∧
        Py.int (dialed_number s3) = Some (100 * a + 10 * b + c) ∧
        same_station s s3 ∧
        only_logged (turn_effects ++ turn_effects ++ turn_begins) s s3.
Proof.
  intros Ha Hb Hc Hready Hw.
  destruct (int_digits3 a b c Ha Hb Hc) as (I1 & I2 & I3).
  destruct (decoded_edges a Ha) as [Ea Da]. destruct (decoded_edges b Hb) as [Eb Db].
  destruct (decoded_edges c Hc) as [Ec Dc].
  apply off_hook_dialing_tail in Hw as [W1 Hw].
  apply off_hook_dialing_tail in Hw as [W2 Hw].
  apply off_hook_dialing_tail in Hw as [W3 _].
  pose proof (fresh_ready s Hready) as F0. destruct Hready as (Hd & Hcn & _).
  destruct (rotation_quiet_log (edges a) s a Ea Hd Hcn W1) as (s1 & R1 & N1 & S1 & C1 & L1);
    [by rewrite F0, Da | lia |].
  rewrite F0, Da in N1. change ("" ++ Py.str a)%string with (Py.str a) in N1.
  assert (delivers (cb_dialer_handler s1) = true ∧ delivers (cb_counter_handler s1) = true)
    as [Hd1 Hcn1] by (by destruct S1 as (?&?&?&?&->&->&?)).
  assert (fresh s1 = Py.str a) as F1
    by (rewrite fresh_short; rewrite N1; [done | rewrite length_str_digit by done; lia]).
  rewrite <- C1 in W2.
  destruct (rotation_quiet_log (edges b) s1 (10 * a + b) Eb Hd1 Hcn1 W2)
    as (s2 & R2 & N2 & S2 & C2 & L2); [by rewrite F1, Db | lia |].
  rewrite F1, Db in N2.
  assert (delivers (cb_dialer_handler s2) = true ∧ delivers (cb_counter_handler s2) = true)
    as [Hd2 Hcn2] by (by destruct S2 as (?&?&?&?&->&->&?)).
  assert (fresh s2 = (Py.str a ++ Py.str b)%string) as F2.
  { rewrite fresh_short; rewrite N2; [done |].
    rewrite string_length_app, !length_str_digit by done. lia. }
  rewrite <- C1, <- C2 in W3.
  destruct (rotation_log (edges c) s2 Ec Hd2 Hcn2 W3) as (s3 & R3 & N3 & S3 & C3 & L3).
  rewrite F2, Dc in N3.
  exists s3. split; [| split; [| split]].
  - change (dial [a; b; c])
      with (rotation (edges a) ++ rotation (edges b) ++ rotation (edges c) ++ []).
    rewrite app_nil_r, exec_app, R1. cbv beta iota.
    rewrite exec_app, R2. cbv beta iota. exact R3.
  - by rewrite N3.
  - eapply same_station_trans; [| exact S3]. by eapply same_station_trans.
  - eapply only_logged_trans; [exact L1 |]. by eapply only_logged_trans.
Qed.

End TurnLog.

(** ** Numbers that are no command, the reboot and the reset *)

Section Numbers.

Variable cfg : Config.
Variable W : World.

Lemma dispatch_unknown n s : ¬ command_code cfg n → dispatch cfg W n s = Ret tt s.
Proof.
  unfold command_code. intros Hn. unfold dispatch.
  repeat match goal with
         | |- context [n =? ?k] => destruct (Z.eqb_spec n k); [tauto |]
         end.
  destruct (Z.leb_spec n (tracks cfg + 400)); destruct (Z.ltb_spec 400 n);
    cbv [andb]; try reflexivity.
  exfalso. apply Hn. do 4 right. left. lia.
Qed.

(** X12: three digits dialled into a fresh buffer that form no number
    [check_number] has a branch for start no process, speak no error
    message and leave the callbacks, the play position and the flags as they
    were; the three digits stay in the buffer. *)
Theorem unknown_number_is_silent (a b c : Z) (s : State) :
  0 ≤ a ≤ 9 → 0 ≤ b ≤ 9 → 0 ≤ c ≤ 9 → ¬ command_code cfg (100 * a + 10 * b + c) →
  ready_to_dial s → off_hook_dialing W (clock s) 3 →
  ∃ s', exec cfg W (dial [a; b; c]) s = Ret tt s' ∧
        dialed_number s' = ((Py.str a ++ Py.str b) ++ Py.str c)%string ∧
        same_station s s'.
Proof.
  intros Ha Hb Hc Hn Hready Hw.
  destruct (dial3_run cfg W a b c s) as (s3 & Hrun & Hnum & Hint & Hsame & _); try done.
  rewrite bind_run, (check_number_dispatch cfg W s3 _ Hint), dispatch_unknown in Hrun by done.
  rewrite pi_write_run in Hrun.
  eexists. split; [exact Hrun |]. split; [by destruct s3 |].
  eapply same_station_trans; [exact Hsame |]. by apply same_station_written.
Qed.

(** X13: with fewer than 599 tracks, dialling 9, 9, 9 starts the reboot
    command and nothing else: besides the writes of the dial indicator that
    every turn of the dial makes, the one process is all the program does.
    No amplifier pin is written, the callbacks are not released, and the
    playing flag and the play position are what they were.  (With 599 tracks
    or more the number falls in the range of the track selection, which is
    tested first.) *)
Theorem reboot_code_starts_reboot (s : State) :
  tracks cfg < 599 → ready_to_dial s → off_hook_dialing W (clock s) 3 →
  ∃ s', exec cfg W (dial [9; 9; 9]) s = Ret tt s' ∧
        log s' = log s ++ turn_effects ++ turn_effects ++ turn_begins ++
                 [Popen REBOOT; GpioWrite pin_dialer_led PI_LOW] ∧
        (∀ pin, pin ≠ pin_dialer_led → gpio s' !! pin = gpio s !! pin) ∧
        processes (log s') = processes (log s) ++ [REBOOT] ∧
        handlers s' = handlers s ∧ is_playing s' = is_playing s ∧
        track_position s' = track_position s.
Proof.
  intros Hn Hready Hw.
  destruct (dial3_log cfg W 9 9 9 s) as (s3 & Hrun & Hint & Hsame & Hlog3 & Hgpio3);
    [lia | lia | lia | done | done |].
  rewrite bind_run, (check_number_dispatch cfg W s3 _ Hint) in Hrun.
  assert (dispatch cfg W 999 s3 = Ret tt (started REBOOT s3)) as Hd.
  { unfold dispatch. change (999 =? 666) with false. change (999 =? 321) with false.
    change (999 =? 123) with false. change (999 =? 124) with false.
    destruct (Z.leb_spec 999 (tracks cfg + 400)); [lia |]. cbv [andb].
    change (999 =? 111) with false. change (999 =? 999) with true. cbv beta iota.
    by rewrite bind_run, runCmd_run. }
  change (100 * 9 + 10 * 9 + 9) with 999 in Hrun. rewrite Hd, pi_write_run in Hrun.
  eexists. split; [exact Hrun |].
  destruct Hsame as (Hp & Hpl & _ & Hh & Hdl & Hc & _ & Hlog).
  split; [| split; [| split; [| split; [| split]]]].
  - change (log (written pin_dialer_led PI_LOW (started REBOOT s3)))
      with ((log s3 ++ [Popen REBOOT]) ++ [GpioWrite pin_dialer_led PI_LOW]).
    rewrite Hlog3, <- !app_assoc. reflexivity.
  - intros pin Hpin. rewrite <- (Hgpio3 pin Hpin). destruct s3. eval_state.
    by rewrite lookup_insert_ne.
  - rewrite <- Hlog. destruct s3. eval_state. rewrite !processes_app. simpl.
    by rewrite app_nil_r.
  - transitivity (handlers s3); [by destruct s3 |]. unfold handlers. by rewrite Hh, Hdl, Hc.
  - rewrite <- Hpl. by destruct s3.
  - rewrite <- Hp. by destruct s3.
Qed.

(** The reset code followed to the end of the callback of the dial. *)
Lemma reset_run (s : State) :
  ready_to_dial s → off_hook_dialing W (clock s) 3 →
  ∃ s', exec cfg W (dial [6; 6; 6]) s = Ret tt s' ∧
        track_position s' = track_position s ∧ is_playing s' = is_playing s ∧
        gpio s' !! pin_hangout_led = Some PI_LOW ∧
        handlers s' = handlers s ∧ processes (log s') = processes (log s) ∧
        dialed_number s' = ""%string ∧ clock s' = (clock s + 6)%nat.
Proof.
  intros Hready Hw.
  destruct (dial3_run cfg W 6 6 6 s) as (s3 & Hrun & _ & Hint & Hsame & Hclock);
    [lia | lia | lia | done | done |].
  rewrite bind_run, (check_number_dispatch cfg W s3 666 Hint) in Hrun.
  change (dispatch cfg W 666) with (modify (set_dialed_number ""%string);; reinit) in Hrun.
  rewrite bind_run, modify_run, reinit_run in Hrun. cbv beta iota in Hrun.
  rewrite pi_write_run in Hrun. eexists. split; [exact Hrun |].
  destruct Hsame as (Hp & Hpl & _ & Hh & Hdl & Hc & _ & Hlog).
  split; [| split; [| split; [| split; [| split; [| split]]]]].
  - rewrite <- Hp. by destruct s3.
  - rewrite <- Hpl. by destruct s3.
  - destruct s3. eval_state. rewrite !lookup_insert_ne by done. apply lookup_insert_eq.
  - transitivity (handlers s3); [by destruct s3 |]. unfold handlers. by rewrite Hh, Hdl, Hc.
  - rewrite <- Hlog. destruct s3. eval_state. rewrite !processes_app. simpl.
    by rewrite !app_nil_r.
  - by destruct s3.
  - rewrite <- Hclock. by destruct s3.
Qed.

(** X6: dialling 6, 6, 6 into a fresh buffer switches the three indicators
    off and empties the buffer, and that is all: [reinit] assigns
    [track_position] and [is_playing] as locals, so the play position and the
    playing flag keep their values; the callbacks stay registered and no
    process is started. *)
Theorem reset_code_keeps_position (s : State) :
  ready_to_dial s → off_hook_dialing W (clock s) 3 →
  ∃ s', exec cfg W (dial [6; 6; 6]) s = Ret tt s' ∧
        track_position s' = track_position s ∧ is_playing s' = is_playing s ∧
        gpio s' !! pin_hangout_led = Some PI_LOW ∧
        handlers s' = handlers s ∧ processes (log s') = processes (log s).
Proof.
  intros Hready Hw.
  destruct (reset_run s Hready Hw) as (s' & H1 & H2 & H3 & H4 & H5 & H6 & _).
  by exists s'.
Qed.

Lemma off_hook_dialing_split W' t a b :
  off_hook_dialing W' t (a + b) →
  off_hook_dialing W' t a ∧ off_hook_dialing W' (t + 2 * a) b.
Proof.
  intros H. split; intros i Hi.
  - apply H. lia.
  - specialize (H (a + i)%nat ltac:(lia)).
    by replace (t + 2 * a + 2 * i + 1)%nat with (t + 2 * (a + i) + 1)%nat by lia;
       replace (t + 2 * a + 2 * i + 2)%nat with (t + 2 * (a + i) + 2)%nat by lia.
Qed.

Lemma hook_alone pin v x :
  all_cancelled x →
  handlers (written pin v (set_cb_hangout_handler pi_callback x)) =
    (registered, cancelled, cancelled).
Proof.
  unfold all_cancelled, handlers. destruct x. eval_state. by intros [= -> -> ->].
Qed.

Lemma track_played_gate s :
  gpio (track_played cfg (released s)) !! pin_hangout_led = gpio s !! pin_hangout_led ∧
  handlers (track_played cfg (released s)) = handlers (released s).
Proof.
  unfold track_played, handlers. destruct s. eval_state.
  by rewrite !lookup_insert_ne by done.
Qed.

(** X15: after the reset code the ready indicator is low, and it is the
    indicator that [check_number] reads after an action: the next-track
    command dialled after 6, 6, 6 plays its track and then registers the
    hook callback alone.  The handset is still lifted, but no edge of the
    dial pins runs any code from then on. *)
Theorem command_after_reset_disarms_dial (s : State) :
  messages_ok cfg → playlist_ok cfg → tidy s → 0 ≤ track_position s < tracks cfg →
  ready_to_dial s → off_hook_dialing W (clock s) 6 →
  ∃ s', exec cfg W (dial [6; 6; 6] ++ dial [3; 2; 1]) s = Ret tt s' ∧
        processes (log s') =
          processes (log s) ++ track_processes cfg (Z.to_nat (track_position s)) ∧
        handlers s' = (registered, cancelled, cancelled) ∧
        ∀ evs, Forall (λ e, e = DialEdge ∨ e = PulseEdge) evs →
               exec cfg W evs s' = Ret tt s'.
Proof.
  intros Hm Hl Ht Hp Hready Hw.
  apply (off_hook_dialing_split W (clock s) 3 3) in Hw as [Hw1 Hw2].
  destruct (reset_run s Hready Hw1)
    as (s1 & Hrun1 & Hpos1 & _ & Hled1 & Hh1 & Hlog1 & Hnum1 & Hclock1).
  assert (ready_to_dial s1) as Hready1.
  { destruct Hready as (Hd & Hc & _). unfold handlers in Hh1. injection Hh1 as _ H2 H3.
    unfold ready_to_dial. rewrite H2, H3. split; [done |]. split; [done |]. by left. }
  replace (clock s + 2 * 3)%nat with (clock s1) in Hw2 by lia.
  destruct (dial3_run cfg W 3 2 1 s1) as (s3 & Hrun & _ & Hint & Hsame & _);
    [lia | lia | lia | done | done |].
  destruct Hsame as (Hpos3 & _ & _ & Hh & Hd & Hc & Hled3 & Hlog3).
  rewrite next_track_run in Hrun by (done || lia).
  rewrite exec_app, Hrun1. cbv beta iota.
  destruct (track_played_gate s3) as [Hgate Hhandlers].
  assert (tidy s3) as Ht3.
  { apply (tidy_handlers s); [| done]. rewrite <- Hh1. unfold handlers. by rewrite Hh, Hd, Hc. }
  assert (rearmed (track_played cfg (released s3)) =
          set_cb_hangout_handler pi_callback (track_played cfg (released s3))) as Hre.
  { unfold rearmed. by rewrite Hgate, Hled3, Hled1. }
  rewrite Hre in Hrun.
  set (s' := written pin_dialer_led PI_LOW _) in Hrun.
  assert (handlers s' = (registered, cancelled, cancelled)) as Hs'.
  { pose proof (released_handlers s3 Ht3) as Hr. rewrite <- Hhandlers in Hr.
    subst s'. by apply hook_alone. }
  exists s'. split; [exact Hrun |]. split; [| split; [exact Hs' |]].
  - destruct (track_played_facts cfg s3) as (_ & Hlog & _).
    rewrite <- Hlog1, <- Hpos1, <- Hlog3, <- Hpos3, <- Hlog.
    subst s'. unfold rearmed.
    destruct (_ =? _); cbv [id]; destruct (track_played cfg (released s3));
      eval_state; rewrite !processes_app; simpl; by rewrite ?app_nil_r.
  - assert (cb_dialer_handler s' = cancelled ∧ cb_counter_handler s' = cancelled) as [H2 H3]
      by (split; [exact (f_equal (λ p, snd (fst p)) Hs') | exact (f_equal snd Hs')]).
    intros evs Hevs. induction Hevs as [|e evs He _ IH]; [done |].
    rewrite exec_cons, (deliver_unregistered cfg W e s'); [exact IH | | | exact He].
    + by rewrite H2.
    + by rewrite H3.
Qed.

End Numbers.

(** ** The dial with the handset down *)

Section OnHook.

Variable cfg : Config.
Variable W : World.

Lemma ticks_facts n s :
  dialer_status (ticks n s) = dialer_status s ∧ clock (ticks n s) = (clock s + n)%nat.
Proof.
  induction n as [|n [IH1 IH2]]; [split; [done | simpl; lia] |].
  change (ticks (S n) s) with (tick (ticks n s)).
  split; [by rewrite <- IH1 |]. change (clock (tick ?x)) with (S (clock x)). lia.
Qed.

Lemma ticks_add n m s : ticks n (ticks m s) = ticks (n + m) s.
Proof. unfold ticks. by rewrite Nat.iter_add. Qed.

Lemma pulses_on_hook n s :
  dialer_status s ≠ PI_HIGH → exec cfg W (repeat PulseEdge n) s = Ret tt s.
Proof.
  intros Hs. induction n as [|n IH]; [done |].
  simpl repeat. rewrite exec_cons.
  assert (deliver cfg W PulseEdge s = Ret tt s) as ->; [| exact IH].
  unfold deliver. rewrite bind_run, gets_run. destruct (delivers _); [| done].
  unfold pulse_count. rewrite bind_run, gets_run.
  by destruct (Z.eqb_spec (dialer_status s) PI_HIGH).
Qed.

Lemma dial_edge_on_hook s :
  input W (clock s) pin_phone_hangout ≠ PI_HIGH → deliver cfg W DialEdge s = Ret tt s.
Proof.
  intros Hh. unfold deliver. rewrite bind_run, gets_run. destruct (delivers _); [| done].
  by apply dial_detect_on_hook.
Qed.

Lemma rotation_on_hook n s :
  (∀ t, input W t pin_phone_hangout ≠ PI_HIGH) → dialer_status s ≠ PI_HIGH →
  exec cfg W (rotation n) s = Ret tt (ticks 2 s).
Proof.
  intros Hh Hs. unfold rotation.
  rewrite exec_app, exec_cons, deliver_tick. cbv beta iota.
  rewrite exec_cons, dial_edge_on_hook by done. cbv beta iota. rewrite exec_nil.
  rewrite exec_app, pulses_on_hook by done.
  rewrite exec_cons, deliver_tick. cbv beta iota.
  by rewrite exec_cons, dial_edge_on_hook by done.
Qed.

(** X14: while the line does not read high (the handset is on the hook),
    turning the dial changes nothing but the time: whether or not the
    callbacks of the dial are registered, no pulse is counted, no digit
    enters the buffer, no indicator is written and no command runs. *)
Theorem dial_ignored_on_hook (ds : list Z) (s : State) :
  (∀ t, input W t pin_phone_hangout ≠ PI_HIGH) → dialer_status s ≠ PI_HIGH →
  exec cfg W (dial ds) s = Ret tt (ticks (2 * length ds) s).
Proof.
  intros Hh. revert s. induction ds as [|d ds IH]; intros s Hs; [done |].
  change (dial (d :: ds)) with (rotation (edges d) ++ dial ds).
  rewrite exec_app, rotation_on_hook by done.
  rewrite IH by (by rewrite (proj1 (ticks_facts 2 s))).
  rewrite ticks_add. do 2 f_equal. simpl length. lia.
Qed.

End OnHook.

(** ** Selecting any track *)

Section Select.

Variable cfg : Config.
Variable W : World.

(** X16: three digits that form a number [n] above 400 and up to 400 +
    [tracks], other than 666, announce and play the track at index
    [n - 401], and nothing else, and leave the play position at the track
    after it: [(n - 400) mod tracks]. *)
Theorem track_select_plays_chosen (a b c : Z) (s : State) :
  messages_ok cfg → playlist_ok cfg → 0 ≤ a ≤ 9 → 0 ≤ b ≤ 9 → 0 ≤ c ≤ 9 →
  400 < 100 * a + 10 * b + c ≤ tracks cfg + 400 → 100 * a + 10 * b + c ≠ 666 →
  ready_to_dial s → off_hook_dialing W (clock s) 3 →
  ∃ s', exec cfg W (dial [a; b; c]) s = Ret tt s' ∧
        processes (log s') =
          processes (log s) ++
          track_processes cfg (Z.to_nat (100 * a + 10 * b + c - 401)) ∧
        track_position s' = (100 * a + 10 * b + c - 400) `mod` tracks cfg.
Proof.
  intros Hm Hl Ha Hb Hc Hsel Hreset Hready Hw. set (n := 100 * a + 10 * b + c) in *.
  destruct (dial3_run cfg W a b c s) as (s3 & Hrun & _ & Hint & Hsame & _); try done.
  destruct Hsame as (_ & _ & _ & _ & _ & _ & _ & Hlog3).
  fold n in Hint.
  rewrite (track_select_run cfg W s3 n) in Hrun
    by (done || (unfold action_code; lia)).
  eexists. split; [exact Hrun |].
  match type of Hrun with _ = Ret _ (written _ _ ?x) =>
    destruct (written_facts pin_dialer_led PI_LOW x) as (-> & _ & _ & _ & ->) end.
  destruct (track_played_facts cfg (set_track_position (n - 401) s3)) as (-> & -> & _).
  change (log (set_track_position (n - 401) s3)) with (log s3).
  change (track_position (set_track_position (n - 401) s3)) with (n - 401).
  rewrite Hlog3. split; [done |].
  rewrite next_position_mod by lia. f_equal. lia.
Qed.

End Select.

(** ** The further statements on the demonstration telephone *)

Lemma answered_tidy p : tidy (answered_at p).
Proof. by vm_compute. Defined.

Lemma lifted_dialing6 p : off_hook_dialing lifted (clock (answered_at p)) 6.
Proof.
  intros i Hi. destruct i as [|[|[|[|[|[|i]]]]]]; [| | | | | | lia];
    (split; [vm_compute; reflexivity |]); (split; [vm_compute; reflexivity |]);
    (split; vm_compute; reflexivity).
Defined.

Lemma dial_detect_digits_witness :
  let s := final (exec demo_cfg lifted (HookEdge :: dial [1; 2; 4]) booted) in
  dialed_number s ≠ ""%string ∧ is_Some (Py.int (dialed_number s)).
Proof.
  cbv zeta.
  assert (dialed_number (final (exec demo_cfg lifted (HookEdge :: dial [1; 2; 4]) booted))
          ≠ ""%string) as Hne by (vm_compute; discriminate).
  split; [exact Hne |].
  destruct (dial_detect_digits demo_cfg lifted (HookEdge :: dial [1; 2; 4])) as (_ & _ & H).
  exact (H Hne).
Defined.

Lemma rearm_follows_indicator_witness :
  let s := set_dialed_number "321"%string (answered_at 0) in
  let s' := final (check_number demo_cfg lifted s) in
  Py.int (dialed_number s) = Some 321 ∧ action_code demo_cfg 321 ∧
  check_number demo_cfg lifted s = Ret tt s' ∧
  delivers (cb_hangout_handler s') = true ∧
  cb_dialer_handler s' =
    (if default 0 (gpio s !! pin_hangout_led) =? PI_HIGH
     then pi_callback (cancel (cb_dialer_handler s))
     else cancel (cb_dialer_handler s)).
Proof.
  cbv zeta.
  assert (Py.int (dialed_number (set_dialed_number "321"%string (answered_at 0))) = Some 321)
    as Hn by (vm_compute; reflexivity).
  assert (action_code demo_cfg 321) as Hc by (split; [lia | tauto]).
  assert (check_number demo_cfg lifted (set_dialed_number "321"%string (answered_at 0)) =
          Ret tt (final (check_number demo_cfg lifted
                           (set_dialed_number "321"%string (answered_at 0))))) as Hrun
    by (vm_compute; reflexivity).
  split; [exact Hn |]. split; [exact Hc |]. split; [exact Hrun |].
  exact (rearm_follows_indicator demo_cfg lifted _ _ 321 Hn Hc Hrun).
Defined.

Lemma pick_up_arms_dial_witness :
  delivers (cb_hangout_handler booted) = true ∧
  input lifted (clock booted) pin_phone_hangout = PI_HIGH ∧
  ∃ s', deliver demo_cfg lifted HookEdge booted = Ret tt s' ∧
        gpio s' !! pin_hangout_led = Some PI_HIGH ∧
        delivers (cb_dialer_handler s') = true ∧
        delivers (cb_counter_handler s') = true.
Proof.
  assert (delivers (cb_hangout_handler booted) = true) as Hd by (vm_compute; reflexivity).
  assert (input lifted (clock booted) pin_phone_hangout = PI_HIGH) as Hh
    by (vm_compute; reflexivity).
  split; [exact Hd |]. split; [exact Hh |].
  destruct (pick_up_arms_dial demo_cfg lifted booted demo_messages_ok Hd Hh)
    as (s' & Hrun & _ & Hled & _ & H2 & H3 & _).
  exists s'. split; [exact Hrun |]. split; [exact Hled |]. split; [exact H2 | exact H3].
Defined.

Lemma hang_up_silences_dial_witness :
  tidy (answered_at 0) ∧ delivers (cb_hangout_handler (answered_at 0)) = true ∧
  input (hangs_up_at 7) (clock (answered_at 0)) pin_phone_hangout ≠ PI_HIGH ∧
  ∃ s', deliver demo_cfg (hangs_up_at 7) HookEdge (answered_at 0) = Ret tt s' ∧
        dialed_number s' = ""%string ∧
        handlers s' = (registered, cancelled, cancelled).
Proof.
  assert (delivers (cb_hangout_handler (answered_at 0)) = true) as Hd
    by (vm_compute; reflexivity).
  assert (input (hangs_up_at 7) (clock (answered_at 0)) pin_phone_hangout ≠ PI_HIGH) as Hh
    by (vm_compute; discriminate).
  split; [exact (answered_tidy 0) |]. split; [exact Hd |]. split; [exact Hh |].
  destruct (hang_up_silences_dial demo_cfg (hangs_up_at 7) (answered_at 0)
              demo_messages_ok (answered_tidy 0) Hd Hh)
    as (s' & Hrun & _ & _ & Hnum & Hhs & _).
  exists s'. split; [exact Hrun |]. split; [exact Hnum | exact Hhs].
Defined.

Lemma reset_code_keeps_position_witness :
  ready_to_dial (answered_at 3) ∧ off_hook_dialing lifted (clock (answered_at 3)) 3 ∧
  ∃ s', exec demo_cfg lifted (dial [6; 6; 6]) (answered_at 3) = Ret tt s' ∧
        track_position s' = track_position (answered_at 3) ∧
        is_playing s' = is_playing (answered_at 3) ∧
        gpio s' !! pin_hangout_led = Some PI_LOW.
Proof.
  split; [exact (answered_ready 3) |]. split; [exact (lifted_dialing 3) |].
  destruct (reset_code_keeps_position demo_cfg lifted (answered_at 3)
              (answered_ready 3) (lifted_dialing 3)) as (s' & Hrun & H1 & H2 & H3 & _).
  exists s'. split; [exact Hrun |]. split; [exact H1 |]. split; [exact H2 | exact H3].
Defined.

Lemma play_all_ends_past_the_list_witness :
  (∀ i, (1 ≤ i < Z.to_nat (tracks demo_cfg))%nat →
        input lifted (clock (answered_at 0) + 4 + 2 * i)%nat pin_phone_hangout ≠ PI_LOW) ∧
  ∃ s', play_all_tracks demo_cfg lifted (answered_at 0) = Ret tt s' ∧
        track_position s' = tracks demo_cfg ∧
        Py.index (track_titles demo_cfg) (track_position s') = None.
Proof.
  assert (∀ i, (1 ≤ i < Z.to_nat (tracks demo_cfg))%nat →
               input lifted (clock (answered_at 0) + 4 + 2 * i)%nat pin_phone_hangout ≠ PI_LOW)
    as Hon.
  { intros i Hi. change (Z.to_nat (tracks demo_cfg)) with 6%nat in Hi.
    destruct i as [|[|[|[|[|[|i]]]]]]; try lia; vm_compute; discriminate. }
  split; [exact Hon |].
  destruct (play_all_ends_past_the_list demo_cfg lifted (answered_at 0)
              demo_messages_ok demo_playlist_ok Hon) as (s' & Hrun & H1 & H2 & _).
  exists s'. split; [exact Hrun |]. split; [exact H1 | exact H2].
Defined.

Lemma next_track_past_the_list_raises_witness :
  tidy (answered_at 6) ∧ track_position (answered_at 6) = tracks demo_cfg ∧
  ∃ s', exec demo_cfg lifted (dial [3; 2; 1]) (answered_at 6) = Raise IndexError s' ∧
        all_cancelled s' ∧ is_playing s' = true.
Proof.
  assert (track_position (answered_at 6) = tracks demo_cfg) as Hp by (vm_compute; reflexivity).
  split; [exact (answered_tidy 6) |]. split; [exact Hp |].
  destruct (next_track_past_the_list_raises demo_cfg lifted (answered_at 6)
              demo_messages_ok demo_playlist_ok (answered_tidy 6) Hp
              (answered_ready 6) (lifted_dialing 6)) as (s' & Hrun & H1 & H2 & _).
  exists s'. split; [exact Hrun |]. split; [exact H1 | exact H2].
Defined.

Lemma list_all_tracks_speaks_titles_witness :
  ∃ s', list_all_tracks demo_cfg lifted (answered_at 2) = Ret tt s' ∧
        log s' = log (answered_at 2) ++ ampli_sequence ++
                 (Popen <$> speak (titles_preamble demo_cfg) ::
                    map (λ i, speak (title_line demo_cfg i))
                      (seq 0 (Z.to_nat (tracks demo_cfg)))) ++
                 ampli_sequence ∧
        track_position s' = track_position (answered_at 2).
Proof.
  destruct (list_all_tracks_speaks_titles demo_cfg lifted (answered_at 2)
              demo_messages_ok demo_playlist_ok) as (s' & Hrun & H1 & H2 & _).
  exists s'. split; [exact Hrun |]. split; [exact H1 | exact H2].
Defined.

Lemma say_help_speaks_help_witness :
  help_ok demo_cfg ∧
  ∃ s', say_help demo_cfg lifted (answered_at 0) = Ret tt s' ∧
        log s' = log (answered_at 0) ++ ampli_sequence ++
                 (Popen <$> (speak <$> take (Z.to_nat (help_strings demo_cfg))
                                         (help_messages demo_cfg))) ++
                 ampli_sequence.
Proof.
  assert (help_ok demo_cfg) as Hh by (unfold help_ok; vm_compute; discriminate).
  split; [exact Hh |].
  destruct (say_help_speaks_help demo_cfg lifted (answered_at 0)) as [Hok _].
  destruct (Hok Hh) as (s' & Hrun & H1 & _).
  exists s'. split; [exact Hrun | exact H1].
Defined.

Lemma demo_forecast_plain : Forall plain demo_forecast.
Proof.
  unfold demo_forecast, plain. cbn.
  repeat match goal with
         | |- Forall _ [] => apply List.Forall_nil
         | |- Forall _ (_ :: _) => apply List.Forall_cons
         | |- _ ∧ _ => split
         | |- _ ≠ _ => discriminate
         | |- (_ < _)%N => reflexivity
         end.
Defined.

Lemma get_weather_speaks_forecast_witness :
  weather_stdout (forecasting demo_forecast) (clock (answered_at 0) + 4)%nat =
    unlines demo_forecast ∧
  Forall plain demo_forecast ∧
  ∃ s', get_weather demo_cfg (forecasting demo_forecast) (answered_at 0) = Ret tt s' ∧
        log s' = log (answered_at 0) ++ ampli_sequence ++
                 (Popen <$> speak (weather_airport demo_cfg) ::
                    (WEATHER ++ [weather_ICAO demo_cfg]) ::
                    ((λ l, speak (text_of l)) <$> drop 4 demo_forecast)) ++
                 ampli_sequence.
Proof.
  assert (weather_stdout (forecasting demo_forecast) (clock (answered_at 0) + 4)%nat =
          unlines demo_forecast) as Hout by reflexivity.
  split; [exact Hout |]. split; [exact demo_forecast_plain |].
  destruct (get_weather_speaks_forecast demo_cfg (forecasting demo_forecast) (answered_at 0)
              demo_forecast Hout demo_forecast_plain) as (s' & Hrun & H1 & _).
  exists s'. split; [exact Hrun | exact H1].
Defined.

Lemma unknown_number_is_silent_witness :
  ¬ command_code demo_cfg (100 * 2 + 10 * 2 + 2) ∧
  ∃ s', exec demo_cfg lifted (dial [2; 2; 2]) (answered_at 0) = Ret tt s' ∧
        dialed_number s' = ((Py.str 2 ++ Py.str 2) ++ Py.str 2)%string ∧
        same_station (answered_at 0) s'.
Proof.
  assert (¬ command_code demo_cfg (100 * 2 + 10 * 2 + 2)) as Hn.
  { unfold command_code. change (tracks demo_cfg) with 6. lia. }
  split; [exact Hn |].
  apply (unknown_number_is_silent demo_cfg lifted 2 2 2 (answered_at 0));
    [lia | lia | lia | exact Hn | exact (answered_ready 0) | exact (lifted_dialing 0)].
Defined.

Lemma reboot_code_starts_reboot_witness :
  tracks demo_cfg < 599 ∧
  ∃ s', exec demo_cfg lifted (dial [9; 9; 9]) (answered_at 0) = Ret tt s' ∧
        log s' = log (answered_at 0) ++ turn_effects ++ turn_effects ++ turn_begins ++
                 [Popen REBOOT; GpioWrite pin_dialer_led PI_LOW] ∧
        gpio s' !! pin_ampli_power = gpio (answered_at 0) !! pin_ampli_power ∧
        gpio s' !! pin_ampli_mode = gpio (answered_at 0) !! pin_ampli_mode ∧
        processes (log s') = processes (log (answered_at 0)) ++ [REBOOT] ∧
        handlers s' = handlers (answered_at 0).
Proof.
  assert (tracks demo_cfg < 599) as Hn by (vm_compute; reflexivity).
  split; [exact Hn |].
  destruct (reboot_code_starts_reboot demo_cfg lifted (answered_at 0) Hn
              (answered_ready 0) (lifted_dialing 0)) as (s' & Hrun & H0 & Hg & H1 & H2 & _).
  exists s'. split; [exact Hrun |]. split; [exact H0 |].
  split; [apply Hg; discriminate |]. split; [apply Hg; discriminate |].
  split; [exact H1 | exact H2].
Defined.

Lemma command_after_reset_disarms_dial_witness :
  tidy (answered_at 2) ∧ 0 ≤ track_position (answered_at 2) < tracks demo_cfg ∧
  off_hook_dialing lifted (clock (answered_at 2)) 6 ∧
  ∃ s', exec demo_cfg lifted (dial [6; 6; 6] ++ dial [3; 2; 1]) (answered_at 2) = Ret tt s' ∧
        processes (log s') =
          processes (log (answered_at 2)) ++
          track_processes demo_cfg (Z.to_nat (track_position (answered_at 2))) ∧
        handlers s' = (registered, cancelled, cancelled).
Proof.
  assert (0 ≤ track_position (answered_at 2) < tracks demo_cfg) as Hp
    by (vm_compute; split; discriminate || reflexivity).
  split; [exact (answered_tidy 2) |]. split; [exact Hp |].
  split; [exact (lifted_dialing6 2) |].
  destruct (command_after_reset_disarms_dial demo_cfg lifted (answered_at 2)
              demo_messages_ok demo_playlist_ok (answered_tidy 2) Hp
              (answered_ready 2) (lifted_dialing6 2)) as (s' & Hrun & H1 & H2 & _).
  exists s'. split; [exact Hrun |]. split; [exact H1 | exact H2].
Defined.

Lemma dial_ignored_on_hook_witness :
  (∀ t, input (hangs_up_at 0) t pin_phone_hangout ≠ PI_HIGH) ∧
  dialer_status booted ≠ PI_HIGH ∧
  exec demo_cfg (hangs_up_at 0) (dial [3; 2; 1]) booted =
    Ret tt (ticks (2 * length [3; 2; 1]) booted).
Proof.
  assert (∀ t, input (hangs_up_at 0) t pin_phone_hangout ≠ PI_HIGH) as Hh
    by (intros t; vm_compute; discriminate).
  assert (dialer_status booted ≠ PI_HIGH) as Hs by (vm_compute; discriminate).
  split; [exact Hh |]. split; [exact Hs |].
  exact (dial_ignored_on_hook demo_cfg (hangs_up_at 0) [3; 2; 1] booted Hh Hs).
Defined.

Lemma track_select_plays_chosen_witness :
  400 < 100 * 4 + 10 * 0 + 3 ≤ tracks demo_cfg + 400 ∧
  ∃ s', exec demo_cfg lifted (dial [4; 0; 3]) (answered_at 0) = Ret tt s' ∧
        processes (log s') =
          processes (log (answered_at 0)) ++
          track_processes demo_cfg (Z.to_nat (100 * 4 + 10 * 0 + 3 - 401)) ∧
        track_position s' = (100 * 4 + 10 * 0 + 3 - 400) `mod` tracks demo_cfg.
Proof.
  assert (400 < 100 * 4 + 10 * 0 + 3 ≤ tracks demo_cfg + 400) as Hsel
    by (change (tracks demo_cfg) with 6; lia).
  split; [exact Hsel |].
  apply (track_select_plays_chosen demo_cfg lifted 4 0 3 (answered_at 0)
           demo_messages_ok demo_playlist_ok);
    [lia | lia | lia | exact Hsel | lia | exact (answered_ready 0) | exact (lifted_dialing 0)].
Defined.

Lemma handset_cycle_clears_number_witness :
  let s := set_dialed_number "12"%string (answered_at 4) in
  tidy s ∧ input (lifted_again 7 10) (clock s) pin_phone_hangout ≠ PI_HIGH ∧
  input (lifted_again 7 10) (clock s + 8)%nat pin_phone_hangout = PI_HIGH ∧
  ∃ s', exec demo_cfg (lifted_again 7 10) [HookEdge; Tick; HookEdge] s = Ret tt s' ∧
        ready_to_dial s' ∧ dialed_number s' = ""%string ∧
        track_position s' = track_position s.
Proof.
  cbv zeta. set (s := set_dialed_number "12"%string (answered_at 4)).
  assert (tidy s) as Ht by (by vm_compute).
  assert (delivers (cb_hangout_handler s) = true) as Hd by (vm_compute; reflexivity).
  assert (input (lifted_again 7 10) (clock s) pin_phone_hangout ≠ PI_HIGH) as Hlow
    by (vm_compute; discriminate).
  assert (input (lifted_again 7 10) (clock s + 8)%nat pin_phone_hangout = PI_HIGH) as Hhigh
    by (vm_compute; reflexivity).
  split; [exact Ht |]. split; [exact Hlow |]. split; [exact Hhigh |].
  destruct (handset_cycle_clears_number demo_cfg (lifted_again 7 10) s
              demo_messages_ok Ht Hd Hlow Hhigh) as (s' & Hrun & H1 & H2 & _ & _ & H3).
  exists s'. split; [exact Hrun |]. split; [exact H1 |]. split; [exact H2 | exact H3].
Defined.

Lemma demo_forecast_unbroken : Forall unbroken (demo_forecast ++ [[xb0]]).
Proof.
  unfold demo_forecast, unbroken. cbn.
  repeat match goal with
         | |- Forall _ [] => apply List.Forall_nil
         | |- Forall _ (_ :: _) => apply List.Forall_cons
         | |- _ ∧ _ => split
         | |- _ ≠ _ => discriminate
         end.
Defined.

Lemma get_weather_stops_at_non_ascii_witness :
  Forall plain (drop 4 demo_forecast) ∧ Py.decode_ascii [xb0] = None ∧
  ∃ s', get_weather demo_cfg (forecasting (demo_forecast ++ [[xb0]])) (answered_at 0) =
          Raise UnicodeDecodeError s' ∧
        is_playing s' = true.
Proof.
  assert (Forall plain (drop 4 demo_forecast)) as Hp
    by (apply Forall_drop, demo_forecast_plain).
  assert (Py.decode_ascii [xb0] = None) as Hbad by (vm_compute; reflexivity).
  split; [exact Hp |]. split; [exact Hbad |].
  destruct (get_weather_stops_at_non_ascii demo_cfg (forecasting (demo_forecast ++ [[xb0]]))
              (answered_at 0) demo_forecast [] [xb0] eq_refl demo_forecast_unbroken Hp
              ltac:(vm_compute; lia) Hbad) as (s' & Hrun & _ & H2).
  exists s'. split; [exact Hrun | exact H2].
Defined.
